(** * Federal Register API client: query building, pagination, lookups

    A shallow embedding of [src/federal-register-api.ts].

    - JavaScript strings are modelled by their UTF-8 byte sequence
      ([string]); [encodeURIComponent] then works byte by byte.
    - JavaScript numbers that occur here (page numbers, page sizes, result
      counts, executive-order numbers, epoch milliseconds) are integers and
      are modelled by [Z]; an absent or NaN number is [None].
    - A JavaScript object used as a mapping is the list of its entries in
      [Object.entries] order.
    - A promise is a computation over an explicit world state that either
      resolves ([Ok]) or rejects ([Throw]). *)

From Stdlib Require Import ZArith List Bool Ascii String Lia.
From Stdlib Require Import Numbers.DecimalString.
Import ListNotations.

Set Warnings "-register-all".

Open Scope string_scope.
Open Scope Z_scope.

(** ** Strings *)

Module Str.

(** [s.includes(c)] for a single character. *)
Fixpoint mem (c : ascii) (s : string) : bool :=
  match s with
  | EmptyString => false
  | String a s' => Ascii.eqb a c || mem c s'
  end.

(** [s.split(c)] for a single-character separator. *)
Fixpoint split_on (c : ascii) (s : string) : list string :=
  match s with
  | EmptyString => [EmptyString]
  | String a s' =>
      if Ascii.eqb a c then EmptyString :: split_on c s'
      else match split_on c s' with
           | x :: xs => String a x :: xs
           | [] => [String a EmptyString]
           end
  end.

(** [String(n)] for an integer-valued number. *)
Definition of_Z (z : Z) : string := NilZero.string_of_int (Z.to_int z).

Definition hex_digit (n : nat) : ascii :=
  match n with
  | 0 => "0" | 1 => "1" | 2 => "2" | 3 => "3" | 4 => "4" | 5 => "5"
  | 6 => "6" | 7 => "7" | 8 => "8" | 9 => "9" | 10 => "A" | 11 => "B"
  | 12 => "C" | 13 => "D" | 14 => "E" | _ => "F"
  end%nat%char.

Definition hex_value (c : ascii) : nat :=
  (let n := nat_of_ascii c in
   if (48 <=? n) && (n <=? 57) then n - 48
   else if (65 <=? n) && (n <=? 70) then n - 55
   else 0)%nat.

End Str.

(** ** [encodeURIComponent] *)

(** The characters [encodeURIComponent] leaves alone:
    [A-Z a-z 0-9 - _ . ! ~ * ' ( )]. *)
Definition uri_unreserved (c : ascii) : bool :=
  (let n := nat_of_ascii c in
   ((65 <=? n) && (n <=? 90)) || ((97 <=? n) && (n <=? 122))
   || ((48 <=? n) && (n <=? 57))
   || (n =? 45) || (n =? 95) || (n =? 46) || (n =? 33) || (n =? 126)
   || (n =? 42) || (n =? 39) || (n =? 40) || (n =? 41))%nat.

Definition encode_byte (c : ascii) : string :=
  if uri_unreserved c then String c EmptyString
  else
    let n := nat_of_ascii c in
    String "%" (String (Str.hex_digit (n / 16))
                  (String (Str.hex_digit (n mod 16)) EmptyString)).

Fixpoint encodeURIComponent (s : string) : string :=
  match s with
  | EmptyString => EmptyString
  | String c s' => encode_byte c ++ encodeURIComponent s'
  end.

(** The inverse of the escaping, used to show that distinct keys give
    distinct pairs. *)
Fixpoint unescape (s : string) : string :=
  match s with
  | EmptyString => EmptyString
  | String c s' =>
      if Ascii.eqb c "%" then
        match s' with
        | String h1 (String h2 r) =>
            String (ascii_of_nat (16 * Str.hex_value h1 + Str.hex_value h2))
                   (unescape r)
        | _ => String c (unescape s')
        end
      else String c (unescape s')
  end.

(** ** JavaScript values *)

Inductive value : Type :=
| VUndefined
| VNull
| VBool (b : bool)
| VNum (n : Z)
| VStr (s : string)
| VArr (items : list value)
| VObj (entries : list (string * value)).

(** [value !== undefined && value !== null] *)
Definition present (v : value) : bool :=
  match v with
  | VUndefined | VNull => false
  | _ => true
  end.

(** [String(value)]: arrays print as their elements joined by a comma, with
    [null] and [undefined] elements printed as nothing; plain objects print
    as [[object Object]]. *)
Fixpoint js_String (v : value) : string :=
  match v with
  | VUndefined => "undefined"
  | VNull => "null"
  | VBool true => "true"
  | VBool false => "false"
  | VNum n => Str.of_Z n
  | VStr s => s
  | VArr items =>
      String.concat ","
        (map (fun x => match x with
                       | VUndefined | VNull => EmptyString
                       | _ => js_String x
                       end) items)
  | VObj _ => "[object Object]"
  end.

(** ** Types of the client *)

Definition Conditions := list (string * value).

Record QueryParams : Type := mkQueryParams {
  conditions : option Conditions;
  fields : option (list string);
  per_page : option Z;
  page : option Z;
  order : option string;
  format : option string
}.

(** [SearchDocumentsOptions] is [QueryParams] without [format]; the client
    passes it where a [QueryParams] is expected. *)
Definition SearchDocumentsOptions := QueryParams.

Definition empty_params : QueryParams :=
  mkQueryParams None None None None None None.

(** ** [buildQueryString] *)

(** One [key=value] segment. *)
Definition pair_of (key val : string) : string :=
  encodeURIComponent key ++ "=" ++ encodeURIComponent val.

(** [addParam]: [parts] is the array the closure pushes to. *)
Definition addParam (parts : list string) (key : string) (v : value) : list string :=
  if present v then parts ++ [pair_of key (js_String v)] else parts.

Definition addConditions_entry (prefix : string) (parts : list string)
    (e : string * value) : list string :=
  let (key, v) := e in
  match v with
  | VObj sub =>
      fold_left
        (fun parts (se : string * value) =>
           addParam parts (prefix ++ "[" ++ key ++ "][" ++ fst se ++ "]") (snd se))
        sub parts
  | VArr items =>
      fold_left
        (fun parts item => addParam parts (prefix ++ "[" ++ key ++ "][]") item)
        items parts
  | _ => addParam parts (prefix ++ "[" ++ key ++ "]") v
  end.

Definition addConditions (parts : list string) (c : Conditions) : list string :=
  fold_left (addConditions_entry "conditions") c parts.

(** Truthiness of an optional number and of an optional string. *)
Definition truthy_num (n : option Z) : option Z :=
  match n with
  | Some z => if z =? 0 then None else Some z
  | None => None
  end.

Definition truthy_str (s : option string) : option string :=
  match s with
  | Some EmptyString => None
  | other => other
  end.

(** The array [parts] just before the final [join]. *)
Definition query_parts (params : QueryParams) : list string :=
  let parts := [] in
  let parts :=
    match conditions params with
    | Some c => addConditions parts c
    | None => parts
    end in
  let parts :=
    match fields params with
    | Some ((_ :: _) as fs) =>
        fold_left (fun parts f => addParam parts "fields[]" (VStr f)) fs parts
    | _ => parts
    end in
  let parts :=
    match truthy_num (per_page params) with
    | Some n => addParam parts "per_page" (VNum n)
    | None => parts
    end in
  let parts :=
    match truthy_num (page params) with
    | Some n => addParam parts "page" (VNum n)
    | None => parts
    end in
  let parts :=
    match truthy_str (order params) with
    | Some s => addParam parts "order" (VStr s)
    | None => parts
    end in
  let parts :=
    match truthy_str (format params) with
    | Some s => addParam parts "format" (VStr s)
    | None => parts
    end in
  parts.

Definition buildQueryString (params : QueryParams) : string :=
  String.concat "&" (query_parts params).

(** The [&]-separated segments of a query string; the empty query string has
    none. *)
Definition query_pairs (qs : string) : list string :=
  match qs with
  | EmptyString => []
  | _ => Str.split_on "&" qs
  end.

(** ** Promises over an explicit world *)

Inductive result (A : Type) : Type :=
| Ok (a : A)
| Throw (msg : string).
Arguments Ok {A} a.
Arguments Throw {A} msg.

(** An awaited call: it runs against the world (the remote service, the
    clock, a mock's call counter) and resolves or rejects. *)
Definition Promise (W A : Type) : Type := W -> result A * W.

Definition resolve {W A} (a : A) : Promise W A := fun w => (Ok a, w).
Definition reject {W A} (msg : string) : Promise W A := fun w => (Throw msg, w).
Definition settle {W A} (r : result A) : Promise W A := fun w => (r, w).

Definition await {W A B} (p : Promise W A) (k : A -> Promise W B) : Promise W B :=
  fun w =>
    match p w with
    | (Ok a, w') => k a w'
    | (Throw msg, w') => (Throw msg, w')
    end.

Notation "x <- p ;; k" := (await p (fun x => k))
  (at level 61, p at next level, right associativity).

(** A test double that records every call of [f] with what it returned. *)
Definition spy {W A B} (f : A -> Promise W B) : A -> Promise (W * list (A * result B)) B :=
  fun a wl =>
    let (r, w') := f a (fst wl) in
    (r, (w', (snd wl ++ [(a, r)])%list)).

(** ** Documents *)

Record PresidentInfo : Type := mkPresidentInfo {
  name : string;
  identifier : string
}.

Module Agency.
Record t : Type := mk {
  id : Z;
  name : string;
  slug : string;
  url : option string;
  description : option string;
  short_name : option string;
  parent_id : option Z;
  recent_articles_url : option string
}.
End Agency.

(** [ExecutiveOrder], with the fields it inherits from
    [FederalRegisterDocument]. *)
Record ExecutiveOrder : Type := mkExecutiveOrder {
  document_number : string;
  title : string;
  abstract : option string;
  html_url : string;
  pdf_url : option string;
  json_url : option string;
  publication_date : string;
  type : option string;
  subtype : option string;
  agencies : option (list Agency.t);
  raw_text_url : option string;
  body_html_url : option string;
  full_text_xml_url : option string;
  executive_order_number : Z;
  executive_order_notes : option string;
  signing_date : string;
  president : PresidentInfo;
  citation : option string;
  start_page : option Z;
  end_page : option Z
}.

Record SearchResult (T : Type) : Type := mkSearchResult {
  count : Z;
  total_pages : option Z;
  results : option (list T)
}.
Arguments mkSearchResult {T}.
Arguments count {T}.
Arguments total_pages {T}.
Arguments results {T}.

Module FullText.
(** [ExecutiveOrderFullText] *)
Record t : Type := mk {
  executive_order_number : Z;
  document_number : option string;
  title : string;
  signing_date : string;
  president : PresidentInfo;
  abstract : option string;
  full_text : option string;
  error : option string;
  html_url : string;
  pdf_url : option string
}.
End FullText.

Module EOOptions.
(** [SearchExecutiveOrdersOptions] *)
Record t : Type := mk {
  president : option string;
  year : option Z;
  term : option string;
  signingDateGte : option string;
  signingDateLte : option string;
  fields : option (list string);
  per_page : option Z;
  page : option Z
}.
End EOOptions.

Definition BASE_URL : string := "https://www.federalregister.gov/api/v1".

(** ** The host: [fetch], the clock and the time zone *)

(** What [fetch(url)] resolves to; [body] is what [response.json()] or
    [response.text()] then settles to. *)
Record Response (T : Type) : Type := mkResponse {
  ok : bool;
  status : Z;
  statusText : string;
  body : result T
}.
Arguments mkResponse {T}.
Arguments ok {T}.
Arguments status {T}.
Arguments statusText {T}.
Arguments body {T}.

(** The local time zone: the offset in milliseconds from UTC to local time
    at a UTC instant, and the offset that applies to a local wall-clock
    time. *)
Record TimeZone : Type := mkTimeZone {
  offset_at_utc : Z -> Z;
  offset_at_local : Z -> Z
}.

(** [fetch] is one function in the source; its three uses decode the body
    differently, which the three fields record. *)
Record Host (W : Type) : Type := mkHost {
  fetch_search : string -> Promise W (Response (SearchResult ExecutiveOrder));
  fetch_document : string -> Promise W (Response ExecutiveOrder);
  fetch_text : string -> Promise W (Response string);
  clock : W -> Z;
  zone : TimeZone
}.
Arguments mkHost {W}.
Arguments fetch_search {W}.
Arguments fetch_document {W}.
Arguments fetch_text {W}.
Arguments clock {W}.
Arguments zone {W}.

(** The requests a host has served, in order. *)
Inductive Request : Type :=
| GetSearch (url : string)
| GetDocument (url : string)
| GetText (url : string).

Definition is_text_request (r : Request) : bool :=
  match r with
  | GetText _ => true
  | _ => false
  end.

Definition logged {W T} (mk : string -> Request)
    (f : string -> Promise W (Response T)) : string -> Promise (W * list Request) (Response T) :=
  fun url wl =>
    let (r, w') := f url (fst wl) in
    (r, (w', (snd wl ++ [mk url])%list)).

(** The same host, keeping a log of the URLs fetched. *)
Definition spy_host {W} (h : Host W) : Host (W * list Request) :=
  mkHost (logged GetSearch (fetch_search h))
         (logged GetDocument (fetch_document h))
         (logged GetText (fetch_text h))
         (fun wl => clock h (fst wl))
         (zone h).

(** ** Requests *)

Section Client.
Context {W : Type}.

(** [makeRequest]; [fetch] is the host's fetch at the type the caller
    decodes the body to. *)
Definition makeRequest {T} (fetch : string -> Promise W (Response T))
    (endpoint : string) (params : QueryParams) : Promise W T :=
  let queryString := buildQueryString params in
  let url :=
    match queryString with
    | EmptyString => BASE_URL ++ endpoint
    | _ => BASE_URL ++ endpoint ++ "?" ++ queryString
    end in
  response <- fetch url ;;
  if negb (ok response) then
    reject ("Federal Register API error: " ++ Str.of_Z (status response)
            ++ " " ++ statusText response)
  else settle (body response).

Definition getDocument (h : Host W) (documentNumber : string)
    (fields : option (list string)) : Promise W ExecutiveOrder :=
  let params :=
    match fields with
    | Some ((_ :: _) as fs) =>
        mkQueryParams None (Some fs) None None None None
    | _ => empty_params
    end in
  makeRequest (fetch_document h) ("/documents/" ++ documentNumber ++ ".json") params.

Definition searchDocuments (h : Host W) (options : SearchDocumentsOptions)
  : Promise W (SearchResult ExecutiveOrder) :=
  makeRequest (fetch_search h) "/documents.json" options.

(** The filter [searchExecutiveOrders] builds, in the order the keys are
    assigned. *)
Definition executive_order_conditions (options : EOOptions.t) : Conditions :=
  ([("type", VStr "PRESDOCU");
    ("presidential_document_type", VStr "executive_order");
    ("correction", VNum 0)]
   ++ match truthy_str (EOOptions.president options) with
      | Some p => [("president", VStr p)]
      | None => []
      end
   ++ match truthy_num (EOOptions.year options) with
      | Some y => [("publication_date", VObj [("year", VNum y)])]
      | None => []
      end
   ++ match truthy_str (EOOptions.term options) with
      | Some t => [("term", VStr t)]
      | None => []
      end
   ++ match truthy_str (EOOptions.signingDateGte options),
            truthy_str (EOOptions.signingDateLte options) with
      | None, None => []
      | gte, lte =>
          [("signing_date",
            VObj (match gte with Some d => [("gte", VStr d)] | None => [] end
                  ++ match lte with Some d => [("lte", VStr d)] | None => [] end))]
      end)%list.

Definition searchExecutiveOrders_defaultFields : list string :=
  ["document_number"; "executive_order_number"; "title"; "signing_date";
   "publication_date"; "president"; "html_url"; "pdf_url"; "json_url"].

Definition or_default {A} (o : option A) (d : A) : A :=
  match o with
  | Some a => a
  | None => d
  end.

Definition searchExecutiveOrders_params (options : EOOptions.t) : SearchDocumentsOptions :=
  mkQueryParams
    (Some (executive_order_conditions options))
    (Some (or_default (EOOptions.fields options) searchExecutiveOrders_defaultFields))
    (Some (or_default (truthy_num (EOOptions.per_page options)) 100))
    (Some (or_default (truthy_num (EOOptions.page options)) 1))
    (Some "executive_order_number")
    None.

Definition searchExecutiveOrders (h : Host W) (options : EOOptions.t)
  : Promise W (SearchResult ExecutiveOrder) :=
  searchDocuments h (searchExecutiveOrders_params options).

Definition getExecutiveOrderByNumber_defaultFields : list string :=
  ["document_number"; "executive_order_number"; "executive_order_notes";
   "title"; "abstract"; "signing_date"; "publication_date"; "president";
   "html_url"; "pdf_url"; "full_text_xml_url"; "body_html_url"; "citation";
   "start_page"; "end_page"].

Definition getExecutiveOrderByNumber_params (eoNumber : Z)
    (fields : option (list string)) : SearchDocumentsOptions :=
  mkQueryParams
    (Some [("type", VStr "PRESDOCU");
           ("presidential_document_type", VStr "executive_order");
           ("correction", VNum 0);
           ("term", VStr (Str.of_Z eoNumber))])
    (Some (or_default fields getExecutiveOrderByNumber_defaultFields))
    (Some 100) None None None.

Definition getExecutiveOrderByNumber (h : Host W) (eoNumber : Z)
    (fields : option (list string)) : Promise W (option ExecutiveOrder) :=
  let targetNum := eoNumber in
  allResults <- searchDocuments h (getExecutiveOrderByNumber_params eoNumber fields) ;;
  let match_ :=
    match results allResults with
    | Some rs => find (fun r => executive_order_number r =? targetNum) rs
    | None => None
    end in
  resolve match_.

(** The [while (hasMore)] loop of [getExecutiveOrdersByPresident]; [None]
    when [fuel] iterations were not enough. *)
Fixpoint getExecutiveOrdersByPresident_loop (fuel : nat) (h : Host W)
    (president : string) (fields : option (list string))
    (allResults : list ExecutiveOrder) (page : Z) (w : W)
  : option (result (list ExecutiveOrder) * W) :=
  match fuel with
  | O => None
  | S fuel' =>
      match searchExecutiveOrders h
              (EOOptions.mk (Some president) None None None None fields
                            (Some 1000) (Some page)) w with
      | (Throw msg, w') => Some (Throw msg, w')
      | (Ok response, w') =>
          match results response with
          | Some ((_ :: _) as rs) =>
              let allResults := (allResults ++ rs)%list in
              let hasMore :=
                match total_pages response with
                | Some tp => (page <? tp) && (page <? 2)
                | None => false
                end in
              if hasMore then
                getExecutiveOrdersByPresident_loop fuel' h president fields
                  allResults (page + 1) w'
              else Some (Ok allResults, w')
          | _ => Some (Ok allResults, w')
          end
      end
  end.

Definition getExecutiveOrdersByPresident (fuel : nat) (h : Host W)
    (president : string) (fields : option (list string)) (w : W)
  : option (result (list ExecutiveOrder) * W) :=
  getExecutiveOrdersByPresident_loop fuel h president fields [] 1 w.

Definition fetchDocumentText (h : Host W) (rawTextUrl : string) : Promise W string :=
  response <- fetch_text h rawTextUrl ;;
  if negb (ok response) then
    reject ("Failed to fetch document text: " ++ Str.of_Z (status response))
  else settle (body response).

Definition getExecutiveOrderFullText_fields : list string :=
  ["document_number"; "executive_order_number"; "title"; "signing_date";
   "president"; "abstract"; "raw_text_url"; "html_url"; "pdf_url"].

Definition getExecutiveOrderFullText (h : Host W) (eoNumber : Z)
  : Promise W (option FullText.t) :=
  eo <- getExecutiveOrderByNumber h eoNumber None ;;
  match eo with
  | None => resolve None
  | Some eo =>
      fullDoc <- getDocument h (document_number eo)
                   (Some getExecutiveOrderFullText_fields) ;;
      match truthy_str (raw_text_url fullDoc) with
      | None =>
          resolve (Some (FullText.mk eoNumber None (title fullDoc)
                           (signing_date fullDoc) (president fullDoc)
                           (abstract fullDoc) None
                           (Some "Full text not available for this executive order")
                           (html_url fullDoc) (pdf_url fullDoc)))
      | Some url =>
          fullText <- fetchDocumentText h url ;;
          resolve (Some (FullText.mk eoNumber (Some (document_number fullDoc))
                           (title fullDoc) (signing_date fullDoc)
                           (president fullDoc) (abstract fullDoc)
                           (Some fullText) None
                           (html_url fullDoc) (pdf_url fullDoc)))
      end
  end.

End Client.

(** ** Pagination *)

Section Paginator.
Context {W T : Type}.

(** [SearchFunction<T>] *)
Definition SearchFunction : Type := SearchDocumentsOptions -> Promise W (SearchResult T).

(** [{ ...options, page, per_page: perPage }] *)
Definition with_paging (options : SearchDocumentsOptions) (page perPage : Z)
  : SearchDocumentsOptions :=
  mkQueryParams (conditions options) (fields options) (Some perPage) (Some page)
                (order options) (format options).

(** [Math.min(options.per_page || 100, 1000)] *)
Definition getAllResults_perPage (options : SearchDocumentsOptions) : Z :=
  Z.min (or_default (truthy_num (per_page options)) 100) 1000.

(** [list.slice(0, n)] *)
Definition slice0 {A} (l : list A) (n : Z) : list A :=
  if n <? 0 then firstn (Z.to_nat (Z.max (Z.of_nat (List.length l) + n) 0)) l
  else firstn (Z.to_nat n) l.

(** The [while (allResults.length < maxResults)] loop; the result is
    [allResults] when the loop is left, [None] when [fuel] iterations were
    not enough. *)
Fixpoint getAllResults_loop (fuel : nat) (searchFn : SearchFunction)
    (options : SearchDocumentsOptions) (maxResults perPage : Z)
    (allResults : list T) (page : Z) (w : W)
  : option (result (list T) * W) :=
  if Z.of_nat (List.length allResults) <? maxResults then
    match fuel with
    | O => None
    | S fuel' =>
        match searchFn (with_paging options page perPage) w with
        | (Throw msg, w') => Some (Throw msg, w')
        | (Ok response, w') =>
            match results response with
            | Some ((_ :: _) as rs) =>
                let allResults := (allResults ++ rs)%list in
                let exhausted :=
                  match total_pages response with
                  | Some tp => page >=? tp
                  | None => false
                  end in
                if exhausted then Some (Ok allResults, w')
                else getAllResults_loop fuel' searchFn options maxResults perPage
                       allResults (page + 1) w'
            | _ => Some (Ok allResults, w')
            end
        end
    end
  else Some (Ok allResults, w).

Definition getAllResults (fuel : nat) (searchFn : SearchFunction)
    (options : SearchDocumentsOptions) (maxResults : Z) (w : W)
  : option (result (list T) * W) :=
  let perPage := getAllResults_perPage options in
  match getAllResults_loop fuel searchFn options maxResults perPage [] 1 w with
  | Some (Ok allResults, w') => Some (Ok (slice0 allResults maxResults), w')
  | other => other
  end.

End Paginator.

(** The default [maxResults]. *)
Definition getAllResults_default_max : Z := 2000.

(** ** [Date]

    Time values are milliseconds since the epoch, in UTC; the definitions
    are those of the language specification (Day, TimeWithinDay,
    DayFromYear, YearFromTime, MonthFromTime, DateFromTime, MakeDay,
    MakeDate, LocalTime, UTC, TimeClip). *)

Module JSDate.

Definition msPerDay : Z := 86400000.
Definition msPerHour : Z := 3600000.
Definition msPerMinute : Z := 60000.
Definition msPerSecond : Z := 1000.

Definition Day (t : Z) : Z := t / msPerDay.
Definition TimeWithinDay (t : Z) : Z := t mod msPerDay.

Definition DaysInYear (y : Z) : Z :=
  if negb (y mod 4 =? 0) then 365
  else if negb (y mod 100 =? 0) then 366
  else if negb (y mod 400 =? 0) then 365
  else 366.

Definition DayFromYear (y : Z) : Z :=
  365 * (y - 1970) + (y - 1969) / 4 - (y - 1901) / 100 + (y - 1601) / 400.

(** The largest [y'] at or after [y] (within [fuel] years) whose first day
    is not after day [d]. *)
Fixpoint year_search (fuel : nat) (y d : Z) : Z :=
  match fuel with
  | O => y
  | S fuel' => if DayFromYear (y + 1) <=? d then year_search fuel' (y + 1) d else y
  end.

(** The year a time value falls in: the search starts from a year that is
    not after it. *)
Definition YearFromTime (t : Z) : Z :=
  let d := Day t in
  let y0 := 1970 + (if 0 <=? d then d / 366 else d / 365 - 1) in
  year_search (Z.to_nat (Z.abs d / 100000) + 4) y0 d.

Definition InLeapYear (t : Z) : Z :=
  if DaysInYear (YearFromTime t) =? 366 then 1 else 0.

Definition DayWithinYear (t : Z) : Z := Day t - DayFromYear (YearFromTime t).

Definition MonthFromTime (t : Z) : Z :=
  let d := DayWithinYear t in
  let leap := InLeapYear t in
  if d <? 31 then 0
  else if d <? 59 + leap then 1
  else if d <? 90 + leap then 2
  else if d <? 120 + leap then 3
  else if d <? 151 + leap then 4
  else if d <? 181 + leap then 5
  else if d <? 212 + leap then 6
  else if d <? 243 + leap then 7
  else if d <? 273 + leap then 8
  else if d <? 304 + leap then 9
  else if d <? 334 + leap then 10
  else 11.

(** The day within the year on which month [m] (0 to 11) starts. *)
Definition month_start (m leap : Z) : Z :=
  if m =? 0 then 0
  else if m =? 1 then 31
  else if m =? 2 then 59 + leap
  else if m =? 3 then 90 + leap
  else if m =? 4 then 120 + leap
  else if m =? 5 then 151 + leap
  else if m =? 6 then 181 + leap
  else if m =? 7 then 212 + leap
  else if m =? 8 then 243 + leap
  else if m =? 9 then 273 + leap
  else if m =? 10 then 304 + leap
  else 334 + leap.

Definition DateFromTime (t : Z) : Z :=
  DayWithinYear t - month_start (MonthFromTime t) (InLeapYear t) + 1.

Definition MakeDay (year month date : Z) : Z :=
  let ym := year + month / 12 in
  let mn := month mod 12 in
  let leap := if DaysInYear ym =? 366 then 1 else 0 in
  DayFromYear ym + month_start mn leap + date - 1.

Definition MakeDate (day time : Z) : Z := day * msPerDay + time.

Definition LocalTime (tz : TimeZone) (t : Z) : Z := t + offset_at_utc tz t.
Definition UTC (tz : TimeZone) (t : Z) : Z := t - offset_at_local tz t.

(** [None] is the invalid date (NaN). *)
Definition TimeClip (t : Z) : option Z :=
  if Z.abs t <=? 8640000000000000 then Some t else None.

(** [d.getDate()] *)
Definition getDate (tz : TimeZone) (tv : Z) : Z := DateFromTime (LocalTime tz tv).

(** [d.setDate(date)]: the new time value of [d]. *)
Definition setDate (tz : TimeZone) (tv : Z) (date : Z) : option Z :=
  let t := LocalTime tz tv in
  let newDate :=
    MakeDate (MakeDay (YearFromTime t) (MonthFromTime t) date) (TimeWithinDay t) in
  TimeClip (UTC tz newDate).

(** [String(n).padStart(width, "0")] for a non-negative [n]. *)
Fixpoint zeros (k : nat) : string :=
  match k with
  | O => EmptyString
  | S k' => String "0" (zeros k')
  end.

Definition pad (width : nat) (n : Z) : string :=
  let s := Str.of_Z n in
  zeros (width - String.length s) ++ s.

Definition iso_year (y : Z) : string :=
  if (0 <=? y) && (y <=? 9999) then pad 4 y
  else (if y <? 0 then "-" else "+") ++ pad 6 (Z.abs y).

(** The date part of the ISO format: [YYYY-MM-DD]. *)
Definition iso_date (y m d : Z) : string :=
  iso_year y ++ "-" ++ pad 2 m ++ "-" ++ pad 2 d.

(** [d.toISOString()]; an invalid date throws. *)
Definition toISOString (tv : option Z) : result string :=
  match tv with
  | None => Throw "RangeError: Invalid time value"
  | Some t =>
      Ok (iso_date (YearFromTime t) (MonthFromTime t + 1) (DateFromTime t)
          ++ "T" ++ pad 2 ((t / msPerHour) mod 24)
          ++ ":" ++ pad 2 ((t / msPerMinute) mod 60)
          ++ ":" ++ pad 2 ((t / msPerSecond) mod 60)
          ++ "." ++ pad 3 (t mod 1000) ++ "Z")
  end.

(** The calendar date (year, month 1 to 12, day of the month) of day
    number [d]. *)
Definition civil_of_day (d : Z) : Z * Z * Z :=
  let t := d * msPerDay in
  (YearFromTime t, MonthFromTime t + 1, DateFromTime t).

(** The same date, written [YYYY-MM-DD]. *)
Definition iso_date_of_day (d : Z) : string :=
  let '(y, m, dd) := civil_of_day d in iso_date y m dd.

(** A zone that is always [minutes] ahead of UTC. *)
Definition fixed_zone (minutes : Z) : TimeZone :=
  mkTimeZone (fun _ => minutes * msPerMinute) (fun _ => minutes * msPerMinute).

(** A zone that is [before] minutes ahead of UTC until the UTC instant
    [switch], and [after] minutes ahead from then on; a local time that
    occurs twice is read as the earlier instant. *)
Definition switching_zone (switch before after : Z) : TimeZone :=
  mkTimeZone
    (fun t => if t <? switch then before * msPerMinute else after * msPerMinute)
    (fun tl => if tl <? switch + Z.max before after * msPerMinute
               then before * msPerMinute else after * msPerMinute).

End JSDate.

(** The first three statements of [getRecentExecutiveOrders]: the date
    string computed from the clock reading [now]. *)
Definition getRecentExecutiveOrders_dateStr (tz : TimeZone) (now : Z) : result string :=
  let thirtyDaysAgo := JSDate.setDate tz now (JSDate.getDate tz now - 30) in
  match JSDate.toISOString thirtyDaysAgo with
  | Ok iso => Ok (hd EmptyString (Str.split_on "T" iso))
  | Throw msg => Throw msg
  end.

Section Recent.
Context {W : Type}.

(** [getRecentExecutiveOrders]; [new Date()] reads the host's clock. *)
Definition getRecentExecutiveOrders (h : Host W) (fields : option (list string))
  : Promise W (SearchResult ExecutiveOrder) :=
  fun w =>
    (dateStr <- settle (getRecentExecutiveOrders_dateStr (zone h) (clock h w)) ;;
     searchExecutiveOrders h
       (EOOptions.mk None None None (Some dateStr) None fields None None)) w.

End Recent.

(** ** Further operations of the client *)

(** [{ results: FederalRegisterDocument[] }], what [getDocuments] decodes
    the body to. *)
Module DocumentList.
Record t : Type := mk {
  results : list ExecutiveOrder
}.
End DocumentList.

Module PDOptions.
(** [SearchPresidentialDocsOptions] *)
Record t : Type := mk {
  president : option string;
  year : option Z;
  term : option string;
  fields : option (list string);
  per_page : option Z;
  page : option Z
}.
End PDOptions.

Section MoreClient.
Context {W : Type}.

(** [getDocuments]; [documentNumbers.join(',')] goes into the path. *)
Definition getDocuments (fetch : string -> Promise W (Response DocumentList.t))
    (documentNumbers : list string) (fields : option (list string))
  : Promise W DocumentList.t :=
  let params :=
    match fields with
    | Some ((_ :: _) as fs) =>
        mkQueryParams None (Some fs) None None None None
    | _ => empty_params
    end in
  let numbers := String.concat "," documentNumbers in
  makeRequest fetch ("/documents/" ++ numbers ++ ".json") params.

Definition searchPresidentialMemoranda_defaultFields : list string :=
  ["document_number"; "title"; "signing_date"; "publication_date"; "president";
   "html_url"; "pdf_url"].

Definition searchPresidentialMemoranda_params (options : PDOptions.t)
  : SearchDocumentsOptions :=
  mkQueryParams
    (Some ([("type", VStr "PRESDOCU");
            ("presidential_document_type", VStr "memorandum");
            ("correction", VNum 0)]
           ++ match truthy_str (PDOptions.president options) with
              | Some p => [("president", VStr p)]
              | None => []
              end
           ++ match truthy_num (PDOptions.year options) with
              | Some y => [("publication_date", VObj [("year", VNum y)])]
              | None => []
              end
           ++ match truthy_str (PDOptions.term options) with
              | Some t => [("term", VStr t)]
              | None => []
              end)%list)
    (Some (or_default (PDOptions.fields options)
             searchPresidentialMemoranda_defaultFields))
    (Some (or_default (truthy_num (PDOptions.per_page options)) 100))
    (Some (or_default (truthy_num (PDOptions.page options)) 1))
    None None.

Definition searchPresidentialMemoranda (h : Host W) (options : PDOptions.t)
  : Promise W (SearchResult ExecutiveOrder) :=
  searchDocuments h (searchPresidentialMemoranda_params options).

Definition searchProclamations_defaultFields : list string :=
  ["document_number"; "title"; "signing_date"; "publication_date"; "president";
   "html_url"; "pdf_url"].

Definition searchProclamations_params (options : PDOptions.t)
  : SearchDocumentsOptions :=
  mkQueryParams
    (Some ([("type", VStr "PRESDOCU");
            ("presidential_document_type", VStr "proclamation");
            ("correction", VNum 0)]
           ++ match truthy_str (PDOptions.president options) with
              | Some p => [("president", VStr p)]
              | None => []
              end
           ++ match truthy_num (PDOptions.year options) with
              | Some y => [("publication_date", VObj [("year", VNum y)])]
              | None => []
              end
           ++ match truthy_str (PDOptions.term options) with
              | Some t => [("term", VStr t)]
              | None => []
              end)%list)
    (Some (or_default (PDOptions.fields options) searchProclamations_defaultFields))
    (Some (or_default (truthy_num (PDOptions.per_page options)) 100))
    (Some (or_default (truthy_num (PDOptions.page options)) 1))
    None None.

Definition searchProclamations (h : Host W) (options : PDOptions.t)
  : Promise W (SearchResult ExecutiveOrder) :=
  searchDocuments h (searchProclamations_params options).

End MoreClient.

(** ** The tools of the server ([server.ts]) *)

Module Tool.

(** [TextContent]; its [type] is always ['text']. *)
Record TextContent : Type := mkText {
  text : string
}.

(** [ToolResult] *)
Record Result : Type := mkResult {
  content : list TextContent
}.

Definition textResult (text : string) : Result := mkResult [mkText text].

(** [jsonResult]; [stringify data] stands for
    [JSON.stringify(data, null, 2)]. *)
Definition jsonResult {A} (stringify : A -> string) (data : A) : Result :=
  textResult (stringify data).

(** The arguments of the [search_documents] tool. *)
Record SearchArgs : Type := mkSearchArgs {
  term : option string;
  type : option string;
  presidential_document_type : option string;
  president : option string;
  agency : option string;
  publication_date_gte : option string;
  publication_date_lte : option string;
  publication_year : option Z;
  per_page : option Z;
  page : option Z
}.

(** The arguments of the [search_executive_orders] tool. *)
Record OrderArgs : Type := mkOrderArgs {
  o_president : option string;
  o_year : option Z;
  o_term : option string;
  o_signing_date_gte : option string;
  o_signing_date_lte : option string;
  o_per_page : option Z;
  o_page : option Z
}.

(** The object [conditions] the [search_documents] handler fills, key by
    key. *)
Definition search_documents_conditions (args : SearchArgs) : Conditions :=
  (match truthy_str (term args) with
   | Some t => [("term", VStr t)]
   | None => []
   end
   ++ match truthy_str (type args) with
      | Some t => [("type", VStr t)]
      | None => []
      end
   ++ match truthy_str (presidential_document_type args) with
      | Some t => [("presidential_document_type", VStr t)]
      | None => []
      end
   ++ match truthy_str (president args) with
      | Some p => [("president", VStr p)]
      | None => []
      end
   ++ match truthy_str (agency args) with
      | Some a => [("agencies", VStr a)]
      | None => []
      end
   ++ match truthy_num (publication_year args) with
      | Some y => [("publication_date", VObj [("year", VNum y)])]
      | None =>
          match truthy_str (publication_date_gte args),
                truthy_str (publication_date_lte args) with
          | None, None => []
          | gte, lte =>
              [("publication_date",
                VObj (match gte with Some d => [("gte", VStr d)] | None => [] end
                      ++ match lte with Some d => [("lte", VStr d)] | None => [] end))]
          end
      end)%list.

Definition search_documents_params (args : SearchArgs) : SearchDocumentsOptions :=
  mkQueryParams (Some (search_documents_conditions args)) None
                (per_page args) (page args) None None.

Section Handlers.
Context {W : Type}.
Variable stringify_search : SearchResult ExecutiveOrder -> string.
Variable stringify_order : ExecutiveOrder -> string.
Variable stringify_full : FullText.t -> string.

(** The handler of [search_executive_orders]. *)
Definition search_executive_orders (h : Host W) (args : OrderArgs) : Promise W Result :=
  result <- searchExecutiveOrders h
              (EOOptions.mk (o_president args) (o_year args) (o_term args)
                 (o_signing_date_gte args) (o_signing_date_lte args) None
                 (o_per_page args) (o_page args)) ;;
  resolve (jsonResult stringify_search result).

(** The handler of [get_executive_order]. *)
Definition get_executive_order (h : Host W) (eo_number : Z) : Promise W Result :=
  result <- getExecutiveOrderByNumber h eo_number None ;;
  match result with
  | None =>
      resolve (textResult ("Executive order " ++ Str.of_Z eo_number ++ " not found."))
  | Some order => resolve (jsonResult stringify_order order)
  end.

(** The handler of [get_executive_order_full_text]. *)
Definition get_executive_order_full_text (h : Host W) (eo_number : Z)
  : Promise W Result :=
  result <- getExecutiveOrderFullText h eo_number ;;
  match result with
  | None =>
      resolve (textResult ("Executive order " ++ Str.of_Z eo_number ++ " not found."))
  | Some full => resolve (jsonResult stringify_full full)
  end.

(** The handler of [get_recent_executive_orders]. *)
Definition get_recent_executive_orders (h : Host W) : Promise W Result :=
  result <- getRecentExecutiveOrders h None ;;
  resolve (jsonResult stringify_search result).

(** The handler of [get_document]; [args.fields ?? null]. *)
Definition get_document (h : Host W) (document_number : string)
    (fields : option (list string)) : Promise W Result :=
  result <- getDocument h document_number fields ;;
  resolve (jsonResult stringify_order result).

(** The handler of [get_document_text]. *)
Definition get_document_text (h : Host W) (raw_text_url : string) : Promise W Result :=
  result <- fetchDocumentText h raw_text_url ;;
  resolve (textResult result).

(** The handler of [search_documents]. *)
Definition search_documents (h : Host W) (args : SearchArgs) : Promise W Result :=
  result <- searchDocuments h (search_documents_params args) ;;
  resolve (jsonResult stringify_search result).

End Handlers.

End Tool.

(** ** Command line of the server *)

Module Cli.

(** [l.indexOf(x)], counted from [i]. *)
Fixpoint indexOf_from (x : string) (l : list string) (i : Z) : Z :=
  match l with
  | [] => -1
  | y :: l' => if String.eqb y x then i else indexOf_from x l' (i + 1)
  end.

Definition indexOf (x : string) (l : list string) : Z := indexOf_from x l 0.

(** [l.includes(x)] *)
Definition includes (x : string) (l : list string) : bool :=
  existsb (fun y => String.eqb y x) l.

(** [l[i]]; [None] is [undefined]. *)
Definition at_index (l : list string) (i : Z) : option string :=
  if i <? 0 then None else nth_error l (Z.to_nat i).

(** [args], from [process.argv.slice(2)]. *)
Definition args_of (argv : list string) : list string := skipn 2 argv.

Definition useHttp (args : list string) : bool := includes "--http" args.

Section Port.
(** [parseInt(s, 10)]; [None] is NaN. *)
Variable parseInt : string -> option Z.

(** [HTTP_PORT]; [MCP_PORT] is [process.env.MCP_PORT]. *)
Definition HTTP_PORT (args : list string) (MCP_PORT : option string) : option Z :=
  let portIndex := indexOf "--port" args in
  match (if negb (portIndex =? -1)
         then truthy_str (at_index args (portIndex + 1))
         else None) with
  | Some v => parseInt v
  | None =>
      match truthy_str MCP_PORT with
      | Some v => parseInt v
      | None => Some 3000
      end
  end.

End Port.

End Cli.

(** ** Vocabulary of the statements *)

(** [{ ...params, conditions: c }] *)
Definition set_conditions (params : QueryParams) (c : option Conditions) : QueryParams :=
  mkQueryParams c (fields params) (per_page params) (page params)
                (order params) (format params).

(** The pairs a filter-condition set contributes, in order. *)
Definition condition_pairs (c : Conditions) : list string := addConditions [] c.

(** The pairs that do not come from the filter conditions: field selection,
    paging, sort order and format. *)
Definition other_pairs (params : QueryParams) : list string :=
  query_parts (set_conditions params None).

(** The key [conditions[k][sub]] and the pair [conditions[k][sub]=v],
    percent-encoded. *)
Definition nested_key (k sub : string) : string :=
  "conditions[" ++ k ++ "][" ++ sub ++ "]".

Definition nested_pair (k sub v : string) : string := pair_of (nested_key k sub) v.

(** One pair per sub-key whose value is neither [null] nor [undefined]. *)
Definition nested_pairs (k : string) (m : list (string * value)) : list string :=
  map (fun se => nested_pair k (fst se) (js_String (snd se)))
      (filter (fun se => present (snd se)) m).

(** The key [conditions[k][]] and the pair [conditions[k][]=v],
    percent-encoded. *)
Definition sequence_key (k : string) : string := "conditions[" ++ k ++ "][]".

Definition sequence_pair (k v : string) : string := pair_of (sequence_key k) v.

Definition sequence_pairs (k : string) (items : list value) : list string :=
  map (fun item => sequence_pair k (js_String item)) items.

(** The encoded key of a segment: what stands before its [=]. *)
Definition seg_key (seg : string) : string := hd EmptyString (Str.split_on "=" seg).

(** Whether a segment is a pair for [key]. *)
Definition key_is (key seg : string) : bool :=
  String.eqb (seg_key seg) (encodeURIComponent key).

(** Filter names as the remote API has them: pairwise distinct, as the keys
    of an object are, and free of the closing bracket that ends a key in
    the encoding. *)
Definition plain_keys (c : Conditions) : Prop :=
  NoDup (map fst c) /\ Forall (fun e => Str.mem "]" (fst e) = false) c.

(** A segment as [addParam] pushes it: it holds no [&] and is not empty. *)
Definition segment_ok (p : string) : Prop := Str.mem "&" p = false /\ p <> "".

(** A filter-condition set with a scalar, a nested mapping, a sequence, an
    empty sequence and an empty mapping. *)
Definition example_conditions : Conditions :=
  [("president", VStr "joe-biden");
   ("publication_date", VObj [("year", VNum 2024); ("gte", VNull); ("lte", VStr "2024-12-31")]);
   ("agencies", VArr [VStr "epa"; VNum 7; VStr "food & drug"]);
   ("topics", VArr []);
   ("signing_date", VObj [])].

Definition example_params : QueryParams :=
  mkQueryParams (Some example_conditions) (Some ["title"]) (Some 50) None None None.

(** The result sequence a recorded call of a search function served. *)
Definition served {T} (call : SearchDocumentsOptions * result (SearchResult T)) : list T :=
  match snd call with
  | Ok response => or_default (results response) []
  | Throw _ => []
  end.

(** The page numbers [first], [first + 1], ... of [n] successive calls. *)
Fixpoint pages_from (first : Z) (n : nat) : list (option Z) :=
  match n with
  | O => []
  | S n' => Some first :: pages_from (first + 1) n'
  end.

(** The URL [makeRequest] fetches. *)
Definition request_url (endpoint : string) (params : QueryParams) : string :=
  match buildQueryString params with
  | EmptyString => BASE_URL ++ endpoint
  | _ => BASE_URL ++ endpoint ++ "?" ++ buildQueryString params
  end.

(** The URL [searchDocuments] fetches for given options. *)
Definition search_url (options : SearchDocumentsOptions) : string :=
  request_url "/documents.json" options.

(** The URL [getDocument] fetches. *)
Definition document_url (documentNumber : string) (fields : option (list string)) : string :=
  request_url ("/documents/" ++ documentNumber ++ ".json")
    match fields with
    | Some ((_ :: _) as fs) => mkQueryParams None (Some fs) None None None None
    | _ => empty_params
    end.

(** The options of the [page]-th request of [getExecutiveOrdersByPresident]. *)
Definition by_president_options (president : string) (fields : option (list string))
    (page : Z) : EOOptions.t :=
  EOOptions.mk (Some president) None None None None fields (Some 1000) (Some page).

(** *** Test doubles *)

(** A search function over a world without state: page [p] holds the two
    items [2p - 1] and [2p], of three pages in all. *)
Definition pages_of_two : @SearchFunction unit Z :=
  fun options w =>
    let p := or_default (page options) 1 in
    (Ok (mkSearchResult 6 (Some 3) (Some [2 * p - 1; 2 * p])), w).

(** A search function whose every page is empty. *)
Definition no_results : @SearchFunction unit Z :=
  fun options w => (Ok (mkSearchResult 0 (Some 0) (Some [])), w).

(** An executive order with number [n]. *)
Definition sample_order (n : Z) : ExecutiveOrder :=
  mkExecutiveOrder ("2024-" ++ Str.of_Z n) "Sample order" None
    "https://www.federalregister.gov/d/sample" None None "2024-01-02"
    None None None None None None n None "2024-01-01"
    (mkPresidentInfo "Joseph R. Biden Jr." "joe-biden") None None None.

(** A host whose every search returns [orders] on one page out of
    [pages], whose documents are [sample_order 22] and have no raw text, at
    instant [now] in zone [tz]. *)
Definition sample_host (orders : list ExecutiveOrder) (pages now : Z)
    (tz : TimeZone) : Host unit :=
  mkHost
    (fun url w => (Ok (mkResponse true 200 "OK"
                         (Ok (mkSearchResult (Z.of_nat (List.length orders)) (Some pages)
                                (Some orders)))), w))
    (fun url w => (Ok (mkResponse true 200 "OK" (Ok (sample_order 22))), w))
    (fun url w => (Ok (mkResponse false 404 "Not Found" (Throw "no body")), w))
    (fun _ => now)
    tz.

(** 2026-11-20T00:30:00Z and, for a zone like Central European time in
    2026, the end of summer time at 2026-10-25T01:00:00Z: two hours ahead
    of UTC before it, one hour after. *)
Definition instant_2026_11_20_0030 : Z := 1795134600000.
Definition summer_time_ends_2026 : Z := 1792890000000.
Definition central_european_2026 : TimeZone :=
  JSDate.switching_zone summer_time_ends_2026 120 60.

(** ** Vocabulary of further statements *)

(** Every character of [s] satisfies [f]. *)
Fixpoint str_all (f : ascii -> bool) (s : string) : bool :=
  match s with
  | EmptyString => true
  | String a s' => f a && str_all f s'
  end.

(** What follows the first [c] in [s]; nothing when [c] does not occur. *)
Fixpoint str_after (c : ascii) (s : string) : string :=
  match s with
  | EmptyString => EmptyString
  | String a s' => if Ascii.eqb a c then s' else str_after c s'
  end.

(** The characters a query string is made of: the unreserved ones, the
    escape sign and the two separators. *)
Definition url_safe (c : ascii) : bool :=
  uri_unreserved c || Ascii.eqb c "%" || Ascii.eqb c "=" || Ascii.eqb c "&".

(** A segment read back: the key before its first [=] and the value after
    it, both percent-decoded. *)
Definition decode_pair (seg : string) : string * string :=
  (unescape (seg_key seg), unescape (str_after "=" seg)).

(** A value that is neither an array nor an object: the last branch of
    [addConditions]. *)
Definition is_scalar (v : value) : bool :=
  match v with
  | VArr _ | VObj _ => false
  | _ => true
  end.

(** The pair [conditions[k]=v], percent-encoded. *)
Definition scalar_pair (k : string) (v : value) : string :=
  pair_of ("conditions[" ++ k ++ "]") (js_String v).

(** One [fields[]=f] pair per selected field. *)
Definition field_pairs (fs : option (list string)) : list string :=
  map (pair_of "fields[]") (or_default fs []).

(** The pair of a number that is present and not zero. *)
Definition num_pair (key : string) (n : option Z) : list string :=
  match truthy_num n with
  | Some z => [pair_of key (Str.of_Z z)]
  | None => []
  end.

(** The pair of a string that is present and not empty. *)
Definition str_pair (key : string) (s : option string) : list string :=
  match truthy_str s with
  | Some v => [pair_of key v]
  | None => []
  end.

(** A search function that serves the pages of a fixed result set: page
    [p] is the [p]-th element of [pages], and every response reports how
    many pages there are. *)
Definition paged_backend {W T} (pages : list (list T)) : @SearchFunction W T :=
  fun options w =>
    let p := or_default (page options) 1 in
    (Ok (mkSearchResult (Z.of_nat (List.length (List.concat pages)))
           (Some (Z.of_nat (List.length pages)))
           (Some (nth (Z.to_nat (p - 1)) pages []))), w).

(** A recorded call that resolved with a result sequence that is not
    empty. *)
Definition served_some {T} (call : SearchDocumentsOptions * result (SearchResult T)) : Prop :=
  exists response x xs, snd call = Ok response /\ results response = Some (x :: xs).

(** A search function that serves one page of two items and rejects every
    later call. *)
Definition fails_after_first_page : @SearchFunction unit Z :=
  fun options w =>
    if or_default (page options) 1 =? 1
    then (Ok (mkSearchResult 6 (Some 3) (Some [1; 2])), w)
    else (Throw "Federal Register API error: 500 Internal Server Error", w).

(** An executive order with number [n] whose document has a raw-text
    URL. *)
Definition order_with_text (n : Z) : ExecutiveOrder :=
  mkExecutiveOrder ("2024-" ++ Str.of_Z n) "Sample order" None
    "https://www.federalregister.gov/d/sample" None None "2024-01-02"
    None None None
    (Some "https://www.federalregister.gov/documents/full_text/text/sample.txt")
    None None n None "2024-01-01"
    (mkPresidentInfo "Joseph R. Biden Jr." "joe-biden") None None None.

(** A host that answers every search, every document request and every
    text request with one fixed response each. *)
Definition canned_host (search : Response (SearchResult ExecutiveOrder))
    (document : Response ExecutiveOrder) (text : Response string) : Host unit :=
  mkHost (fun _ w => (Ok search, w)) (fun _ w => (Ok document, w))
         (fun _ w => (Ok text, w)) (fun _ => 0) (JSDate.fixed_zone 0).

Definition found_orders (orders : list ExecutiveOrder)
  : Response (SearchResult ExecutiveOrder) :=
  mkResponse true 200 "OK"
    (Ok (mkSearchResult (Z.of_nat (List.length orders)) (Some 1) (Some orders))).

Definition service_unavailable {T} : Response T :=
  mkResponse false 503 "Service Unavailable" (Throw "no body").

(** A host whose first search serves [orders] and reports [pages] pages,
    and whose later searches are answered 503; the world counts the
    searches. *)
Definition flaky_host (orders : list ExecutiveOrder) (pages : Z) : Host nat :=
  mkHost
    (fun _ n =>
       (Ok (match n with
            | O => mkResponse true 200 "OK"
                     (Ok (mkSearchResult (Z.of_nat (List.length orders)) (Some pages)
                            (Some orders)))
            | S _ => service_unavailable
            end), S n))
    (fun _ n => (Ok service_unavailable, n))
    (fun _ n => (Ok service_unavailable, n))
    (fun _ => 0) (JSDate.fixed_zone 0).

(** The query of a memoranda or proclamation search, pair by pair. *)
Definition presidential_query (kind : string) (defaults : list string)
    (options : PDOptions.t) : list string :=
  ([pair_of "conditions[type]" "PRESDOCU";
    pair_of "conditions[presidential_document_type]" kind;
    pair_of "conditions[correction]" "0"]
   ++ str_pair "conditions[president]" (PDOptions.president options)
   ++ num_pair "conditions[publication_date][year]" (PDOptions.year options)
   ++ str_pair "conditions[term]" (PDOptions.term options)
   ++ map (pair_of "fields[]") (or_default (PDOptions.fields options) defaults)
   ++ [pair_of "per_page"
         (Str.of_Z (or_default (truthy_num (PDOptions.per_page options)) 100));
       pair_of "page"
         (Str.of_Z (or_default (truthy_num (PDOptions.page options)) 1))])%list.

(** The URL of the free-text search for the number [eoNumber]: the three
    fixed filters, the number as the search term, the selected or default
    fields and one page of 100, with no page number and no sort order. *)
Definition lookup_url (eoNumber : Z) (fields : option (list string)) : string :=
  BASE_URL ++ "/documents.json?"
  ++ String.concat "&"
       ([pair_of "conditions[type]" "PRESDOCU";
         pair_of "conditions[presidential_document_type]" "executive_order";
         pair_of "conditions[correction]" "0";
         pair_of "conditions[term]" (Str.of_Z eoNumber)]
        ++ map (pair_of "fields[]")
             (or_default fields getExecutiveOrderByNumber_defaultFields)
        ++ [pair_of "per_page" "100"])%list.

(** A host that serves [orders] on one page to a search at one of [urls]
    and answers a search at any other URL with 400; it has no documents
    and no texts. *)
Definition search_index_host (urls : list string) (orders : list ExecutiveOrder)
  : Host unit :=
  mkHost
    (fun url w =>
       (Ok (if existsb (String.eqb url) urls
            then found_orders orders
            else mkResponse false 400 "Bad Request" (Throw "no body")), w))
    (fun _ w => (Ok service_unavailable, w))
    (fun _ w => (Ok service_unavailable, w))
    (fun _ => 0) (JSDate.fixed_zone 0).

(** * Properties *)

(** ** Strings and escaping *)

Lemma append_nil_r (s : string) : s ++ "" = s.
Proof. induction s as [|c s IH]; simpl; [reflexivity | now rewrite IH]. Qed.

Lemma append_assoc (s t u : string) : (s ++ t) ++ u = s ++ (t ++ u).
Proof. induction s as [|c s IH]; simpl; [reflexivity | now rewrite IH]. Qed.

Lemma append_length (s t : string) :
  String.length (s ++ t) = (String.length s + String.length t)%nat.
Proof. induction s as [|c s IH]; simpl; [reflexivity | now rewrite IH]. Qed.

Lemma append_cancel_l (p s t : string) : p ++ s = p ++ t -> s = t.
Proof.
  induction p as [|c p IH]; simpl; intros H; [assumption|].
  injection H as H. now apply IH.
Qed.

Lemma append_cancel_r (s t u : string) : s ++ u = t ++ u -> s = t.
Proof.
  revert t. induction s as [|c s IH]; intros [|d t] H; simpl in H.
  - reflexivity.
  - apply (f_equal String.length) in H. simpl in H.
    rewrite append_length in H. lia.
  - apply (f_equal String.length) in H. simpl in H.
    rewrite append_length in H. lia.
  - injection H as Hc H. subst d. f_equal. now apply IH.
Qed.

Lemma mem_append (c : ascii) (s t : string) :
  Str.mem c (s ++ t) = Str.mem c s || Str.mem c t.
Proof.
  induction s as [|a s IH]; simpl; [reflexivity|].
  now rewrite IH, orb_assoc.
Qed.

Lemma split_on_absent (c : ascii) (s : string) :
  Str.mem c s = false -> Str.split_on c s = [s].
Proof.
  induction s as [|a s IH]; simpl; intros H; [reflexivity|].
  apply orb_false_iff in H as [Ha Hs].
  rewrite Ha, (IH Hs). reflexivity.
Qed.

Lemma split_on_sep (c : ascii) (s t : string) :
  Str.mem c s = false ->
  Str.split_on c (s ++ String c t) = s :: Str.split_on c t.
Proof.
  induction s as [|a s IH]; simpl; intros H.
  - now rewrite Ascii.eqb_refl.
  - apply orb_false_iff in H as [Ha Hs].
    rewrite Ha, (IH Hs). reflexivity.
Qed.

(** Splitting a joined array gives the array back, when no element
    contains the separator. *)
Lemma split_on_concat (c : ascii) (parts : list string) :
  parts <> [] ->
  Forall (fun p => Str.mem c p = false) parts ->
  Str.split_on c (String.concat (String c "") parts) = parts.
Proof.
  induction parts as [|p [|q rest] IH]; intros Hne Hall.
  - contradiction.
  - simpl. apply split_on_absent. now inversion Hall.
  - inversion Hall as [|? ? Hp Hrest]; subst.
    change (String.concat (String c "") (p :: q :: rest))
      with (p ++ String c (String.concat (String c "") (q :: rest))).
    rewrite split_on_sep by assumption.
    f_equal. apply IH; [discriminate | assumption].
Qed.

Lemma encode_byte_no_amp (c : ascii) : Str.mem "&" (encode_byte c) = false.
Proof. destruct c as [[] [] [] [] [] [] [] []]; reflexivity. Qed.

Lemma encode_byte_no_eq (c : ascii) : Str.mem "=" (encode_byte c) = false.
Proof. destruct c as [[] [] [] [] [] [] [] []]; reflexivity. Qed.

Lemma encodeURIComponent_no_amp (s : string) :
  Str.mem "&" (encodeURIComponent s) = false.
Proof.
  induction s as [|c s IH]; simpl; [reflexivity|].
  now rewrite mem_append, encode_byte_no_amp, IH.
Qed.

Lemma encodeURIComponent_no_eq (s : string) :
  Str.mem "=" (encodeURIComponent s) = false.
Proof.
  induction s as [|c s IH]; simpl; [reflexivity|].
  now rewrite mem_append, encode_byte_no_eq, IH.
Qed.

Lemma unescape_encode_byte (c : ascii) (s : string) :
  unescape (encode_byte c ++ s) = String c (unescape s).
Proof. destruct c as [[] [] [] [] [] [] [] []]; reflexivity. Qed.

Lemma unescape_encodeURIComponent (s : string) :
  unescape (encodeURIComponent s) = s.
Proof.
  induction s as [|c s IH]; simpl; [reflexivity|].
  now rewrite unescape_encode_byte, IH.
Qed.

Lemma encodeURIComponent_inj (s t : string) :
  encodeURIComponent s = encodeURIComponent t -> s = t.
Proof.
  intros H. apply (f_equal unescape) in H.
  now rewrite !unescape_encodeURIComponent in H.
Qed.

(** A string is cut in one way only at the first occurrence of a
    character. *)
Lemma cut_at_first (c : ascii) (a a' b b' : string) :
  Str.mem c a = false -> Str.mem c a' = false ->
  a ++ String c b = a' ++ String c b' -> a = a' /\ b = b'.
Proof.
  revert a'. induction a as [|x a IH]; intros [|y a'] Ha Ha' H; simpl in *.
  - injection H as H. now split.
  - injection H as Hx _. subst y. now rewrite Ascii.eqb_refl in Ha'.
  - injection H as Hx _. subst x. now rewrite Ascii.eqb_refl in Ha.
  - injection H as Hx H. subst y.
    apply orb_false_iff in Ha as [_ Ha]. apply orb_false_iff in Ha' as [_ Ha'].
    destruct (IH a' Ha Ha' H) as [-> ->]. now split.
Qed.

Lemma pair_of_inj (k k' v v' : string) :
  pair_of k v = pair_of k' v' -> k = k' /\ v = v'.
Proof.
  unfold pair_of. intros H.
  apply cut_at_first in H as [Hk Hv]; try apply encodeURIComponent_no_eq.
  split; now apply encodeURIComponent_inj.
Qed.

Lemma pair_of_no_amp (k v : string) : Str.mem "&" (pair_of k v) = false.
Proof.
  unfold pair_of. rewrite !mem_append, !encodeURIComponent_no_amp. reflexivity.
Qed.

Lemma pair_of_nonempty (k v : string) : pair_of k v <> "".
Proof.
  unfold pair_of. intros H. apply (f_equal String.length) in H.
  rewrite !append_length in H. simpl in H. lia.
Qed.

Lemma concat_amp_nonempty (p : string) (parts : list string) :
  p <> "" -> String.concat "&" (p :: parts) <> "".
Proof.
  intros Hp H. destruct parts; simpl in H; [contradiction|].
  destruct p; [contradiction | discriminate].
Qed.

(** ** The query builder *)

Lemma addParam_app (parts : list string) (key : string) (v : value) :
  addParam parts key v = (parts ++ addParam [] key v)%list.
Proof.
  unfold addParam. destruct (present v); simpl; [reflexivity | now rewrite app_nil_r].
Qed.

Lemma addParam_ok (key : string) (v : value) : Forall segment_ok (addParam [] key v).
Proof.
  unfold addParam. destruct (present v); simpl; constructor; [|constructor].
  split; [apply pair_of_no_amp | apply pair_of_nonempty].
Qed.

(** A loop that only pushes: its effect on [parts] is to append what each
    element contributes. *)
Lemma fold_left_push {A} (f : list string -> A -> list string)
    (g : A -> list string) (l : list A) (parts : list string) :
  (forall parts x, f parts x = (parts ++ g x)%list) ->
  fold_left f l parts = (parts ++ flat_map g l)%list.
Proof.
  intros Hf. revert parts. induction l as [|x l IH]; intros parts; simpl.
  - now rewrite app_nil_r.
  - now rewrite IH, Hf, <- app_assoc.
Qed.

Lemma flat_map_addParam {A} (key : A -> string) (val : A -> value) (l : list A) :
  flat_map (fun x => addParam [] (key x) (val x)) l
  = map (fun x => pair_of (key x) (js_String (val x)))
        (filter (fun x => present (val x)) l).
Proof.
  induction l as [|x l IH]; simpl; [reflexivity|].
  unfold addParam at 1. destruct (present (val x)); simpl; now rewrite IH.
Qed.

Lemma addConditions_entry_app (prefix : string) (parts : list string)
    (e : string * value) :
  addConditions_entry prefix parts e
  = (parts ++ addConditions_entry prefix [] e)%list.
Proof.
  destruct e as [key v]. unfold addConditions_entry.
  destruct v;
    try apply addParam_app.
  - rewrite (fold_left_push _ (fun item => addParam [] (prefix ++ "[" ++ key ++ "][]") item)
               items parts) by (intros; apply addParam_app).
    now rewrite (fold_left_push _ (fun item => addParam [] (prefix ++ "[" ++ key ++ "][]") item)
                   items []) by (intros; apply addParam_app).
  - rewrite (fold_left_push _
               (fun se : string * value =>
                  addParam [] (prefix ++ "[" ++ key ++ "][" ++ fst se ++ "]") (snd se))
               entries parts) by (intros; apply addParam_app).
    now rewrite (fold_left_push _
               (fun se : string * value =>
                  addParam [] (prefix ++ "[" ++ key ++ "][" ++ fst se ++ "]") (snd se))
               entries []) by (intros; apply addParam_app).
Qed.

Lemma addConditions_flat_map (parts : list string) (c : Conditions) :
  addConditions parts c
  = (parts ++ flat_map (addConditions_entry "conditions" []) c)%list.
Proof.
  unfold addConditions. apply fold_left_push. intros. apply addConditions_entry_app.
Qed.

Lemma condition_pairs_app (c1 c2 : Conditions) :
  condition_pairs (c1 ++ c2)%list = (condition_pairs c1 ++ condition_pairs c2)%list.
Proof.
  unfold condition_pairs. rewrite !addConditions_flat_map. simpl.
  apply flat_map_app.
Qed.

Lemma condition_pairs_cons (e : string * value) (c : Conditions) :
  condition_pairs (e :: c)
  = (addConditions_entry "conditions" [] e ++ condition_pairs c)%list.
Proof.
  unfold condition_pairs. rewrite !addConditions_flat_map. reflexivity.
Qed.

Lemma entry_nested (k : string) (m : list (string * value)) :
  addConditions_entry "conditions" [] (k, VObj m) = nested_pairs k m.
Proof.
  unfold addConditions_entry, nested_pairs, nested_pair, nested_key.
  rewrite (fold_left_push _
             (fun se : string * value =>
                addParam [] ("conditions" ++ "[" ++ k ++ "][" ++ fst se ++ "]") (snd se)))
    by (intros; apply addParam_app).
  simpl app.
  apply (flat_map_addParam
           (fun se : string * value => "conditions" ++ "[" ++ k ++ "][" ++ fst se ++ "]")
           snd).
Qed.

Lemma entry_sequence (k : string) (items : list value) :
  addConditions_entry "conditions" [] (k, VArr items)
  = sequence_pairs k (filter present items).
Proof.
  unfold addConditions_entry, sequence_pairs, sequence_pair, sequence_key.
  rewrite (fold_left_push _ (fun item => addParam [] ("conditions" ++ "[" ++ k ++ "][]") item))
    by (intros; apply addParam_app).
  simpl app.
  apply (flat_map_addParam (fun _ : value => "conditions" ++ "[" ++ k ++ "][]")
           (fun item => item)).
Qed.

Lemma filter_all {A} (f : A -> bool) (l : list A) :
  Forall (fun x => f x = true) l -> filter f l = l.
Proof.
  induction 1 as [|x l Hx _ IH]; simpl; [reflexivity|].
  now rewrite Hx, IH.
Qed.

(** The array [parts]: the conditions' pairs, then the others. *)
Lemma query_parts_split (params : QueryParams) :
  query_parts params
  = (match conditions params with
     | Some c => condition_pairs c
     | None => []
     end ++ other_pairs params)%list.
Proof.
  unfold other_pairs, query_parts, condition_pairs, set_conditions.
  cbn [conditions fields per_page page order format].
  set (cp := match conditions params with
             | Some c => addConditions [] c
             | None => []
             end).
  assert (Hf : forall parts : list string,
             match fields params with
             | Some ((_ :: _) as fs) =>
                 fold_left (fun parts f => addParam parts "fields[]" (VStr f)) fs parts
             | _ => parts
             end
             = (parts ++ match fields params with
                         | Some ((_ :: _) as fs) =>
                             fold_left (fun parts f => addParam parts "fields[]" (VStr f)) fs []
                         | _ => []
                         end)%list).
  { intros parts. destruct (fields params) as [[|f fs]|]; try now rewrite app_nil_r.
    rewrite (fold_left_push _ (fun f => addParam [] "fields[]" (VStr f)) (f :: fs) parts)
      by (intros; apply addParam_app).
    now rewrite (fold_left_push _ (fun f => addParam [] "fields[]" (VStr f)) (f :: fs) [])
      by (intros; apply addParam_app). }
  cbv zeta. rewrite (Hf cp).
  set (fp := match fields params with
             | Some ((_ :: _) as fs) =>
                 fold_left (fun parts f => addParam parts "fields[]" (VStr f)) fs []
             | _ => []
             end).
  destruct (truthy_num (per_page params)), (truthy_num (page params)),
    (truthy_str (order params)), (truthy_str (format params));
    repeat match goal with
           | |- context [addParam ?p ?k ?v] =>
               lazymatch p with
               | [] => fail
               | _ => rewrite (addParam_app p k v)
               end
           end;
    rewrite <- ?app_assoc; reflexivity.
Qed.

(** The pairs after the filter conditions, one by one. *)
Lemma other_pairs_layout (params : QueryParams) :
  other_pairs params
  = (field_pairs (fields params) ++ num_pair "per_page" (per_page params)
     ++ num_pair "page" (page params) ++ str_pair "order" (order params)
     ++ str_pair "format" (format params))%list.
Proof.
  unfold other_pairs, query_parts, set_conditions, field_pairs, num_pair, str_pair.
  cbn [conditions fields per_page page order format]. cbv zeta.
  assert (Hf : match fields params with
               | Some ((_ :: _) as fs) =>
                   fold_left (fun parts f => addParam parts "fields[]" (VStr f)) fs []
               | _ => []
               end = map (pair_of "fields[]") (or_default (fields params) [])).
  { destruct (fields params) as [[|f fs]|]; try reflexivity.
    rewrite (fold_left_push _ (fun f => addParam [] "fields[]" (VStr f)) (f :: fs) [])
      by (intros; apply addParam_app).
    cbn [app or_default].
    generalize (f :: fs). intros l. induction l as [|x l IH]; [reflexivity|].
    simpl. now rewrite IH. }
  rewrite Hf.
  destruct (truthy_num (per_page params)), (truthy_num (page params)),
    (truthy_str (order params)), (truthy_str (format params));
    repeat match goal with
           | |- context [addParam ?p ?k ?v] =>
               lazymatch p with
               | [] => fail
               | _ => rewrite (addParam_app p k v)
               end
           end;
    unfold addParam; cbn [present js_String];
    rewrite <- ?app_assoc; rewrite ?app_nil_r; reflexivity.
Qed.

Lemma query_parts_ok (params : QueryParams) : Forall segment_ok (query_parts params).
Proof.
  assert (Hcond : forall c, Forall segment_ok (condition_pairs c)).
  { intros c. unfold condition_pairs. rewrite addConditions_flat_map. simpl.
    induction c as [|[k v] c IH]; [constructor|].
    cbn [flat_map]. apply Forall_app. split; [|assumption].
    destruct v; try exact (addParam_ok _ _).
    - rewrite entry_sequence. unfold sequence_pairs, sequence_pair.
      apply Forall_map, Forall_forall. intros x _.
      split; [apply pair_of_no_amp | apply pair_of_nonempty].
    - rewrite entry_nested. unfold nested_pairs, nested_pair.
      apply Forall_map, Forall_forall. intros x _.
      split; [apply pair_of_no_amp | apply pair_of_nonempty]. }
  assert (Hfold : forall fs parts, Forall segment_ok parts ->
            Forall segment_ok
              (fold_left (fun parts f => addParam parts "fields[]" (VStr f)) fs parts)).
  { induction fs as [|f fs IH]; intros parts Hp; simpl; [assumption|].
    apply IH. rewrite addParam_app. apply Forall_app. split; [assumption|apply addParam_ok]. }
  assert (Hadd : forall parts key v, Forall segment_ok parts ->
            Forall segment_ok (addParam parts key v)).
  { intros. rewrite addParam_app. apply Forall_app. split; [assumption|apply addParam_ok]. }
  unfold query_parts.
  repeat match goal with
         | |- Forall _ (match ?x with _ => _ end) => destruct x
         | |- Forall _ (addParam _ _ _) => apply Hadd
         | |- Forall _ (fold_left _ _ _) => apply Hfold
         | |- Forall _ (addConditions [] ?c) => apply (Hcond c)
         | |- Forall _ [] => constructor
         | |- Forall _ (let _ := _ in _) => cbv zeta
         end.
Qed.

(** The segments of the query string are the elements of [parts]. *)
Lemma query_pairs_parts (params : QueryParams) :
  query_pairs (buildQueryString params) = query_parts params.
Proof.
  unfold buildQueryString, query_pairs.
  pose proof (query_parts_ok params) as Hok.
  destruct (query_parts params) as [|p parts] eqn:E; [reflexivity|].
  assert (Hsplit : Str.split_on "&" (String.concat "&" (p :: parts)) = p :: parts).
  { apply split_on_concat; [discriminate|].
    eapply Forall_impl; [|exact Hok]. now intros ? [? _]. }
  destruct (String.concat "&" (p :: parts)) eqn:Ec; [|exact Hsplit].
  exfalso. inversion Hok as [|? ? [_ Hp] _]; subst.
  destruct parts; simpl in Ec.
  - now apply Hp.
  - destruct p; [now apply Hp | discriminate].
Qed.

(** *** Which key a segment belongs to *)

Lemma seg_key_pair_of (k v : string) : seg_key (pair_of k v) = encodeURIComponent k.
Proof.
  unfold seg_key, pair_of.
  change (encodeURIComponent k ++ "=" ++ encodeURIComponent v)
    with (encodeURIComponent k ++ String "=" (encodeURIComponent v)).
  now rewrite split_on_sep by apply encodeURIComponent_no_eq.
Qed.

Lemma key_is_pair_of (key k v : string) : key_is key (pair_of k v) = String.eqb k key.
Proof.
  unfold key_is. rewrite seg_key_pair_of.
  destruct (String.eqb_spec k key) as [->|Hne].
  - apply String.eqb_refl.
  - apply String.eqb_neq. intros H. now apply encodeURIComponent_inj in H.
Qed.

Lemma filter_none {A} (f : A -> bool) (l : list A) :
  Forall (fun x => f x = false) l -> filter f l = [].
Proof.
  induction 1 as [|x l Hx _ IH]; simpl; [reflexivity|].
  now rewrite Hx.
Qed.

(** Every pair a condition entry contributes has a key that starts with
    [conditions[], the entry's name and a closing bracket. *)
Lemma entry_pairs_shape (k : string) (v : value) (p : string) :
  In p (addConditions_entry "conditions" [] (k, v)) ->
  exists rest val, p = pair_of ("conditions[" ++ k ++ String "]" rest) val.
Proof.
  assert (Hscalar : forall v', In p (addParam [] ("conditions" ++ "[" ++ k ++ "]") v') ->
            exists rest val, p = pair_of ("conditions[" ++ k ++ String "]" rest) val).
  { intros v'. unfold addParam. destruct (present v'); simpl; [|contradiction].
    intros [<-|[]]. now exists "", (js_String v'). }
  destruct v; try exact (Hscalar _).
  - rewrite entry_sequence. unfold sequence_pairs, sequence_pair, sequence_key.
    intros Hin. apply in_map_iff in Hin as [item [<- _]].
    now exists "[]", (js_String item).
  - rewrite entry_nested. unfold nested_pairs, nested_pair, nested_key.
    intros Hin. apply in_map_iff in Hin as [se [<- _]].
    now exists ("[" ++ fst se ++ "]"), (js_String (snd se)).
Qed.

(** The pairs of another filter are not pairs of [k]. *)
Lemma foreign_entry (k k' rest : string) (v : value) :
  k' <> k -> Str.mem "]" k = false -> Str.mem "]" k' = false ->
  Forall (fun p => key_is ("conditions[" ++ k ++ String "]" rest) p = false)
         (addConditions_entry "conditions" [] (k', v)).
Proof.
  intros Hne Hk Hk'. apply Forall_forall. intros p Hin.
  apply entry_pairs_shape in Hin as (rest' & val & ->).
  rewrite key_is_pair_of. apply String.eqb_neq. intros H.
  apply (append_cancel_l "conditions[") in H.
  apply cut_at_first in H as [H _]; [contradiction | assumption | assumption].
Qed.

Lemma foreign_conditions (k rest : string) (c : Conditions) :
  ~ In k (map fst c) -> Str.mem "]" k = false ->
  Forall (fun e => Str.mem "]" (fst e) = false) c ->
  Forall (fun p => key_is ("conditions[" ++ k ++ String "]" rest) p = false)
         (condition_pairs c).
Proof.
  intros Hnotin Hk Hc. induction c as [|[k' v] c IH]; [constructor|].
  rewrite condition_pairs_cons. inversion Hc as [|? ? Hk' Hc']; subst.
  apply Forall_app. split.
  - apply foreign_entry; [|assumption|assumption].
    intros ->. apply Hnotin. now left.
  - apply IH; [|assumption]. intros Hin. apply Hnotin. now right.
Qed.

(** The keys of the pairs that do not come from the conditions. *)
Lemma other_pairs_shape (params : QueryParams) :
  Forall (fun p => exists key val,
              p = pair_of key val
              /\ In key ["fields[]"; "per_page"; "page"; "order"; "format"])
         (other_pairs params).
Proof.
  set (P := fun p : string => exists key val,
              p = pair_of key val
              /\ In key ["fields[]"; "per_page"; "page"; "order"; "format"]).
  assert (Hadd : forall parts key v,
            In key ["fields[]"; "per_page"; "page"; "order"; "format"] ->
            Forall P parts -> Forall P (addParam parts key v)).
  { intros parts key v Hkey Hp. unfold addParam. destruct (present v); [|assumption].
    apply Forall_app. split; [assumption|].
    constructor; [|constructor]. now exists key, (js_String v). }
  assert (Hfold : forall fs parts, Forall P parts ->
            Forall P (fold_left (fun parts f => addParam parts "fields[]" (VStr f)) fs parts)).
  { induction fs as [|f fs IH]; intros parts Hp; simpl; [assumption|].
    apply IH, Hadd; [simpl; tauto | assumption]. }
  unfold other_pairs, query_parts, set_conditions.
  cbn [conditions fields per_page page order format]. cbv zeta.
  repeat match goal with
         | |- Forall _ (match ?x with _ => _ end) => destruct x
         | |- Forall _ (addParam _ _ _) => apply Hadd; [simpl; tauto|]
         | |- Forall _ (fold_left _ _ _) => apply Hfold
         | |- Forall _ [] => constructor
         end.
Qed.

Lemma foreign_other (k rest : string) (params : QueryParams) :
  Forall (fun p => key_is ("conditions[" ++ k ++ String "]" rest) p = false)
         (other_pairs params).
Proof.
  eapply Forall_impl; [|apply other_pairs_shape].
  intros p (key & val & -> & Hkey). rewrite key_is_pair_of.
  apply String.eqb_neq. intros ->.
  simpl in Hkey. repeat destruct Hkey as [Hkey|Hkey]; try discriminate Hkey.
  contradiction.
Qed.

(** Among all pairs of the query string, those for a key under filter [k]
    are the ones filter [k] itself contributes. *)
Lemma filter_own_pairs (params : QueryParams) (pre post : Conditions)
    (k rest : string) (v : value) :
  conditions params = Some (pre ++ (k, v) :: post)%list ->
  plain_keys (pre ++ (k, v) :: post)%list ->
  filter (key_is ("conditions[" ++ k ++ String "]" rest))
         (query_pairs (buildQueryString params))
  = filter (key_is ("conditions[" ++ k ++ String "]" rest))
           (addConditions_entry "conditions" [] (k, v)).
Proof.
  intros Hc [Hnodup Hplain].
  rewrite query_pairs_parts, query_parts_split, Hc.
  rewrite condition_pairs_app, condition_pairs_cons.
  rewrite map_app in Hnodup. simpl in Hnodup.
  apply Forall_app in Hplain as [Hpre Hpost].
  inversion Hpost as [|? ? Hk Hpost']; subst. simpl in Hk.
  assert (Hnotpre : ~ In k (map fst pre)).
  { intros Hin. apply NoDup_remove_2 in Hnodup. apply Hnodup.
    apply in_or_app. now left. }
  assert (Hnotpost : ~ In k (map fst post)).
  { intros Hin. apply NoDup_remove_2 in Hnodup. apply Hnodup.
    apply in_or_app. now right. }
  rewrite !filter_app.
  rewrite (filter_none _ (condition_pairs pre))
    by (apply foreign_conditions; assumption).
  rewrite (filter_none _ (condition_pairs post))
    by (apply foreign_conditions; assumption).
  rewrite (filter_none _ (other_pairs params)) by apply foreign_other.
  simpl. now rewrite !app_nil_r.
Qed.

Lemma nested_key_shape (k sub : string) :
  nested_key k sub = "conditions[" ++ k ++ String "]" ("[" ++ sub ++ "]").
Proof. reflexivity. Qed.

Lemma sequence_key_shape (k : string) :
  sequence_key k = "conditions[" ++ k ++ String "]" "[]".
Proof. reflexivity. Qed.

Lemma nested_key_inj (k sub sub' : string) :
  nested_key k sub = nested_key k sub' -> sub = sub'.
Proof.
  unfold nested_key. intros H.
  apply (append_cancel_l "conditions[") in H.
  apply (append_cancel_l k) in H.
  apply (append_cancel_l "][") in H.
  now apply append_cancel_r in H.
Qed.

Lemma filter_nested_pairs (k sub : string) (m : list (string * value)) :
  filter (key_is (nested_key k sub)) (nested_pairs k m)
  = nested_pairs k (filter (fun se => String.eqb (fst se) sub) m).
Proof.
  unfold nested_pairs. induction m as [|[s v] m IH]; [reflexivity|].
  cbn [filter fst snd]. destruct (present v) eqn:Hv.
  - cbn [map filter fst snd]. unfold nested_pair at 1. rewrite key_is_pair_of.
    destruct (String.eqb_spec s sub) as [->|Hne].
    + rewrite String.eqb_refl. cbn [filter map fst snd]. rewrite Hv.
      cbn [map fst snd]. now rewrite IH.
    + destruct (String.eqb_spec (nested_key k s) (nested_key k sub)) as [He|_].
      * now apply nested_key_inj in He.
      * exact IH.
  - destruct (String.eqb s sub); [|exact IH].
    cbn [filter fst snd]. rewrite Hv. exact IH.
Qed.

Lemma filter_key_absent (sub : string) (m : list (string * value)) :
  ~ In sub (map fst m) -> filter (fun se => String.eqb (fst se) sub) m = [].
Proof.
  intros Hnot. apply filter_none, Forall_forall. intros [s v] Hin.
  apply String.eqb_neq. intros Heq. simpl in Heq. subst s.
  apply Hnot. apply in_map_iff. now exists (sub, v).
Qed.

Lemma filter_key_unique (sub : string) (v : value) (m : list (string * value)) :
  NoDup (map fst m) -> In (sub, v) m ->
  filter (fun se => String.eqb (fst se) sub) m = [(sub, v)].
Proof.
  induction m as [|[s x] m IH]; intros Hnd Hin; [contradiction|].
  simpl in Hnd. inversion Hnd as [|? ? Hnotin Hnd']; subst.
  cbn [filter fst]. destruct Hin as [Heq|Hin].
  - injection Heq as -> ->. rewrite String.eqb_refl.
    now rewrite filter_key_absent.
  - destruct (String.eqb_spec s sub) as [->|_].
    + exfalso. apply Hnotin. apply in_map_iff. now exists (sub, v).
    + now apply IH.
Qed.

Lemma other_pairs_set_conditions (params : QueryParams) (c : option Conditions) :
  other_pairs (set_conditions params c) = other_pairs params.
Proof. reflexivity. Qed.

(** No segment of a query string is empty. *)
Lemma no_empty_segments (params : QueryParams) :
  buildQueryString params = ""
  \/ Forall (fun seg => seg <> "") (Str.split_on "&" (buildQueryString params)).
Proof.
  pose proof (query_pairs_parts params) as Hp.
  pose proof (query_parts_ok params) as Hok.
  unfold query_pairs in Hp.
  destruct (buildQueryString params) as [|a qs]; [now left|right].
  rewrite Hp. eapply Forall_impl; [|exact Hok]. now intros seg [_ Hne].
Qed.

Example buildQueryString_example :
  buildQueryString example_params
  = "conditions%5Bpresident%5D=joe-biden&conditions%5Bpublication_date%5D%5Byear%5D=2024&conditions%5Bpublication_date%5D%5Blte%5D=2024-12-31&conditions%5Bagencies%5D%5B%5D=epa&conditions%5Bagencies%5D%5B%5D=7&conditions%5Bagencies%5D%5B%5D=food%20%26%20drug&fields%5B%5D=title&per_page=50".
Proof. reflexivity. Qed.

Example buildQueryString_president :
  buildQueryString
    (mkQueryParams (Some [("president", VStr "joe-biden")]) None (Some 50) None None None)
  = "conditions%5Bpresident%5D=joe-biden&per_page=50".
Proof. reflexivity. Qed.

Example buildQueryString_empty : buildQueryString empty_params = "".
Proof. reflexivity. Qed.

(** C5. When a filter [k] is a nested mapping [m], the query string holds,
    between the pairs of the filters before [k] and those of the filters
    after it, exactly the percent-encoded pairs [conditions[k][sub]=v] of
    the sub-keys of [m] whose value is neither [null] nor [undefined], one
    per sub-key and in the iteration order of [m]; a sub-key absent from
    [m] has no pair among them.  With plain filter names the same holds
    counted over the whole string: one pair under the key
    [conditions[k][sub]] for a present sub-key, none for an absent one. *)
Theorem C5_nested_mapping_pairs (params : QueryParams) (pre post : Conditions)
    (k : string) (m : list (string * value)) :
  conditions params = Some (pre ++ (k, VObj m) :: post)%list ->
  query_pairs (buildQueryString params)
  = (condition_pairs pre ++ nested_pairs k m
     ++ condition_pairs post ++ other_pairs params)%list
  /\ (forall sub v, ~ In sub (map fst m) ->
        ~ In (nested_pair k sub v) (nested_pairs k m))
  /\ (NoDup (map fst m) -> NoDup (nested_pairs k m))
  /\ (plain_keys (pre ++ (k, VObj m) :: post)%list -> NoDup (map fst m) ->
        (forall sub v, In (sub, v) m -> present v = true ->
           filter (key_is (nested_key k sub)) (query_pairs (buildQueryString params))
           = [nested_pair k sub (js_String v)])
        /\ (forall sub, ~ In sub (map fst m) ->
              filter (key_is (nested_key k sub)) (query_pairs (buildQueryString params))
              = [])).
Proof.
  intros Hc. repeat split.
  - rewrite query_pairs_parts, query_parts_split, Hc.
    rewrite condition_pairs_app, condition_pairs_cons, entry_nested.
    now rewrite <- !app_assoc.
  - intros sub v Hnot Hin. apply Hnot.
    unfold nested_pairs in Hin. apply in_map_iff in Hin as [[s x] [Heq Hin]].
    apply pair_of_inj in Heq as [Heq _]. apply nested_key_inj in Heq.
    simpl in Heq. subst s. apply filter_In in Hin as [Hin _].
    apply in_map_iff. now exists (sub, x).
  - intros Hnd. unfold nested_pairs.
    assert (Hnd' : NoDup (map fst (filter (fun se : string * value => present (snd se)) m))).
    { clear Hc. induction m as [|[s x] m IH]; [constructor|].
      simpl in Hnd. inversion Hnd as [|? ? Hnotin Hnd']; subst.
      cbn [filter snd]. destruct (present x); [|now apply IH].
      simpl. constructor; [|now apply IH].
      intros Hin. apply Hnotin. apply in_map_iff in Hin as [se [Hfst Hin]].
      apply filter_In in Hin as [Hin _]. apply in_map_iff. now exists se. }
    revert Hnd'. generalize (filter (fun se : string * value => present (snd se)) m).
    intros l. induction l as [|[s x] l IH]; intros Hl; [constructor|].
    simpl in Hl. inversion Hl as [|? ? Hnotin Hl']; subst.
    simpl. constructor; [|now apply IH].
    intros Hin. apply Hnotin. apply in_map_iff in Hin as [[s' x'] [Heq Hin]].
    apply pair_of_inj in Heq as [Heq _]. apply nested_key_inj in Heq.
    simpl in Heq. subst s'. apply in_map_iff. now exists (s, x').
  - intros sub v Hin Hv.
    rewrite nested_key_shape, (filter_own_pairs params pre post k _ (VObj m) Hc)
      by assumption.
    rewrite <- nested_key_shape, entry_nested, filter_nested_pairs.
    rewrite (filter_key_unique sub v) by assumption.
    unfold nested_pairs. cbn [filter snd]. rewrite Hv. reflexivity.
  - intros sub Hnot.
    rewrite nested_key_shape, (filter_own_pairs params pre post k _ (VObj m) Hc)
      by assumption.
    rewrite <- nested_key_shape, entry_nested, filter_nested_pairs.
    now rewrite filter_key_absent.
Qed.

Lemma C5_nested_mapping_pairs_witness :
  query_pairs (buildQueryString example_params)
  = (["conditions%5Bpresident%5D=joe-biden"]
     ++ ["conditions%5Bpublication_date%5D%5Byear%5D=2024";
         "conditions%5Bpublication_date%5D%5Blte%5D=2024-12-31"]
     ++ ["conditions%5Bagencies%5D%5B%5D=epa"; "conditions%5Bagencies%5D%5B%5D=7";
         "conditions%5Bagencies%5D%5B%5D=food%20%26%20drug"]
     ++ ["fields%5B%5D=title"; "per_page=50"])%list
  /\ filter (key_is (nested_key "publication_date" "year"))
            (query_pairs (buildQueryString example_params))
     = ["conditions%5Bpublication_date%5D%5Byear%5D=2024"]
  /\ filter (key_is (nested_key "publication_date" "gte"))
            (query_pairs (buildQueryString example_params))
     = []
  /\ filter (key_is (nested_key "publication_date" "month"))
            (query_pairs (buildQueryString example_params))
     = [].
Proof.
  pose proof (C5_nested_mapping_pairs example_params
                [("president", VStr "joe-biden")]
                [("agencies", VArr [VStr "epa"; VNum 7; VStr "food & drug"]);
                 ("topics", VArr []); ("signing_date", VObj [])]
                "publication_date"
                [("year", VNum 2024); ("gte", VNull); ("lte", VStr "2024-12-31")]
                eq_refl) as (Hpairs & _ & _ & Hcount).
  assert (Hplain : plain_keys example_conditions).
  { split.
    - simpl. repeat constructor; simpl; intuition discriminate.
    - repeat constructor. }
  assert (Hsub : NoDup (map fst [("year", VNum 2024); ("gte", VNull);
                                 ("lte", VStr "2024-12-31")])).
  { simpl. repeat constructor; simpl; intuition discriminate. }
  destruct (Hcount Hplain Hsub) as [Hone Hnone].
  split; [exact Hpairs|]. split; [|split].
  - apply (Hone "year" (VNum 2024)); [simpl; tauto | reflexivity].
  - reflexivity.
  - apply (Hnone "month"). simpl. intuition discriminate.
Defined.

(** C6. When a filter [k] is a sequence of N values, none of them [null]
    or [undefined] (N scalars in particular), the query string holds,
    between the pairs of the filters before [k] and those of the filters
    after it, exactly N percent-encoded pairs [conditions[k][]=vi], one
    per element and in the order of the sequence.  With plain filter names
    these are all the pairs under the key [conditions[k][]] in the whole
    string. *)
Theorem C6_sequence_pairs (params : QueryParams) (pre post : Conditions)
    (k : string) (items : list value) :
  conditions params = Some (pre ++ (k, VArr items) :: post)%list ->
  Forall (fun item => present item = true) items ->
  query_pairs (buildQueryString params)
  = (condition_pairs pre ++ sequence_pairs k items
     ++ condition_pairs post ++ other_pairs params)%list
  /\ List.length (sequence_pairs k items) = List.length items
  /\ (plain_keys (pre ++ (k, VArr items) :: post)%list ->
        filter (key_is (sequence_key k)) (query_pairs (buildQueryString params))
        = sequence_pairs k items).
Proof.
  intros Hc Hall. repeat split.
  - rewrite query_pairs_parts, query_parts_split, Hc.
    rewrite condition_pairs_app, condition_pairs_cons, entry_sequence.
    rewrite (filter_all present) by assumption.
    now rewrite <- !app_assoc.
  - unfold sequence_pairs. apply length_map.
  - intros Hplain.
    rewrite sequence_key_shape, (filter_own_pairs params pre post k _ (VArr items) Hc)
      by assumption.
    rewrite <- sequence_key_shape, entry_sequence.
    rewrite (filter_all present) by assumption.
    apply filter_all, Forall_forall. intros p Hin.
    unfold sequence_pairs in Hin. apply in_map_iff in Hin as [item [<- _]].
    unfold sequence_pair. rewrite key_is_pair_of. apply String.eqb_refl.
Qed.

Lemma C6_sequence_pairs_witness :
  filter (key_is (sequence_key "agencies")) (query_pairs (buildQueryString example_params))
  = ["conditions%5Bagencies%5D%5B%5D=epa"; "conditions%5Bagencies%5D%5B%5D=7";
     "conditions%5Bagencies%5D%5B%5D=food%20%26%20drug"].
Proof.
  refine (proj2 (proj2 (C6_sequence_pairs example_params
                  [("president", VStr "joe-biden");
                   ("publication_date",
                    VObj [("year", VNum 2024); ("gte", VNull); ("lte", VStr "2024-12-31")])]
                  [("topics", VArr []); ("signing_date", VObj [])]
                  "agencies" [VStr "epa"; VNum 7; VStr "food & drug"]
                  eq_refl _)) _).
  - repeat constructor.
  - split.
    + simpl. repeat constructor; simpl; intuition discriminate.
    + repeat constructor.
Defined.

(** C10. A filter that is an empty sequence or an empty nested mapping
    contributes no pair: the query string is the one built without that
    filter, so with plain filter names it holds no pair under any key that
    starts with [conditions[k]], the bare [conditions[k]=] included; and no
    [&]-separated segment of the string is empty. *)
Theorem C10_empty_filter_emits_nothing (params : QueryParams) (pre post : Conditions)
    (k : string) (v : value) :
  conditions params = Some (pre ++ (k, v) :: post)%list ->
  v = VArr [] \/ v = VObj [] ->
  addConditions_entry "conditions" [] (k, v) = []
  /\ buildQueryString params
     = buildQueryString (set_conditions params (Some (pre ++ post)%list))
  /\ query_pairs (buildQueryString params)
     = (condition_pairs pre ++ condition_pairs post ++ other_pairs params)%list
  /\ (plain_keys (pre ++ (k, v) :: post)%list ->
        forall rest,
          filter (key_is ("conditions[" ++ k ++ String "]" rest))
                 (query_pairs (buildQueryString params)) = [])
  /\ (buildQueryString params = ""
      \/ Forall (fun seg => seg <> "") (Str.split_on "&" (buildQueryString params))).
Proof.
  intros Hc Hv.
  assert (Hentry : addConditions_entry "conditions" [] (k, v) = [])
    by (destruct Hv as [-> | ->]; reflexivity).
  assert (Hparts : query_parts params
                   = (condition_pairs pre ++ condition_pairs post
                      ++ other_pairs params)%list).
  { rewrite query_parts_split, Hc, condition_pairs_app, condition_pairs_cons, Hentry.
    simpl. now rewrite <- app_assoc. }
  repeat split.
  - exact Hentry.
  - unfold buildQueryString. f_equal. rewrite Hparts.
    rewrite (query_parts_split (set_conditions _ _)).
    change (conditions (set_conditions params (Some (pre ++ post)%list)))
      with (Some (pre ++ post)%list).
    cbv beta iota. rewrite condition_pairs_app, other_pairs_set_conditions.
    now rewrite <- app_assoc.
  - now rewrite query_pairs_parts.
  - intros Hplain rest.
    rewrite (filter_own_pairs params pre post k rest v Hc Hplain), Hentry.
    reflexivity.
  - apply no_empty_segments.
Qed.

Lemma C10_empty_filter_emits_nothing_witness :
  buildQueryString example_params
  = buildQueryString
      (set_conditions example_params
         (Some [("president", VStr "joe-biden");
                ("publication_date",
                 VObj [("year", VNum 2024); ("gte", VNull); ("lte", VStr "2024-12-31")]);
                ("agencies", VArr [VStr "epa"; VNum 7; VStr "food & drug"]);
                ("signing_date", VObj [])])).
Proof.
  exact (proj1 (proj2 (C10_empty_filter_emits_nothing example_params
                  [("president", VStr "joe-biden");
                   ("publication_date",
                    VObj [("year", VNum 2024); ("gte", VNull); ("lte", VStr "2024-12-31")]);
                   ("agencies", VArr [VStr "epa"; VNum 7; VStr "food & drug"])]
                  [("signing_date", VObj [])]
                  "topics" (VArr []) eq_refl (or_introl eq_refl)))).
Defined.

(** ** The paginator *)

Section PaginatorFacts.
Context {W T : Type}.
Variable searchFn : @SearchFunction W T.
Variable options : SearchDocumentsOptions.
Variables maxResults perPage : Z.

(** One iteration of the loop, as an equation. *)
Lemma getAllResults_loop_step (fuel : nat) (acc : list T) (pg : Z) (w : W) :
  getAllResults_loop (S fuel) searchFn options maxResults perPage acc pg w =
  if Z.of_nat (List.length acc) <? maxResults then
    match searchFn (with_paging options pg perPage) w with
    | (Throw msg, w') => Some (Throw msg, w')
    | (Ok response, w') =>
        match results response with
        | Some ((_ :: _) as rs) =>
            if match total_pages response with
               | Some tp => pg >=? tp
               | None => false
               end
            then Some (Ok (acc ++ rs)%list, w')
            else getAllResults_loop fuel searchFn options maxResults perPage (acc ++ rs)%list (pg + 1) w'
        | _ => Some (Ok acc, w')
        end
    end
  else Some (Ok acc, w).
Proof. reflexivity. Qed.

Lemma getAllResults_loop_full (fuel : nat) (acc : list T) (pg : Z) (w : W) :
  (Z.of_nat (List.length acc) <? maxResults) = false ->
  getAllResults_loop fuel searchFn options maxResults perPage acc pg w = Some (Ok acc, w).
Proof. intros H. destruct fuel; simpl; now rewrite H. Qed.

(** Every iteration that goes on has made the accumulator longer, so the
    room left under [maxResults] bounds the iterations. *)
Lemma getAllResults_loop_total (fuel : nat) :
  forall (acc : list T) (pg : Z) (w : W),
    (Z.to_nat (maxResults - Z.of_nat (List.length acc)) <= fuel)%nat ->
    exists out, getAllResults_loop fuel searchFn options maxResults perPage acc pg w = Some out.
Proof.
  induction fuel as [|fuel IH]; intros acc pg w Hroom.
  - exists (Ok acc, w). apply getAllResults_loop_full. apply Z.ltb_ge. lia.
  - rewrite getAllResults_loop_step.
    destruct (Z.of_nat (List.length acc) <? maxResults) eqn:Hlt; [|eauto].
    destruct (searchFn (with_paging options pg perPage) w) as [[response|msg] w'];
      [|eauto].
    destruct (results response) as [[|x rs]|]; [eauto| |eauto].
    destruct (match total_pages response with
              | Some tp => pg >=? tp
              | None => false
              end); [eauto|].
    apply IH. rewrite length_app. simpl. apply Z.ltb_lt in Hlt. lia.
Qed.

Lemma getAllResults_loop_mono (fuel : nat) :
  forall (acc : list T) (pg : Z) (w : W) out (extra : nat),
    getAllResults_loop fuel searchFn options maxResults perPage acc pg w = Some out ->
    getAllResults_loop (fuel + extra) searchFn options maxResults perPage acc pg w = Some out.
Proof.
  induction fuel as [|fuel IH]; intros acc pg w out extra H.
  - simpl in H. destruct (Z.of_nat (List.length acc) <? maxResults) eqn:Hlt;
      [discriminate|].
    rewrite getAllResults_loop_full by assumption. exact H.
  - change (S fuel + extra)%nat with (S (fuel + extra)).
    rewrite getAllResults_loop_step in *.
    destruct (Z.of_nat (List.length acc) <? maxResults); [|exact H].
    destruct (searchFn (with_paging options pg perPage) w) as [[response|msg] w'];
      [|exact H].
    destruct (results response) as [[|x rs]|]; [exact H| |exact H].
    destruct (match total_pages response with
              | Some tp => pg >=? tp
              | None => false
              end); [exact H|].
    now apply IH.
Qed.

End PaginatorFacts.

Section PaginatorCalls.
Context {W T : Type}.
Variable searchFn : @SearchFunction W T.
Variable options : SearchDocumentsOptions.
Variables maxResults perPage : Z.

(** What a finished run of the loop has accumulated is what its calls
    served, and the calls asked for successive pages. *)
Lemma getAllResults_loop_calls (fuel : nat) :
  forall (acc : list T) (pg : Z) (w : W) log r w' log',
    getAllResults_loop fuel (spy searchFn) options maxResults perPage acc pg (w, log)
    = Some (Ok r, (w', log')) ->
    exists calls,
      log' = (log ++ calls)%list
      /\ r = (acc ++ List.concat (map served calls))%list
      /\ map (fun call => page (fst call)) calls = pages_from pg (List.length calls).
Proof.
  induction fuel as [|fuel IH]; intros acc pg w log r w' log' H.
  - simpl in H. destruct (Z.of_nat (List.length acc) <? maxResults); [discriminate|].
    injection H as <- <- <-. exists []. simpl. now rewrite !app_nil_r.
  - rewrite getAllResults_loop_step in H.
    destruct (Z.of_nat (List.length acc) <? maxResults).
    2:{ injection H as <- <- <-. exists []. simpl. now rewrite !app_nil_r. }
    unfold spy in H at 1. cbn [fst snd] in H.
    destruct (searchFn (with_paging options pg perPage) w) as [[response|msg] w1] eqn:Hcall;
      [|discriminate].
    set (call := (with_paging options pg perPage, Ok response)) in *.
    assert (Hserved : served call = or_default (results response) []) by reflexivity.
    destruct (results response) as [[|x rs]|] eqn:Hres.
    + injection H as <- <- <-. exists [call]. simpl. rewrite Hserved.
      simpl. now rewrite !app_nil_r.
    + destruct (match total_pages response with
                | Some tp => pg >=? tp
                | None => false
                end).
      * injection H as <- <- <-. exists [call]. simpl. rewrite Hserved.
        simpl. now rewrite !app_nil_r.
      * apply IH in H as (calls & -> & -> & Hpages).
        exists (call :: calls). rewrite <- !app_assoc. simpl.
        rewrite Hserved. simpl. rewrite Hpages. repeat split; reflexivity.
    + injection H as <- <- <-. exists [call]. simpl. rewrite Hserved.
      simpl. now rewrite !app_nil_r.
Qed.

End PaginatorCalls.

Lemma slice0_nonneg {A} (l : list A) (n : Z) :
  0 <= n -> slice0 l n = firstn (Z.to_nat n) l.
Proof.
  intros Hn. unfold slice0. destruct (n <? 0) eqn:E; [|reflexivity].
  apply Z.ltb_lt in E. lia.
Qed.

Lemma slice0_nil {A} (n : Z) : slice0 (@nil A) n = [].
Proof. unfold slice0. destruct (n <? 0); now rewrite firstn_nil. Qed.

(** C2. The paginator returns after at most [maxResults] calls of the
    search function (none when [maxResults] is zero or negative), whatever
    result sequences and total-page counts the search function returns,
    for every filter and every world it runs in: with that many iterations
    allowed, or more, the run is finished and its outcome is the same. *)
Theorem C2_getAllResults_terminates {W T : Type} (searchFn : @SearchFunction W T)
    (options : SearchDocumentsOptions) (maxResults : Z) (w : W) :
  exists out : result (list T) * W,
    forall extra : nat,
      getAllResults (Z.to_nat maxResults + extra) searchFn options maxResults w
      = Some out.
Proof.
  destruct (getAllResults_loop_total searchFn options maxResults
              (getAllResults_perPage options) (Z.to_nat maxResults) [] 1 w)
    as [out Hout].
  { simpl. rewrite Z.sub_0_r. lia. }
  exists (match out with
          | (Ok allResults, w') => (Ok (slice0 allResults maxResults), w')
          | other => other
          end).
  intros extra. unfold getAllResults.
  rewrite (getAllResults_loop_mono _ _ _ _ _ _ _ _ _ extra Hout).
  destruct out as [[allResults|msg] w']; reflexivity.
Qed.

(** C3. What the paginator returns has at most [maxResults] elements
    (none, without any call, when [maxResults] is zero or negative) and is
    the first [maxResults] elements, hence a prefix, of the concatenation
    of the result sequences its calls were served, the calls asking for
    pages 1, 2, 3, ... in this order.  In particular, with a
    maximum of 3 and pages of two items each, the first not being declared
    the last, it returns exactly the first three items: both items of the
    first page and the first item of the second. *)
Theorem C3_getAllResults_prefix {W T : Type} :
  (forall (searchFn : @SearchFunction W T) (options : SearchDocumentsOptions)
          (maxResults : Z) (fuel : nat) (w w' : W) (r : list T)
          (log : list (SearchDocumentsOptions * result (SearchResult T))),
      getAllResults fuel (spy searchFn) options maxResults (w, [])
      = Some (Ok r, (w', log)) ->
      r = firstn (Z.to_nat maxResults) (List.concat (map served log))
      /\ (exists rest, List.concat (map served log) = (r ++ rest)%list)
      /\ (0 <= maxResults -> Z.of_nat (List.length r) <= maxResults)
      /\ (maxResults <= 0 -> r = [] /\ log = [])
      /\ map (fun call => page (fst call)) log = pages_from 1 (List.length log))
  /\ (forall (searchFn : @SearchFunction W T) (options : SearchDocumentsOptions)
             (fuel : nat) (w w1 w2 : W) (first second : SearchResult T)
             (a b c d : T),
         searchFn (with_paging options 1 (getAllResults_perPage options)) w
         = (Ok first, w1) ->
         results first = Some [a; b] ->
         (forall tp, total_pages first = Some tp -> 1 < tp) ->
         searchFn (with_paging options 2 (getAllResults_perPage options)) w1
         = (Ok second, w2) ->
         results second = Some [c; d] ->
         getAllResults (2 + fuel) searchFn options 3 w = Some (Ok [a; b; c], w2)).
Proof.
  split.
  - intros searchFn options maxResults fuel w w' r log H.
    unfold getAllResults in H.
    destruct (getAllResults_loop fuel (spy searchFn) options maxResults
                (getAllResults_perPage options) [] 1 (w, []))
      as [[[allResults|msg] st]|] eqn:Hloop; try discriminate.
    injection H as <- ->.
    destruct (Z.ltb_spec 0 maxResults) as [Hpos|Hneg].
    + apply getAllResults_loop_calls in Hloop as (calls & Hlog & -> & Hpages).
      simpl in Hlog. subst calls. simpl app.
      rewrite slice0_nonneg by lia.
      repeat split.
      * exists (skipn (Z.to_nat maxResults) (List.concat (map served log))).
        symmetry. apply firstn_skipn.
      * intros _. pose proof (firstn_le_length (Z.to_nat maxResults)
                                (List.concat (map served log))). lia.
      * lia.
      * lia.
      * exact Hpages.
    + rewrite getAllResults_loop_full in Hloop
        by (simpl; apply Z.ltb_ge; lia).
      injection Hloop as <- <- <-. rewrite slice0_nil. simpl.
      rewrite firstn_nil. repeat split.
      * now exists [].
      * simpl. lia.
  - intros searchFn options fuel w w1 w2 first second a b c d H1 R1 T1 H2 R2.
    unfold getAllResults.
    change (2 + fuel)%nat with (S (S fuel)).
    rewrite getAllResults_loop_step. simpl List.length.
    change (Z.of_nat 0 <? 3) with true. cbv iota.
    rewrite H1, R1.
    assert (Hmore : match total_pages first with
                    | Some tp => 1 >=? tp
                    | None => false
                    end = false).
    { destruct (total_pages first) as [tp|]; [|reflexivity].
      specialize (T1 tp eq_refl). rewrite Z.geb_leb. apply Z.leb_gt. lia. }
    rewrite Hmore. change (1 + 1) with 2. simpl app.
    rewrite getAllResults_loop_step. simpl List.length.
    change (Z.of_nat 2 <? 3) with true. cbv iota.
    rewrite H2, R2. simpl app.
    destruct (match total_pages second with
              | Some tp => 2 >=? tp
              | None => false
              end); [reflexivity|].
    rewrite getAllResults_loop_full by reflexivity. reflexivity.
Qed.

Lemma C3_getAllResults_prefix_witness :
  getAllResults 2 pages_of_two empty_params 3 tt = Some (Ok [1; 2; 3], tt)
  /\ Z.of_nat (List.length [1; 2; 3]) <= 3.
Proof.
  split.
  - exact (proj2 (@C3_getAllResults_prefix unit Z) pages_of_two empty_params 0%nat
             tt tt tt
             (mkSearchResult 6 (Some 3) (Some [1; 2]))
             (mkSearchResult 6 (Some 3) (Some [3; 4]))
             1 2 3 4 eq_refl eq_refl
             (fun tp E => match E in _ = o return
                                match o with Some t => 1 < t | None => True end
                          with eq_refl => eq_refl end)
             eq_refl eq_refl).
  - refine (proj1 (proj2 (proj2 (proj1 (@C3_getAllResults_prefix unit Z)
             pages_of_two empty_params 3 5%nat tt tt [1; 2; 3] _ eq_refl))) _).
    discriminate.
Defined.

(** C4. When the first page comes back with an empty result sequence, or
    with none at all, and the maximum is positive, the paginator returns
    the empty sequence and has called the search function exactly once,
    for page 1. *)
Theorem C4_getAllResults_empty_first_page {W T : Type}
    (searchFn : @SearchFunction W T) (options : SearchDocumentsOptions)
    (maxResults : Z) (fuel : nat) (w w1 : W) (first : SearchResult T) :
  0 < maxResults ->
  searchFn (with_paging options 1 (getAllResults_perPage options)) w = (Ok first, w1) ->
  results first = None \/ results first = Some [] ->
  getAllResults (S fuel) (spy searchFn) options maxResults (w, [])
  = Some (Ok [],
          (w1, [(with_paging options 1 (getAllResults_perPage options), Ok first)])).
Proof.
  intros Hpos Hcall Hempty. unfold getAllResults.
  rewrite getAllResults_loop_step. simpl List.length.
  replace (Z.of_nat 0 <? maxResults) with true by (symmetry; apply Z.ltb_lt; lia).
  unfold spy at 1. cbn [fst snd]. rewrite Hcall.
  destruct Hempty as [-> | ->]; now rewrite slice0_nil.
Qed.

Lemma C4_getAllResults_empty_first_page_witness :
  getAllResults 1 (spy no_results) empty_params getAllResults_default_max (tt, [])
  = Some (Ok [],
          (tt, [(mkQueryParams None None (Some 100) (Some 1) None None,
                 Ok (mkSearchResult 0 (Some 0) (Some [])))])).
Proof.
  exact (C4_getAllResults_empty_first_page no_results empty_params
           getAllResults_default_max 0%nat tt tt
           (mkSearchResult 0 (Some 0) (Some [])) eq_refl eq_refl (or_intror eq_refl)).
Defined.

(** ** Lookups *)

Section ClientFacts.
Context {W : Type}.

(** A logged request does what the request does and adds its URL to the
    log. *)
Lemma makeRequest_logged {T} (mk : string -> Request)
    (fetch : string -> Promise W (Response T)) (endpoint : string)
    (params : QueryParams) (w : W) (log : list Request) :
  makeRequest (logged mk fetch) endpoint params (w, log)
  = (fst (makeRequest fetch endpoint params w),
     (snd (makeRequest fetch endpoint params w),
      (log ++ [mk (request_url endpoint params)])%list)).
Proof.
  unfold makeRequest, request_url, await, logged. cbn [fst snd].
  destruct (buildQueryString params);
    match goal with
    | |- context [fetch ?u w] => destruct (fetch u w) as [[response|msg] w']
    end; cbn [fst snd]; try reflexivity;
    destruct (ok response); reflexivity.
Qed.

(** A response that is not OK makes the request reject with the status,
    whatever the body. *)
Lemma makeRequest_not_ok {T} (fetch : string -> Promise W (Response T))
    (endpoint : string) (params : QueryParams) (w w1 : W) (response : Response T) :
  fetch (request_url endpoint params) w = (Ok response, w1) ->
  ok response = false ->
  makeRequest fetch endpoint params w
  = (Throw ("Federal Register API error: " ++ Str.of_Z (status response)
            ++ " " ++ statusText response), w1).
Proof.
  intros Hfetch Hok. unfold makeRequest, request_url in *. unfold await.
  destruct (buildQueryString params); rewrite Hfetch, Hok; reflexivity.
Qed.

Lemma makeRequest_ok {T} (fetch : string -> Promise W (Response T))
    (endpoint : string) (params : QueryParams) (w w1 : W) (response : Response T) :
  fetch (request_url endpoint params) w = (Ok response, w1) ->
  ok response = true ->
  makeRequest fetch endpoint params w = (body response, w1).
Proof.
  intros Hfetch Hok. unfold makeRequest, request_url in *. unfold await.
  destruct (buildQueryString params); rewrite Hfetch, Hok; reflexivity.
Qed.

Lemma searchDocuments_spy (h : Host W) (options : SearchDocumentsOptions)
    (w : W) (log : list Request) :
  searchDocuments (spy_host h) options (w, log)
  = (fst (searchDocuments h options w),
     (snd (searchDocuments h options w),
      (log ++ [GetSearch (search_url options)])%list)).
Proof. apply makeRequest_logged. Qed.

Lemma getDocument_spy (h : Host W) (documentNumber : string)
    (fields : option (list string)) (w : W) (log : list Request) :
  getDocument (spy_host h) documentNumber fields (w, log)
  = (fst (getDocument h documentNumber fields w),
     (snd (getDocument h documentNumber fields w),
      (log ++ [GetDocument (document_url documentNumber fields)])%list)).
Proof. apply makeRequest_logged. Qed.

Lemma getExecutiveOrderByNumber_spy (h : Host W) (eoNumber : Z)
    (fields : option (list string)) (w : W) (log : list Request) :
  getExecutiveOrderByNumber (spy_host h) eoNumber fields (w, log)
  = (fst (getExecutiveOrderByNumber h eoNumber fields w),
     (snd (getExecutiveOrderByNumber h eoNumber fields w),
      (log ++ [GetSearch (search_url (getExecutiveOrderByNumber_params eoNumber fields))])%list)).
Proof.
  unfold getExecutiveOrderByNumber, await. rewrite searchDocuments_spy.
  destruct (searchDocuments h (getExecutiveOrderByNumber_params eoNumber fields) w)
    as [[found|msg] w']; reflexivity.
Qed.

Lemma find_unique {A} (f : A -> bool) (l : list A) (x : A) :
  In x l -> f x = true ->
  (forall y, In y l -> f y = true -> y = x) ->
  find f l = Some x.
Proof.
  induction l as [|a l IH]; intros Hin Hx Huniq; [contradiction|].
  simpl. destruct (f a) eqn:Ha.
  - f_equal. apply Huniq; [now left | assumption].
  - destruct Hin as [->|Hin]; [congruence|].
    apply IH; [assumption | assumption |].
    intros y Hy. apply Huniq. now right.
Qed.

Lemma find_absent {A} (f : A -> bool) (l : list A) :
  (forall y, In y l -> f y = false) -> find f l = None.
Proof.
  induction l as [|a l IH]; intros H; [reflexivity|].
  simpl. rewrite (H a) by now left.
  apply IH. intros y Hy. apply H. now right.
Qed.

(** The request of the lookup by number goes to [lookup_url]. *)
Lemma lookup_url_sent (eoNumber : Z) (selected : option (list string)) :
  search_url (getExecutiveOrderByNumber_params eoNumber selected)
  = lookup_url eoNumber selected.
Proof.
  assert (Hparts : query_parts (getExecutiveOrderByNumber_params eoNumber selected)
                   = ([pair_of "conditions[type]" "PRESDOCU";
                       pair_of "conditions[presidential_document_type]" "executive_order";
                       pair_of "conditions[correction]" "0";
                       pair_of "conditions[term]" (Str.of_Z eoNumber)]
                      ++ map (pair_of "fields[]")
                           (or_default selected getExecutiveOrderByNumber_defaultFields)
                      ++ [pair_of "per_page" "100"])%list).
  { rewrite query_parts_split, other_pairs_layout.
    unfold getExecutiveOrderByNumber_params, field_pairs, num_pair, str_pair.
    cbn [conditions fields per_page page order format or_default truthy_num
         truthy_str Z.eqb app].
    reflexivity. }
  unfold lookup_url, search_url, request_url, buildQueryString. rewrite Hparts.
  match goal with
  | |- context [String.concat "&" ?l] =>
      destruct (String.concat "&" l) eqn:E; [|reflexivity]
  end.
  exfalso. revert E. apply concat_amp_nonempty, pair_of_nonempty.
Qed.

(** C1. The lookup by number sends exactly one request: the free-text
    search whose term is the number, for one page of 100 (the URL
    [lookup_url]). When the host answers that request with success and
    surfaces some records: if exactly one of them has the requested
    executive-order number, the lookup returns that record; if none has,
    it returns [null]. *)
Theorem C1_getExecutiveOrderByNumber (h : Host W) (eoNumber : Z)
    (fields : option (list string)) (w w1 : W)
    (response : Response (SearchResult ExecutiveOrder))
    (found : SearchResult ExecutiveOrder) :
  fetch_search h (lookup_url eoNumber fields) w = (Ok response, w1) ->
  ok response = true ->
  body response = Ok found ->
  (forall r,
      In r (or_default (results found) []) ->
      executive_order_number r = eoNumber ->
      (forall r', In r' (or_default (results found) []) ->
                  executive_order_number r' = eoNumber -> r' = r) ->
      getExecutiveOrderByNumber h eoNumber fields w = (Ok (Some r), w1)
      /\ getExecutiveOrderByNumber (spy_host h) eoNumber fields (w, [])
         = (Ok (Some r), (w1, [GetSearch (lookup_url eoNumber fields)])))
  /\ ((forall r, In r (or_default (results found) []) ->
                 executive_order_number r <> eoNumber) ->
      getExecutiveOrderByNumber h eoNumber fields w = (Ok None, w1)
      /\ getExecutiveOrderByNumber (spy_host h) eoNumber fields (w, [])
         = (Ok None, (w1, [GetSearch (lookup_url eoNumber fields)]))).
Proof.
  intros Hfetch Hok Hbody.
  assert (Hsearch : searchDocuments h (getExecutiveOrderByNumber_params eoNumber fields) w
                    = (Ok found, w1)).
  { unfold searchDocuments.
    rewrite (makeRequest_ok (fetch_search h) "/documents.json"
               (getExecutiveOrderByNumber_params eoNumber fields) w w1 response);
      [now rewrite Hbody | | exact Hok].
    fold (search_url (getExecutiveOrderByNumber_params eoNumber fields)).
    now rewrite lookup_url_sent. }
  assert (Hspy : forall answer,
             getExecutiveOrderByNumber h eoNumber fields w = (Ok answer, w1) ->
             getExecutiveOrderByNumber h eoNumber fields w = (Ok answer, w1)
             /\ getExecutiveOrderByNumber (spy_host h) eoNumber fields (w, [])
                = (Ok answer, (w1, [GetSearch (lookup_url eoNumber fields)]))).
  { intros answer Hrun. split; [exact Hrun|].
    now rewrite getExecutiveOrderByNumber_spy, Hrun, lookup_url_sent. }
  split.
  - intros r Hin Hnum Huniq. apply Hspy.
    unfold getExecutiveOrderByNumber, await. rewrite Hsearch. unfold resolve.
    destruct (results found) as [rs|]; [|contradiction].
    simpl in Hin, Huniq. f_equal. f_equal.
    apply find_unique; [assumption | now apply Z.eqb_eq |].
    intros y Hy Hynum. apply Huniq; [assumption | now apply Z.eqb_eq].
  - intros Hnone. apply Hspy.
    unfold getExecutiveOrderByNumber, await. rewrite Hsearch. unfold resolve.
    destruct (results found) as [rs|]; [|reflexivity].
    simpl in Hnone. f_equal. f_equal.
    apply find_absent. intros y Hy. apply Z.eqb_neq. now apply Hnone.
Qed.

End ClientFacts.

Lemma C1_getExecutiveOrderByNumber_witness :
  let url n :=
    "https://www.federalregister.gov/api/v1/documents.json?conditions%5Btype%5D=PRESDOCU&conditions%5Bpresidential_document_type%5D=executive_order&conditions%5Bcorrection%5D=0&conditions%5Bterm%5D="
    ++ n
    ++ "&fields%5B%5D=document_number&fields%5B%5D=executive_order_number&fields%5B%5D=executive_order_notes&fields%5B%5D=title&fields%5B%5D=abstract&fields%5B%5D=signing_date&fields%5B%5D=publication_date&fields%5B%5D=president&fields%5B%5D=html_url&fields%5B%5D=pdf_url&fields%5B%5D=full_text_xml_url&fields%5B%5D=body_html_url&fields%5B%5D=citation&fields%5B%5D=start_page&fields%5B%5D=end_page&per_page=100" in
  let h := search_index_host [url "22"; url "99"]
             [sample_order 10; sample_order 22; sample_order 31] in
  getExecutiveOrderByNumber (spy_host h) 22 None (tt, [])
  = (Ok (Some (sample_order 22)), (tt, [GetSearch (url "22")]))
  /\ getExecutiveOrderByNumber (spy_host h) 99 None (tt, [])
     = (Ok None, (tt, [GetSearch (url "99")])).
Proof.
  intros url h. split.
  - refine (proj2 (proj1 (C1_getExecutiveOrderByNumber h 22 None tt tt
              (found_orders [sample_order 10; sample_order 22; sample_order 31])
              (mkSearchResult 3 (Some 1)
                 (Some [sample_order 10; sample_order 22; sample_order 31]))
              eq_refl eq_refl eq_refl) (sample_order 22) _ eq_refl _)).
    + simpl. tauto.
    + intros r' Hin Hnum. simpl in Hin.
      destruct Hin as [<-|[<-|[<-|[]]]];
        [discriminate Hnum | reflexivity | discriminate Hnum].
  - refine (proj2 (proj2 (C1_getExecutiveOrderByNumber h 99 None tt tt
              (found_orders [sample_order 10; sample_order 22; sample_order 31])
              (mkSearchResult 3 (Some 1)
                 (Some [sample_order 10; sample_order 22; sample_order 31]))
              eq_refl eq_refl eq_refl) _)).
    intros r Hin. simpl in Hin.
    destruct Hin as [<-|[<-|[<-|[]]]]; discriminate.
Defined.

Section FullTextFacts.
Context {W : Type}.

(** C7. When the lookup by number finds the order and the document then
    fetched has no [raw_text_url] (absent, or empty), the full-text
    operation resolves, not rejects, with a record, not [null], whose
    [full_text] is [null] and whose [error] is the note; the host has
    served the search and the document request and no text request. *)
Theorem C7_getExecutiveOrderFullText_partial (h : Host W) (eoNumber : Z)
    (w w1 w2 : W) (eo fullDoc : ExecutiveOrder) :
  getExecutiveOrderByNumber h eoNumber None w = (Ok (Some eo), w1) ->
  getDocument h (document_number eo) (Some getExecutiveOrderFullText_fields) w1
  = (Ok fullDoc, w2) ->
  raw_text_url fullDoc = None \/ raw_text_url fullDoc = Some "" ->
  exists partial log,
    getExecutiveOrderFullText h eoNumber w = (Ok (Some partial), w2)
    /\ FullText.full_text partial = None
    /\ FullText.error partial = Some "Full text not available for this executive order"
    /\ FullText.executive_order_number partial = eoNumber
    /\ FullText.title partial = title fullDoc
    /\ getExecutiveOrderFullText (spy_host h) eoNumber (w, [])
       = (Ok (Some partial), (w2, log))
    /\ log = [GetSearch (search_url (getExecutiveOrderByNumber_params eoNumber None));
              GetDocument (document_url (document_number eo)
                             (Some getExecutiveOrderFullText_fields))]
    /\ forallb (fun r => negb (is_text_request r)) log = true.
Proof.
  intros Hfind Hdoc Hraw.
  assert (Hfalsy : truthy_str (raw_text_url fullDoc) = None)
    by (destruct Hraw as [-> | ->]; reflexivity).
  exists (FullText.mk eoNumber None (title fullDoc) (signing_date fullDoc)
            (president fullDoc) (abstract fullDoc) None
            (Some "Full text not available for this executive order")
            (html_url fullDoc) (pdf_url fullDoc)).
  exists [GetSearch (search_url (getExecutiveOrderByNumber_params eoNumber None));
          GetDocument (document_url (document_number eo)
                         (Some getExecutiveOrderFullText_fields))].
  assert (Hrun : getExecutiveOrderFullText h eoNumber w
                 = (Ok (Some (FullText.mk eoNumber None (title fullDoc)
                                (signing_date fullDoc) (president fullDoc)
                                (abstract fullDoc) None
                                (Some "Full text not available for this executive order")
                                (html_url fullDoc) (pdf_url fullDoc))), w2)).
  { unfold getExecutiveOrderFullText, await. rewrite Hfind, Hdoc, Hfalsy.
    reflexivity. }
  split; [exact Hrun|].
  do 4 (split; [reflexivity|]).
  split; [|split; reflexivity].
  unfold getExecutiveOrderFullText, await.
  rewrite getExecutiveOrderByNumber_spy, Hfind. cbn [fst snd].
  rewrite getDocument_spy, Hdoc. cbn [fst snd]. rewrite Hfalsy.
  reflexivity.
Qed.

End FullTextFacts.

Lemma C7_getExecutiveOrderFullText_partial_witness :
  exists partial,
    getExecutiveOrderFullText
      (sample_host [sample_order 10; sample_order 22; sample_order 31] 1 0
         (JSDate.fixed_zone 0)) 22 tt
    = (Ok (Some partial), tt)
    /\ FullText.full_text partial = None
    /\ FullText.error partial = Some "Full text not available for this executive order".
Proof.
  destruct (C7_getExecutiveOrderFullText_partial
              (sample_host [sample_order 10; sample_order 22; sample_order 31] 1 0
                 (JSDate.fixed_zone 0))
              22 tt tt tt (sample_order 22) (sample_order 22)
              eq_refl eq_refl (or_introl eq_refl))
    as (partial & log & Hrun & Htext & Herr & _).
  exists partial. exact (conj Hrun (conj Htext Herr)).
Defined.

Section ByPresidentFacts.
Context {W : Type}.

Lemma searchExecutiveOrders_spy (h : Host W) (options : EOOptions.t)
    (w : W) (log : list Request) :
  searchExecutiveOrders (spy_host h) options (w, log)
  = (fst (searchExecutiveOrders h options w),
     (snd (searchExecutiveOrders h options w),
      (log ++ [GetSearch (search_url (searchExecutiveOrders_params options))])%list)).
Proof. apply searchDocuments_spy. Qed.

(** One iteration of the loop, as an equation. *)
Lemma getExecutiveOrdersByPresident_loop_step {V} (fuel : nat) (h : Host V)
    (president : string) (fields : option (list string))
    (acc : list ExecutiveOrder) (pg : Z) (v : V) :
  getExecutiveOrdersByPresident_loop (S fuel) h president fields acc pg v =
  match searchExecutiveOrders h (by_president_options president fields pg) v with
  | (Throw msg, v') => Some (Throw msg, v')
  | (Ok response, v') =>
      match results response with
      | Some ((_ :: _) as rs) =>
          if match total_pages response with
             | Some tp => (pg <? tp) && (pg <? 2)
             | None => false
             end
          then getExecutiveOrdersByPresident_loop fuel h president fields
                 (acc ++ rs)%list (pg + 1) v'
          else Some (Ok (acc ++ rs)%list, v')
      | _ => Some (Ok acc, v')
      end
  end.
Proof. reflexivity. Qed.

(** On page 2 the loop never goes on. *)
Lemma no_third_page (total : option Z) :
  match total with
  | Some tp => (2 <? tp) && (2 <? 2)
  | None => false
  end = false.
Proof. destruct total; [apply andb_false_r | reflexivity]. Qed.

(** Two iterations are always enough. *)
Lemma getExecutiveOrdersByPresident_two_steps {V} (h : Host V)
    (president : string) (fields : option (list string)) (v : V) (extra : nat) :
  getExecutiveOrdersByPresident (2 + extra) h president fields v
  = getExecutiveOrdersByPresident 2 h president fields v.
Proof.
  unfold getExecutiveOrdersByPresident.
  change (2 + extra)%nat with (S (S extra)).
  rewrite !(getExecutiveOrdersByPresident_loop_step _ h president fields [] 1).
  destruct (searchExecutiveOrders h (by_president_options president fields 1) v)
    as [[first|msg] v1]; [|reflexivity].
  destruct (results first) as [[|r rs]|]; try reflexivity.
  destruct (match total_pages first with
            | Some tp => (1 <? tp) && (1 <? 2)
            | None => false
            end); [|reflexivity].
  change (1 + 1) with 2.
  rewrite !(getExecutiveOrdersByPresident_loop_step _ h president fields _ 2).
  destruct (searchExecutiveOrders h (by_president_options president fields 2) v1)
    as [[second|msg] v2]; [|reflexivity].
  destruct (results second) as [[|r' rs']|]; try reflexivity.
  now rewrite no_third_page.
Qed.

(** C9. Whatever the host answers, [getExecutiveOrdersByPresident] is
    finished after two iterations and has then sent one or two searches:
    the one for page 1 and, possibly, the one for page 2, each for 1000
    results per page.  When the first page is not empty and reports more
    pages than one, however many, and the second search succeeds, the
    result is the first page's results followed by the second's, and
    nothing more. *)
Theorem C9_getExecutiveOrdersByPresident_two_pages (h : Host W)
    (president : string) (fields : option (list string)) (w : W) :
  let request p :=
    GetSearch (search_url (searchExecutiveOrders_params
                             (by_president_options president fields p))) in
  (exists out w' log,
      (forall extra : nat,
          getExecutiveOrdersByPresident (2 + extra) (spy_host h) president fields (w, [])
          = Some (out, (w', log)))
      /\ (log = [request 1] \/ log = [request 1; request 2]))
  /\ (forall p, p = 1 \/ p = 2 ->
        per_page (searchExecutiveOrders_params (by_president_options president fields p))
        = Some 1000
        /\ page (searchExecutiveOrders_params (by_president_options president fields p))
           = Some p)
  /\ (forall (first second : SearchResult ExecutiveOrder) (w1 w2 : W)
             (r : ExecutiveOrder) (rs : list ExecutiveOrder) (tp : Z) (extra : nat),
         searchExecutiveOrders h (by_president_options president fields 1) w
         = (Ok first, w1) ->
         results first = Some (r :: rs) ->
         total_pages first = Some tp -> 1 < tp ->
         searchExecutiveOrders h (by_president_options president fields 2) w1
         = (Ok second, w2) ->
         getExecutiveOrdersByPresident (2 + extra) h president fields w
         = Some (Ok ((r :: rs) ++ or_default (results second) [])%list, w2)).
Proof.
  intros request. split; [|split].
  - assert (Htwo : exists out w' log,
               getExecutiveOrdersByPresident 2 (spy_host h) president fields (w, [])
               = Some (out, (w', log))
               /\ (log = [request 1] \/ log = [request 1; request 2])).
    { unfold getExecutiveOrdersByPresident.
      rewrite getExecutiveOrdersByPresident_loop_step, searchExecutiveOrders_spy.
      destruct (searchExecutiveOrders h (by_president_options president fields 1) w)
        as [[first|msg] w1]; cbn [fst snd].
      2:{ eexists _, _, _. split; [reflexivity | now left]. }
      destruct (results first) as [[|r rs]|].
      1,3: eexists _, _, _; split; [reflexivity | now left].
      destruct (match total_pages first with
                | Some tp => (1 <? tp) && (1 <? 2)
                | None => false
                end).
      2:{ eexists _, _, _. split; [reflexivity | now left]. }
      change (1 + 1) with 2.
      rewrite getExecutiveOrdersByPresident_loop_step, searchExecutiveOrders_spy.
      destruct (searchExecutiveOrders h (by_president_options president fields 2) w1)
        as [[second|msg] w2]; cbn [fst snd].
      2:{ eexists _, _, _. split; [reflexivity | now right]. }
      destruct (results second) as [[|r' rs']|].
      1,3: eexists _, _, _; split; [reflexivity | now right].
      rewrite no_third_page.
      eexists _, _, _. split; [reflexivity | now right]. }
    destruct Htwo as (out & w' & log & Hrun & Hlog).
    exists out, w', log. split; [|exact Hlog].
    intros extra. now rewrite getExecutiveOrdersByPresident_two_steps.
  - intros p [-> | ->]; split; reflexivity.
  - intros first second w1 w2 r rs tp extra H1 R1 T1 Htp H2.
    unfold getExecutiveOrdersByPresident.
    change (2 + extra)%nat with (S (S extra)).
    rewrite getExecutiveOrdersByPresident_loop_step, H1, R1, T1.
    replace (1 <? tp) with true by (symmetry; apply Z.ltb_lt; lia).
    change (true && (1 <? 2)) with true. cbv iota.
    change (1 + 1) with 2.
    rewrite getExecutiveOrdersByPresident_loop_step, H2, no_third_page.
    simpl app.
    destruct (results second) as [[|r' rs']|]; simpl; rewrite ?app_nil_r; reflexivity.
Qed.

End ByPresidentFacts.

Lemma C9_getExecutiveOrdersByPresident_two_pages_witness :
  getExecutiveOrdersByPresident 2
    (sample_host [sample_order 1; sample_order 2] 5 0 (JSDate.fixed_zone 0))
    "joe-biden" None tt
  = Some (Ok [sample_order 1; sample_order 2; sample_order 1; sample_order 2], tt).
Proof.
  exact (proj2 (proj2 (C9_getExecutiveOrdersByPresident_two_pages
                  (sample_host [sample_order 1; sample_order 2] 5 0 (JSDate.fixed_zone 0))
                  "joe-biden" None tt))
           (mkSearchResult 2 (Some 5) (Some [sample_order 1; sample_order 2]))
           (mkSearchResult 2 (Some 5) (Some [sample_order 1; sample_order 2]))
           tt tt (sample_order 1) [sample_order 2] 5 0%nat
           eq_refl eq_refl eq_refl eq_refl eq_refl).
Defined.

(** ** The date floor of the recent orders *)

Module DateFacts.
Import JSDate.

(** A year has 365 or 366 days. *)
Lemma DayFromYear_step (y : Z) : 365 <= DayFromYear (y + 1) - DayFromYear y <= 366.
Proof. unfold DayFromYear. Z.div_mod_to_equations. lia. Qed.

(** [DaysInYear] is the distance between the first days of two successive
    years. *)
Lemma DayFromYear_step_exact (y : Z) : DayFromYear (y + 1) - DayFromYear y = DaysInYear y.
Proof.
  assert (H4 : (y + 1 - 1969) / 4 - (y - 1969) / 4 = if y mod 4 =? 0 then 1 else 0).
  { destruct (Z.eqb_spec (y mod 4) 0); Z.div_mod_to_equations; lia. }
  assert (H100 : (y + 1 - 1901) / 100 - (y - 1901) / 100 = if y mod 100 =? 0 then 1 else 0).
  { destruct (Z.eqb_spec (y mod 100) 0); Z.div_mod_to_equations; lia. }
  assert (H400 : (y + 1 - 1601) / 400 - (y - 1601) / 400 = if y mod 400 =? 0 then 1 else 0).
  { destruct (Z.eqb_spec (y mod 400) 0); Z.div_mod_to_equations; lia. }
  assert (Himp1 : y mod 100 = 0 -> y mod 4 = 0) by (Z.div_mod_to_equations; lia).
  assert (Himp2 : y mod 400 = 0 -> y mod 100 = 0) by (Z.div_mod_to_equations; lia).
  unfold DayFromYear, DaysInYear.
  destruct (Z.eqb_spec (y mod 4) 0), (Z.eqb_spec (y mod 100) 0), (Z.eqb_spec (y mod 400) 0);
    simpl negb; cbv iota; try lia; exfalso; auto.
Qed.

Lemma DayFromYear_grows (y n : Z) :
  0 <= n ->
  DayFromYear y + 365 * n <= DayFromYear (y + n) <= DayFromYear y + 366 * n.
Proof.
  intros Hn. pattern n. apply natlike_ind; [| |exact Hn].
  - cbv beta. replace (y + 0) with y by lia. lia.
  - cbv beta. intros x Hx IH. replace (y + Z.succ x) with (y + x + 1) by lia.
    pose proof (DayFromYear_step (y + x)). lia.
Qed.

Lemma year_search_spec (fuel : nat) :
  forall y d,
    DayFromYear y <= d < DayFromYear (y + Z.of_nat fuel + 1) ->
    DayFromYear (year_search fuel y d) <= d < DayFromYear (year_search fuel y d + 1).
Proof.
  induction fuel as [|fuel IH]; intros y d H.
  - simpl in *. rewrite Z.add_0_r in H. exact H.
  - simpl year_search. destruct (Z.leb_spec (DayFromYear (y + 1)) d) as [Hle|Hgt].
    + apply IH. replace (y + 1 + Z.of_nat fuel + 1) with (y + Z.of_nat (S fuel) + 1) by lia. lia.
    + lia.
Qed.

(** [YearFromTime t] is the year whose days include the day of [t]: the
    largest [y] with [DayFromYear y <= Day t]. *)
Lemma YearFromTime_spec (t : Z) :
  DayFromYear (YearFromTime t) <= Day t < DayFromYear (YearFromTime t + 1).
Proof.
  unfold YearFromTime. set (d := Day t). apply year_search_spec.
  assert (H1970 : DayFromYear 1970 = 0) by reflexivity.
  assert (Hfuel : 0 <= Z.abs d / 100000) by (apply Z.div_pos; lia).
  rewrite Nat2Z.inj_add, Z2Nat.id by exact Hfuel.
  change (Z.of_nat 4) with 4.
  set (fuel := Z.abs d / 100000 + 4).
  destruct (Z.leb_spec 0 d) as [Hpos|Hneg].
  - assert (Hq : 0 <= d / 366) by (apply Z.div_pos; lia).
    pose proof (DayFromYear_grows 1970 (d / 366) Hq) as G1.
    pose proof (DayFromYear_grows 1970 (d / 366 + fuel + 1) ltac:(lia)) as G2.
    replace (1970 + d / 366 + fuel + 1) with (1970 + (d / 366 + fuel + 1)) by lia.
    rewrite H1970 in *. subst fuel. Z.div_mod_to_equations. lia.
  - assert (Hq : d / 365 < 0) by (apply Z.div_lt_upper_bound; lia).
    set (y0 := 1970 + (d / 365 - 1)).
    pose proof (DayFromYear_grows y0 (1970 - y0) ltac:(subst y0; lia)) as G1.
    replace (y0 + (1970 - y0)) with 1970 in G1 by lia.
    rewrite H1970 in G1.
    destruct (Z.leb_spec (y0 + fuel + 1) 1970) as [Hbelow|Habove].
    + pose proof (DayFromYear_grows (y0 + fuel + 1) (1970 - (y0 + fuel + 1)) ltac:(lia)) as G2.
      replace (y0 + fuel + 1 + (1970 - (y0 + fuel + 1))) with 1970 in G2 by lia.
      rewrite H1970 in G2.
      subst y0 fuel. Z.div_mod_to_equations. lia.
    + pose proof (DayFromYear_grows 1970 (y0 + fuel + 1 - 1970) ltac:(lia)) as G2.
      replace (1970 + (y0 + fuel + 1 - 1970)) with (y0 + fuel + 1) in G2 by lia.
      rewrite H1970 in G2.
      subst y0 fuel. Z.div_mod_to_equations. lia.
Qed.

Lemma MonthFromTime_range (t : Z) : 0 <= MonthFromTime t <= 11.
Proof.
  unfold MonthFromTime.
  repeat match goal with
         | |- context [if ?b then _ else _] => destruct b
         end; lia.
Qed.

(** Setting the day of the month moves the day number by the difference
    to the current day of the month. *)
Lemma MakeDay_of_fields (t date : Z) :
  MakeDay (YearFromTime t) (MonthFromTime t) date = Day t + (date - DateFromTime t).
Proof.
  pose proof (MonthFromTime_range t) as Hm.
  unfold MakeDay. rewrite Z.div_small, Z.mod_small by lia. rewrite Z.add_0_r.
  unfold DateFromTime, DayWithinYear, InLeapYear.
  generalize (month_start (MonthFromTime t)
                (if DaysInYear (YearFromTime t) =? 366 then 1 else 0)).
  intros. lia.
Qed.

(** [d.setDate(d.getDate() - 30)] moves the local time back by 30 days of
    24 hours and reads the result as a local time again. *)
Lemma setDate_minus_30 (tz : TimeZone) (now : Z) :
  setDate tz now (getDate tz now - 30)
  = TimeClip (UTC tz (LocalTime tz now - 30 * msPerDay)).
Proof.
  unfold setDate, getDate. rewrite MakeDay_of_fields.
  unfold MakeDate, Day, TimeWithinDay. do 2 f_equal.
  pose proof (Z.div_mod (LocalTime tz now) msPerDay) as H.
  unfold msPerDay in *. lia.
Qed.

Lemma setDate_minus_30_fixed (minutes now : Z) :
  setDate (fixed_zone minutes) now (getDate (fixed_zone minutes) now - 30)
  = TimeClip (now - 30 * msPerDay).
Proof.
  rewrite setDate_minus_30. unfold UTC, LocalTime, fixed_zone. simpl. f_equal. lia.
Qed.

Lemma Day_minus_30 (t : Z) : Day (t - 30 * msPerDay) = Day t - 30.
Proof.
  unfold Day. replace (t - 30 * msPerDay) with (t + (-30) * msPerDay) by lia.
  rewrite Z.div_add by (unfold msPerDay; lia). lia.
Qed.

Lemma Day_of_day (d : Z) : Day (d * msPerDay) = d.
Proof. unfold Day. apply Z.div_mul. unfold msPerDay. lia. Qed.

(** The calendar fields of a time value are those of its day. *)
Lemma civil_of_Day (t : Z) :
  civil_of_day (Day t) = (YearFromTime t, MonthFromTime t + 1, DateFromTime t).
Proof.
  unfold civil_of_day, DateFromTime, MonthFromTime, InLeapYear, DayWithinYear,
    YearFromTime.
  now rewrite Day_of_day.
Qed.

Lemma uint_no_T (d : Decimal.uint) : Str.mem "T" (NilEmpty.string_of_uint d) = false.
Proof. induction d; simpl; auto. Qed.

Lemma of_Z_no_T (n : Z) : Str.mem "T" (Str.of_Z n) = false.
Proof.
  unfold Str.of_Z, NilZero.string_of_int, NilZero.string_of_uint.
  destruct (Z.to_int n) as [d|d]; destruct d; try reflexivity;
    try apply (uint_no_T (_ _)); simpl; try apply (uint_no_T _).
Qed.

Lemma zeros_no_T (k : nat) : Str.mem "T" (zeros k) = false.
Proof. induction k; simpl; auto. Qed.

Lemma pad_no_T (width : nat) (n : Z) : Str.mem "T" (pad width n) = false.
Proof. unfold pad. now rewrite mem_append, zeros_no_T, of_Z_no_T. Qed.

Lemma iso_date_no_T (y m d : Z) : Str.mem "T" (iso_date y m d) = false.
Proof.
  unfold iso_date, iso_year.
  destruct ((0 <=? y) && (y <=? 9999)); [|destruct (y <? 0)];
    rewrite !mem_append, ?pad_no_T; reflexivity.
Qed.

(** On a host whose zone keeps one offset from UTC, the floor is the UTC
    date 30 days before the UTC date of the call. *)
Lemma dateStr_fixed_zone (minutes now : Z) :
  Z.abs (now - 30 * msPerDay) <= 8640000000000000 ->
  getRecentExecutiveOrders_dateStr (fixed_zone minutes) now
  = Ok (iso_date_of_day (Day now - 30)).
Proof.
  intros Hrange. unfold getRecentExecutiveOrders_dateStr.
  rewrite setDate_minus_30_fixed. unfold TimeClip.
  replace (Z.abs (now - 30 * msPerDay) <=? 8640000000000000) with true
    by (symmetry; now apply Z.leb_le).
  unfold toISOString.
  set (t := now - 30 * msPerDay).
  change (?d ++ "T" ++ ?rest) with (d ++ String "T" rest).
  rewrite split_on_sep by apply iso_date_no_T.
  unfold iso_date_of_day. rewrite <- Day_minus_30. fold t.
  now rewrite civil_of_Day.
Qed.

End DateFacts.

Example instant_2026_11_20_0030_spelled :
  JSDate.toISOString (Some instant_2026_11_20_0030) = Ok "2026-11-20T00:30:00.000Z".
Proof. reflexivity. Qed.

Example summer_time_ends_2026_spelled :
  JSDate.toISOString (Some summer_time_ends_2026) = Ok "2026-10-25T01:00:00.000Z".
Proof. reflexivity. Qed.

Example dateStr_utc :
  getRecentExecutiveOrders_dateStr (JSDate.fixed_zone 0) instant_2026_11_20_0030
  = Ok "2026-10-21".
Proof. reflexivity. Qed.

(** C8. The floor date is computed in local time and printed in UTC, so
    it is not always 30 calendar days before the current date.  On a host
    whose zone left summer time less than 30 days ago, called in the first
    hour after UTC midnight, it is 31 days before: at 2026-11-20T00:30Z in a
    zone like Central European time the current date is 2026-11-20, in UTC
    and locally, the date 30 calendar days before it is 2026-10-21, and
    [getRecentExecutiveOrders] computes 2026-10-20, the date 31 days
    before, and sends it as the [gte] bound of [signing_date]. *)
Theorem C8_recent_floor_after_summer_time :
  let now := instant_2026_11_20_0030 in
  let tz := central_european_2026 in
  JSDate.iso_date_of_day (JSDate.Day now) = "2026-11-20"
  /\ JSDate.iso_date_of_day (JSDate.Day (JSDate.LocalTime tz now)) = "2026-11-20"
  /\ JSDate.iso_date_of_day (JSDate.Day now - 30) = "2026-10-21"
  /\ JSDate.iso_date_of_day (JSDate.Day now - 31) = "2026-10-20"
  /\ getRecentExecutiveOrders_dateStr tz now = Ok "2026-10-20"
  /\ snd (getRecentExecutiveOrders (spy_host (sample_host [] 1 now tz)) None (tt, []))
     = (tt,
        [GetSearch
           (search_url
              (searchExecutiveOrders_params
                 (EOOptions.mk None None None (Some "2026-10-20") None None None None)))])
  /\ In ("signing_date", VObj [("gte", VStr "2026-10-20")])
        (executive_order_conditions
           (EOOptions.mk None None None (Some "2026-10-20") None None None None)).
Proof.
  cbv zeta. repeat split; try reflexivity.
  simpl. tauto.
Qed.

(** * Further properties *)

(** ** The query builder, continued *)

Lemma str_all_append (f : ascii -> bool) (s t : string) :
  str_all f (s ++ t) = str_all f s && str_all f t.
Proof.
  induction s as [|a s IH]; simpl; [reflexivity|].
  now rewrite IH, andb_assoc.
Qed.

Lemma str_all_mem (f : ascii -> bool) (c : ascii) (s : string) :
  str_all f s = true -> f c = false -> Str.mem c s = false.
Proof.
  induction s as [|a s IH]; simpl; intros Hall Hc; [reflexivity|].
  apply andb_true_iff in Hall as [Ha Hs].
  rewrite (IH Hs Hc), orb_false_r.
  destruct (Ascii.eqb_spec a c) as [->|_]; [congruence | reflexivity].
Qed.

Lemma encode_byte_safe (c : ascii) : str_all url_safe (encode_byte c) = true.
Proof. destruct c as [[] [] [] [] [] [] [] []]; reflexivity. Qed.

Lemma encodeURIComponent_safe (s : string) :
  str_all url_safe (encodeURIComponent s) = true.
Proof.
  induction s as [|c s IH]; simpl; [reflexivity|].
  now rewrite str_all_append, encode_byte_safe, IH.
Qed.

Lemma pair_of_safe (k v : string) : str_all url_safe (pair_of k v) = true.
Proof.
  unfold pair_of. now rewrite !str_all_append, !encodeURIComponent_safe.
Qed.

Lemma concat_amp_safe (parts : list string) :
  Forall (fun p => str_all url_safe p = true) parts ->
  str_all url_safe (String.concat "&" parts) = true.
Proof.
  induction 1 as [|p parts Hp Hparts IH]; [reflexivity|].
  destruct parts as [|q parts]; [exact Hp|].
  change (String.concat "&" (p :: q :: parts))
    with (p ++ "&" ++ String.concat "&" (q :: parts)).
  now rewrite !str_all_append, Hp, IH.
Qed.

(** Every element of [parts] was pushed by [addParam]: it is a pair. *)
Lemma query_parts_are_pairs (params : QueryParams) :
  Forall (fun p => exists key val, p = pair_of key val) (query_parts params).
Proof.
  rewrite query_parts_split. apply Forall_app. split.
  - destruct (conditions params) as [c|]; [|constructor].
    induction c as [|[k v] c IH]; [constructor|].
    rewrite condition_pairs_cons. apply Forall_app. split; [|exact IH].
    apply Forall_forall. intros p Hin.
    apply entry_pairs_shape in Hin as (rest & val & ->). eauto.
  - eapply Forall_impl; [|apply other_pairs_shape].
    intros p (key & val & -> & _). eauto.
Qed.

Lemma str_after_pair_of (k v : string) :
  str_after "=" (pair_of k v) = encodeURIComponent v.
Proof.
  unfold pair_of. pose proof (encodeURIComponent_no_eq k) as Hk.
  induction (encodeURIComponent k) as [|a s IH]; [reflexivity|].
  simpl in Hk. apply orb_false_iff in Hk as [Ha Hs].
  simpl. rewrite Ha. now apply IH.
Qed.

Lemma decode_pair_of (k v : string) : decode_pair (pair_of k v) = (k, v).
Proof.
  unfold decode_pair.
  now rewrite seg_key_pair_of, str_after_pair_of, !unescape_encodeURIComponent.
Qed.

Lemma concat_split_on (c : ascii) (s : string) :
  String.concat (String c "") (Str.split_on c s) = s.
Proof.
  induction s as [|a s IH]; [reflexivity|].
  simpl. destruct (Ascii.eqb_spec a c) as [->|Hne].
  - destruct (Str.split_on c s) as [|x xs] eqn:E.
    + destruct s; simpl in E; [discriminate|].
      destruct (Ascii.eqb a c); [discriminate|].
      destruct (Str.split_on c s); discriminate.
    + change (String.concat (String c "") ("" :: x :: xs))
        with (String c (String.concat (String c "") (x :: xs))).
      now rewrite IH.
  - destruct (Str.split_on c s) as [|x xs] eqn:E.
    + destruct s; simpl in E; [discriminate|].
      destruct (Ascii.eqb a0 c); [discriminate|].
      destruct (Str.split_on c s); discriminate.
    + rewrite <- IH. destruct xs; reflexivity.
Qed.

(** X1. A filter [k] whose value is neither an array nor an object
    contributes, at its place among the filters, the single pair
    [conditions[k]=String(v)], and nothing when the value is [null] or
    [undefined]; with plain filter names this is the only pair under the
    key [conditions[k]] in the whole string. *)
Theorem X1_scalar_filter_pair (params : QueryParams) (pre post : Conditions)
    (k : string) (v : value) :
  conditions params = Some (pre ++ (k, v) :: post)%list ->
  is_scalar v = true ->
  query_pairs (buildQueryString params)
  = (condition_pairs pre ++ (if present v then [scalar_pair k v] else [])
     ++ condition_pairs post ++ other_pairs params)%list
  /\ (plain_keys (pre ++ (k, v) :: post)%list ->
        filter (key_is ("conditions[" ++ k ++ "]"))
               (query_pairs (buildQueryString params))
        = if present v then [scalar_pair k v] else []).
Proof.
  intros Hc Hs.
  assert (Hentry : addConditions_entry "conditions" [] (k, v)
                   = if present v then [scalar_pair k v] else [])
    by (destruct v; try discriminate Hs; reflexivity).
  split.
  - rewrite query_pairs_parts, query_parts_split, Hc.
    rewrite condition_pairs_app, condition_pairs_cons, Hentry.
    now rewrite <- !app_assoc.
  - intros Hplain.
    change ("conditions[" ++ k ++ "]") with ("conditions[" ++ k ++ String "]" "").
    rewrite (filter_own_pairs params pre post k "" v Hc Hplain), Hentry.
    destruct (present v); [|reflexivity].
    unfold scalar_pair. cbn [filter]. rewrite key_is_pair_of.
    change ("conditions[" ++ k ++ "]") with ("conditions[" ++ k ++ String "]" "").
    now rewrite String.eqb_refl.
Qed.

Lemma X1_scalar_filter_pair_witness :
  filter (key_is "conditions[president]") (query_pairs (buildQueryString example_params))
  = ["conditions%5Bpresident%5D=joe-biden"].
Proof.
  refine (proj2 (X1_scalar_filter_pair example_params []
                   [("publication_date",
                     VObj [("year", VNum 2024); ("gte", VNull); ("lte", VStr "2024-12-31")]);
                    ("agencies", VArr [VStr "epa"; VNum 7; VStr "food & drug"]);
                    ("topics", VArr []); ("signing_date", VObj [])]
                   "president" (VStr "joe-biden") eq_refl eq_refl) _).
  split.
  - simpl. repeat constructor; simpl; intuition discriminate.
  - repeat constructor.
Defined.

(** X2. After the pairs of the filter conditions the query string holds
    one [fields[]=f] pair per selected field, in order, then [per_page],
    [page], [order] and [format], in this order; a number that is absent
    or zero and a string that is absent or empty have no pair. *)
Theorem X2_fields_and_paging_layout (params : QueryParams) :
  query_pairs (buildQueryString params)
  = (match conditions params with
     | Some c => condition_pairs c
     | None => []
     end
     ++ field_pairs (fields params) ++ num_pair "per_page" (per_page params)
     ++ num_pair "page" (page params) ++ str_pair "order" (order params)
     ++ str_pair "format" (format params))%list.
Proof.
  now rewrite query_pairs_parts, query_parts_split, other_pairs_layout.
Qed.

(** X3. A query string is made of unreserved characters, [%], [=] and [&]
    only: it holds no [?], [#], space, bracket, slash or plus sign, and no
    character outside ASCII. *)
Theorem X3_query_string_url_safe (params : QueryParams) :
  str_all url_safe (buildQueryString params) = true
  /\ Forall (fun c => Str.mem c (buildQueryString params) = false)
            ["?"; "#"; " "; "["; "]"; "/"; "+"; ascii_of_nat 128; ascii_of_nat 255]%char.
Proof.
  assert (Hsafe : str_all url_safe (buildQueryString params) = true).
  { unfold buildQueryString. apply concat_amp_safe.
    eapply Forall_impl; [|apply query_parts_are_pairs].
    intros p (key & val & ->). apply pair_of_safe. }
  split; [exact Hsafe|].
  repeat constructor; apply (str_all_mem url_safe); try exact Hsafe; reflexivity.
Qed.

(** X4. A query string can be read back: joining its segments gives the
    string, every segment is the encoding of the key and value decoded
    from it, a pushed pair decodes to its key and value, and two
    parameter sets with the same query string pushed the same pairs. *)
Theorem X4_query_string_round_trip (params : QueryParams) :
  String.concat "&" (query_pairs (buildQueryString params)) = buildQueryString params
  /\ Forall (fun seg => pair_of (fst (decode_pair seg)) (snd (decode_pair seg)) = seg)
            (query_pairs (buildQueryString params))
  /\ (forall key val, decode_pair (pair_of key val) = (key, val))
  /\ (forall params', buildQueryString params' = buildQueryString params ->
                      query_parts params' = query_parts params).
Proof.
  repeat split.
  - unfold query_pairs. destruct (buildQueryString params) eqn:E; [reflexivity|].
    apply concat_split_on.
  - rewrite query_pairs_parts.
    eapply Forall_impl; [|apply query_parts_are_pairs].
    intros p (key & val & ->). now rewrite decode_pair_of.
  - apply decode_pair_of.
  - intros params' H. now rewrite <- !query_pairs_parts, H.
Qed.

(** ** The paginator, continued *)

Section PaginatorTrace.
Context {W T : Type}.
Variable searchFn : @SearchFunction W T.
Variable options : SearchDocumentsOptions.
Variables maxResults perPage : Z.

(** The calls of a run, whatever its outcome: there are at most as many as
    the accumulator has room left, each asks for the caller's options with
    the page and page size replaced, and every call but the last was
    served a result sequence that is not empty. *)
Lemma getAllResults_loop_trace (fuel : nat) :
  forall (acc : list T) (pg : Z) (w : W) log out w' log',
    getAllResults_loop fuel (spy searchFn) options maxResults perPage acc pg (w, log)
    = Some (out, (w', log')) ->
    exists calls,
      log' = (log ++ calls)%list
      /\ (List.length calls <= Z.to_nat (maxResults - Z.of_nat (List.length acc)))%nat
      /\ Forall (fun call => exists p, fst call = with_paging options p perPage) calls
      /\ Forall served_some (removelast calls)
      /\ match out with
         | Throw msg => exists o, last (map Some calls) None = Some (o, Throw msg)
         | Ok _ => Forall (fun call => exists response, snd call = Ok response) calls
         end.
Proof.
  induction fuel as [|fuel IH]; intros acc pg w log out w' log' H.
  - simpl in H. destruct (Z.of_nat (List.length acc) <? maxResults); [discriminate|].
    injection H as <- <- <-. exists []. rewrite app_nil_r.
    repeat split; try constructor. simpl. lia.
  - rewrite getAllResults_loop_step in H.
    destruct (Z.of_nat (List.length acc) <? maxResults) eqn:Hlt.
    2:{ injection H as <- <- <-. exists []. rewrite app_nil_r.
        repeat split; try constructor. simpl. lia. }
    apply Z.ltb_lt in Hlt.
    unfold spy in H at 1. cbn [fst snd] in H.
    destruct (searchFn (with_paging options pg perPage) w) as [[response|msg] w1].
    2:{ injection H as <- <- <-.
        exists [(with_paging options pg perPage, Throw msg)].
        repeat split; try constructor; simpl; try lia; eauto. }
    set (call := (with_paging options pg perPage, @Ok (SearchResult T) response)) in *.
    assert (Hone : exists calls,
               (log ++ [call])%list = (log ++ calls)%list
               /\ (List.length calls
                   <= Z.to_nat (maxResults - Z.of_nat (List.length acc)))%nat
               /\ Forall (fun c => exists p, fst c = with_paging options p perPage) calls
               /\ Forall served_some (removelast calls)
               /\ Forall (fun c => exists response, snd c = Ok response) calls).
    { exists [call]. repeat split; try constructor; simpl; try lia; eauto. }
    destruct (results response) as [[|x rs]|] eqn:Hres.
    + injection H as <- <- <-. exact Hone.
    + destruct (match total_pages response with
                | Some tp => pg >=? tp
                | None => false
                end).
      * injection H as <- <- <-. exact Hone.
      * apply IH in H as (calls & -> & Hlen & Hopts & Hinit & Hout).
        exists (call :: calls). rewrite <- app_assoc.
        rewrite length_app in Hlen. simpl in Hlen.
        repeat split.
        -- simpl. lia.
        -- constructor; [now exists pg | exact Hopts].
        -- destruct calls as [|c calls]; [constructor|].
           change (removelast (call :: c :: calls))
             with (call :: removelast (c :: calls)).
           constructor; [|exact Hinit].
           exists response, x, rs. now split.
        -- destruct out as [r|msg].
           ++ constructor; [now exists response | exact Hout].
           ++ destruct Hout as [o Ho]. exists o.
              destruct calls as [|c calls]; [discriminate Ho|exact Ho].
    + injection H as <- <- <-. exact Hone.
Qed.

End PaginatorTrace.

Lemma getAllResults_run_loop {W T : Type} (searchFn : @SearchFunction W T)
    (options : SearchDocumentsOptions) (maxResults : Z) (fuel : nat) (w : W)
    (out : result (list T)) (w' : W) :
  getAllResults fuel searchFn options maxResults w = Some (out, w') ->
  exists out',
    getAllResults_loop fuel searchFn options maxResults
      (getAllResults_perPage options) [] 1 w = Some (out', w')
    /\ match out' with
       | Ok allResults => out = Ok (slice0 allResults maxResults)
       | Throw msg => out = Throw msg
       end.
Proof.
  unfold getAllResults.
  destruct (getAllResults_loop fuel searchFn options maxResults
              (getAllResults_perPage options) [] 1 w)
    as [[[allResults|msg] st]|]; intros H; try discriminate;
    injection H as <- <-.
  - exists (Ok allResults). now split.
  - exists (Throw msg). now split.
Qed.



(** X6. The paginator calls the search function at most [maxResults]
    times, and not at all when [maxResults] is zero or negative; every
    call but the last was served a result sequence that is not empty. *)
Theorem X6_getAllResults_call_bound {W T : Type} (searchFn : @SearchFunction W T)
    (options : SearchDocumentsOptions) (maxResults : Z) (fuel : nat) (w w' : W)
    (out : result (list T))
    (log : list (SearchDocumentsOptions * result (SearchResult T))) :
  getAllResults fuel (spy searchFn) options maxResults (w, []) = Some (out, (w', log)) ->
  (List.length log <= Z.to_nat maxResults)%nat
  /\ (maxResults <= 0 -> log = [])
  /\ Forall served_some (removelast log).
Proof.
  intros H. apply getAllResults_run_loop in H as (out' & Hloop & _).
  apply getAllResults_loop_trace in Hloop as (calls & Hlog & Hlen & _ & Hinit & _).
  simpl in Hlog, Hlen. subst calls. rewrite Z.sub_0_r in Hlen.
  repeat split; [exact Hlen | | exact Hinit].
  intros Hmax. destruct log; [reflexivity|]. simpl in Hlen. lia.
Qed.

Lemma X6_getAllResults_call_bound_witness :
  (List.length
     (snd (snd (match getAllResults 5 (spy pages_of_two) empty_params 3 (tt, []) with
                | Some run => run
                | None => (Ok [], (tt, []))
                end))) <= 3)%nat.
Proof.
  exact (proj1 (X6_getAllResults_call_bound pages_of_two empty_params 3 5%nat tt tt
                  (Ok [1; 2; 3]) _ eq_refl)).
Defined.

(** X7. The paginator rejects exactly when a call of the search function
    rejects, and then with that call's message: the rejecting call is the
    last one, the results of the pages served before it are not returned;
    when the paginator resolves, every call resolved. *)
Theorem X7_getAllResults_rejection {W T : Type} (searchFn : @SearchFunction W T)
    (options : SearchDocumentsOptions) (maxResults : Z) (fuel : nat) (w w' : W)
    (out : result (list T))
    (log : list (SearchDocumentsOptions * result (SearchResult T))) :
  getAllResults fuel (spy searchFn) options maxResults (w, []) = Some (out, (w', log)) ->
  match out with
  | Throw msg =>
      (exists o, last (map Some log) None = Some (o, Throw msg))
      /\ Forall served_some (removelast log)
  | Ok _ => Forall (fun call => exists response, snd call = Ok response) log
  end.
Proof.
  intros H. apply getAllResults_run_loop in H as (out' & Hloop & Hout).
  apply getAllResults_loop_trace in Hloop as (calls & Hlog & _ & _ & Hinit & Hshape).
  simpl in Hlog. subst calls.
  destruct out' as [allResults|msg]; subst out; [exact Hshape|].
  split; [exact Hshape | exact Hinit].
Qed.

Lemma X7_getAllResults_rejection_witness :
  (exists o,
      last (map Some
              [(mkQueryParams None None (Some 100) (Some 1) None None,
                Ok (mkSearchResult 6 (Some 3) (Some [1; 2])));
               (mkQueryParams None None (Some 100) (Some 2) None None,
                @Throw (SearchResult Z)
                  "Federal Register API error: 500 Internal Server Error")])
           None
      = Some (o, Throw "Federal Register API error: 500 Internal Server Error"))
  /\ Forall served_some
       (removelast
          [(mkQueryParams None None (Some 100) (Some 1) None None,
            Ok (mkSearchResult 6 (Some 3) (Some [1; 2])));
           (mkQueryParams None None (Some 100) (Some 2) None None,
            @Throw (SearchResult Z)
              "Federal Register API error: 500 Internal Server Error")]).
Proof.
  exact (X7_getAllResults_rejection fails_after_first_page empty_params 100 5%nat tt tt
           (Throw "Federal Register API error: 500 Internal Server Error") _ eq_refl).
Defined.

Section PagedBackend.
Context {W T : Type}.
Variable pages : list (list T).
Variable options : SearchDocumentsOptions.
Variables maxResults perPage : Z.

(** The loop against a backend that serves [pages]: from page [pg], with
    [rest] the pages not yet fetched, it fetches [k] of them, as few as
    fill the room left under [maxResults]. *)
Lemma getAllResults_loop_paged :
  forall (rest done : list (list T)) (fuel : nat) (acc : list T) (pg : Z) (w : W)
         (log : list (SearchDocumentsOptions * result (SearchResult T))),
    pages = (done ++ rest)%list ->
    rest <> [] ->
    Forall (fun p => p <> []) rest ->
    pg = Z.of_nat (List.length done) + 1 ->
    (List.length rest <= fuel)%nat ->
    exists k calls,
      getAllResults_loop fuel (spy (paged_backend pages)) options maxResults perPage
        acc pg (w, log)
      = Some (Ok (acc ++ List.concat (firstn k rest))%list, (w, (log ++ calls)%list))
      /\ List.length calls = k
      /\ (k <= List.length rest)%nat
      /\ (k = 0%nat -> maxResults <= Z.of_nat (List.length acc))
      /\ ((0 < k)%nat ->
          Z.of_nat (List.length (acc ++ List.concat (firstn (k - 1) rest))%list)
          < maxResults)
      /\ (k = List.length rest
          \/ maxResults
             <= Z.of_nat (List.length (acc ++ List.concat (firstn k rest))%list)).
Proof.
  induction rest as [|r0 rest' IH]; intros done fuel acc pg w log Hpages Hne Hall Hpg Hfuel;
    [contradiction|].
  destruct (Z.of_nat (List.length acc) <? maxResults) eqn:Hlt.
  - destruct fuel as [|fuel]; [simpl in Hfuel; lia|].
    rewrite getAllResults_loop_step, Hlt.
    apply Z.ltb_lt in Hlt.
    unfold spy at 1. cbn [fst snd].
    unfold paged_backend at 1. cbn [page with_paging or_default total_pages results].
    replace (Z.to_nat (pg - 1)) with (List.length done) by lia.
    assert (Hnth : nth (List.length done) pages [] = r0)
      by (rewrite Hpages; apply nth_middle).
    rewrite !Hnth. clear Hnth.
    inversion Hall as [|? ? Hr0 Hrest']; subst r0 rest'. clear Hall. rename l into rest'.
    rename x into r0.
    destruct r0 as [|x xs]; [contradiction|].
    cbn [results total_pages].
    set (call := (with_paging options pg perPage,
                  @Ok (SearchResult T)
                    (mkSearchResult (Z.of_nat (List.length (List.concat pages)))
                       (Some (Z.of_nat (List.length pages)))
                       (Some (x :: xs))))).
    assert (Hlen : List.length pages = (List.length done + S (List.length rest'))%nat)
      by (rewrite Hpages, length_app; reflexivity).
    destruct rest' as [|r1 rest''].
    + replace (pg >=? Z.of_nat (List.length pages)) with true
        by (symmetry; rewrite Z.geb_leb; apply Z.leb_le; simpl in Hlen; lia).
      exists 1%nat, [call]. simpl firstn. simpl List.concat. rewrite app_nil_r.
      repeat split; try (simpl; lia).
      intros _. simpl. rewrite app_nil_r. exact Hlt.
    + replace (pg >=? Z.of_nat (List.length pages)) with false
        by (symmetry; rewrite Z.geb_leb; apply Z.leb_gt; simpl in Hlen; lia).
      destruct (IH (done ++ [x :: xs])%list fuel (acc ++ x :: xs)%list (pg + 1) w
                  (log ++ [call])%list)
        as (k & calls & Hrun & Hcalls & Hk & Hzero & Hmin & Hstop).
      * now rewrite <- app_assoc.
      * discriminate.
      * exact Hrest'.
      * rewrite length_app. cbn [List.length]. lia.
      * simpl in Hfuel |- *. lia.
      * exists (S k), (call :: calls).
        rewrite Hrun. simpl in Hk.
        split; [|split; [|split; [|split; [|split]]]].
        -- cbn [firstn List.concat]. now rewrite <- !app_assoc.
        -- simpl. lia.
        -- simpl. lia.
        -- discriminate.
        -- intros _. replace (S k - 1)%nat with k by lia. destruct k as [|k].
           ++ simpl. rewrite app_nil_r. exact Hlt.
           ++ specialize (Hmin ltac:(lia)).
              replace (S k - 1)%nat with k in Hmin by lia.
              cbn [firstn List.concat]. rewrite <- app_assoc in Hmin. exact Hmin.
        -- destruct Hstop as [Hall' | Hfull]; [left; cbn [List.length] in *; lia | right].
           cbn [firstn List.concat]. rewrite <- app_assoc in Hfull. exact Hfull.
  - exists 0%nat, []. rewrite getAllResults_loop_full by exact Hlt.
    apply Z.ltb_ge in Hlt. simpl. rewrite !app_nil_r.
    repeat split; lia.
Qed.

End PagedBackend.

(** X8. Against a backend that serves a result set in pages, none of them
    empty, and reports their number, the paginator returns the first
    [maxResults] results of the whole set, in order; it fetches pages 1 to
    [k] and no more, [k] being the first page at which the results
    reach [maxResults] or the pages end. *)
Theorem X8_getAllResults_paged_backend {W T : Type} (pages : list (list T))
    (options : SearchDocumentsOptions) (maxResults : Z) (fuel : nat) (w : W) :
  pages <> [] ->
  Forall (fun p => p <> []) pages ->
  0 < maxResults ->
  (List.length pages <= fuel)%nat ->
  exists log,
    getAllResults fuel (spy (paged_backend pages)) options maxResults (w, [])
    = Some (Ok (firstn (Z.to_nat maxResults) (List.concat pages)), (w, log))
    /\ (1 <= List.length log <= List.length pages)%nat
    /\ Z.of_nat (List.length (List.concat (firstn (List.length log - 1) pages)))
       < maxResults
    /\ (List.length log = List.length pages
        \/ maxResults
           <= Z.of_nat (List.length (List.concat (firstn (List.length log) pages)))).
Proof.
  intros Hne Hall Hmax Hfuel.
  destruct (getAllResults_loop_paged pages options maxResults
              (getAllResults_perPage options) pages [] fuel [] 1 w [])
    as (k & calls & Hrun & Hcalls & Hk & Hzero & Hmin & Hstop);
    try assumption; try reflexivity.
  simpl in Hrun, Hzero, Hmin, Hstop.
  assert (Hpos : (0 < k)%nat).
  { destruct k; [specialize (Hzero eq_refl); lia | lia]. }
  exists calls. unfold getAllResults. rewrite Hrun. subst k.
  repeat split; try lia.
  do 2 f_equal. rewrite slice0_nonneg by lia.
  destruct Hstop as [Hall' | Hfull].
  - rewrite Hall', firstn_all. reflexivity.
  - rewrite <- (firstn_skipn (List.length calls) pages) at 2.
      rewrite concat_app, firstn_app.
      replace (Z.to_nat maxResults
               - List.length (List.concat (firstn (List.length calls) pages)))%nat
        with 0%nat by lia.
      simpl. now rewrite app_nil_r.
Qed.

Lemma X8_getAllResults_paged_backend_witness :
  exists log,
    getAllResults 3 (spy (paged_backend [[1; 2]; [3; 4]; [5; 6]])) empty_params 100 (tt, [])
    = Some (Ok [1; 2; 3; 4; 5; 6], (tt, log))
    /\ List.length log = 3%nat.
Proof.
  destruct (X8_getAllResults_paged_backend [[1; 2]; [3; 4]; [5; 6]] empty_params 100
              3%nat tt)
    as (log & Hrun & Hlen & _ & Hstop).
  - discriminate.
  - repeat constructor; discriminate.
  - reflexivity.
  - simpl. apply le_n.
  - exists log. split; [exact Hrun|].
    destruct Hstop as [Hall | Hfull]; [exact Hall|].
    exfalso. simpl in Hlen.
    destruct log as [|c1 [|c2 [|c3 [|c4 log]]]]; simpl in Hlen, Hfull; lia.
Defined.

(** ** Lookups, continued *)

Section LookupFacts.
Context {W : Type}.

Lemma fetchDocumentText_spy (h : Host W) (url : string) (w : W) (log : list Request) :
  fetchDocumentText (spy_host h) url (w, log)
  = (fst (fetchDocumentText h url w),
     (snd (fetchDocumentText h url w), (log ++ [GetText url])%list)).
Proof.
  unfold fetchDocumentText, await. cbn [spy_host fetch_text]. unfold logged.
  cbn [fst snd].
  destruct (fetch_text h url w) as [[response|msg] w']; cbn [fst snd];
    [destruct (ok response)|]; reflexivity.
Qed.

Lemma find_first {A} (f : A -> bool) (l : list A) (x : A) :
  find f l = Some x <->
  exists before after,
    l = (before ++ x :: after)%list
    /\ f x = true
    /\ Forall (fun y => f y = false) before.
Proof.
  induction l as [|a l IH]; simpl.
  - split; [discriminate|]. intros (before & after & H & _). now destruct before.
  - destruct (f a) eqn:Ha; split.
    + intros [= ->]. exists [], l. repeat split; [exact Ha | constructor].
    + intros (before & after & Hl & Hx & Hbefore).
      destruct before as [|b before]; simpl in Hl; injection Hl as -> Hl.
      * reflexivity.
      * inversion Hbefore; subst. congruence.
    + intros H. apply IH in H as (before & after & -> & Hx & Hbefore).
      exists (a :: before), after. repeat split; [exact Hx | now constructor].
    + intros (before & after & Hl & Hx & Hbefore).
      destruct before as [|b before]; simpl in Hl; injection Hl as -> Hl.
      * congruence.
      * apply IH. exists before, after. inversion Hbefore; subst. now repeat split.
Qed.

(** X9. When the search succeeds, the lookup by number resolves, and it
    resolves to a record exactly when that record is, in the order the
    search returned them, the first one with the requested number: with
    several matching records the first wins, and a record is never
    returned for a number it does not have. *)
Theorem X9_getExecutiveOrderByNumber_first_match (h : Host W) (eoNumber : Z)
    (fields : option (list string)) (w w1 : W)
    (found : SearchResult ExecutiveOrder) :
  searchDocuments h (getExecutiveOrderByNumber_params eoNumber fields) w
  = (Ok found, w1) ->
  (exists answer, getExecutiveOrderByNumber h eoNumber fields w = (Ok answer, w1))
  /\ (forall r,
        getExecutiveOrderByNumber h eoNumber fields w = (Ok (Some r), w1) <->
        exists before after,
          or_default (results found) [] = (before ++ r :: after)%list
          /\ executive_order_number r = eoNumber
          /\ Forall (fun x => executive_order_number x <> eoNumber) before).
Proof.
  intros Hsearch.
  assert (Hrun : getExecutiveOrderByNumber h eoNumber fields w
                 = (Ok (find (fun r => executive_order_number r =? eoNumber)
                          (or_default (results found) [])), w1)).
  { unfold getExecutiveOrderByNumber, await. rewrite Hsearch. unfold resolve.
    destruct (results found); reflexivity. }
  split; [eauto|].
  intros r. rewrite Hrun. split.
  - intros [= Hfind]. apply find_first in Hfind as (before & after & Hl & Hr & Hb).
    exists before, after. repeat split; [exact Hl | now apply Z.eqb_eq |].
    eapply Forall_impl; [|exact Hb]. intros x Hx. now apply Z.eqb_neq.
  - intros (before & after & Hl & Hr & Hb). do 2 f_equal.
    apply find_first. exists before, after. repeat split;
      [exact Hl | now apply Z.eqb_eq |].
    eapply Forall_impl; [|exact Hb]. intros x Hx. now apply Z.eqb_neq.
Qed.

(** X10. When the search response is not OK, the lookup by number and the
    full-text operation reject with the status code and text, whatever
    the body holds; they do not report the order as not found, and the
    full-text operation has sent nothing after the search. *)
Theorem X10_lookup_upstream_failure (h : Host W) (eoNumber : Z)
    (fields : option (list string)) (w w1 w2 : W)
    (response response' : Response (SearchResult ExecutiveOrder)) :
  fetch_search h (search_url (getExecutiveOrderByNumber_params eoNumber fields)) w
  = (Ok response, w1) ->
  ok response = false ->
  fetch_search h (search_url (getExecutiveOrderByNumber_params eoNumber None)) w
  = (Ok response', w2) ->
  ok response' = false ->
  getExecutiveOrderByNumber h eoNumber fields w
  = (Throw ("Federal Register API error: " ++ Str.of_Z (status response)
            ++ " " ++ statusText response), w1)
  /\ getExecutiveOrderFullText (spy_host h) eoNumber (w, [])
     = (Throw ("Federal Register API error: " ++ Str.of_Z (status response')
               ++ " " ++ statusText response'),
        (w2, [GetSearch (search_url (getExecutiveOrderByNumber_params eoNumber None))])).
Proof.
  intros Hfetch Hok Hfetch' Hok'.
  assert (Hlookup : forall fields' response0 w0,
             fetch_search h (search_url (getExecutiveOrderByNumber_params eoNumber fields')) w
             = (Ok response0, w0) ->
             ok response0 = false ->
             getExecutiveOrderByNumber h eoNumber fields' w
             = (Throw ("Federal Register API error: " ++ Str.of_Z (status response0)
                       ++ " " ++ statusText response0), w0)).
  { intros fields' response0 w0 Hf Ho.
    unfold getExecutiveOrderByNumber, await, searchDocuments.
    now rewrite (makeRequest_not_ok _ _ _ _ _ _ Hf Ho). }
  split; [now apply Hlookup|].
  unfold getExecutiveOrderFullText, await.
  rewrite getExecutiveOrderByNumber_spy, (Hlookup None response' w2 Hfetch' Hok').
  reflexivity.
Qed.

(** X11. When the search succeeds and surfaces no record with the
    requested number, the full-text operation resolves to [null] after
    the search alone: no document and no text is fetched. *)
Theorem X11_getExecutiveOrderFullText_not_found (h : Host W) (eoNumber : Z)
    (w w1 : W) (found : SearchResult ExecutiveOrder) :
  searchDocuments h (getExecutiveOrderByNumber_params eoNumber None) w
  = (Ok found, w1) ->
  (forall r, In r (or_default (results found) []) ->
             executive_order_number r <> eoNumber) ->
  getExecutiveOrderFullText (spy_host h) eoNumber (w, [])
  = (Ok None,
     (w1, [GetSearch (search_url (getExecutiveOrderByNumber_params eoNumber None))])).
Proof.
  intros Hsearch Hnone.
  assert (Hlookup : getExecutiveOrderByNumber h eoNumber None w = (Ok None, w1)).
  { unfold getExecutiveOrderByNumber, await. rewrite Hsearch. unfold resolve.
    destruct (results found) as [rs|]; [|reflexivity].
    simpl in Hnone. do 2 f_equal.
    apply find_absent. intros y Hy. apply Z.eqb_neq. now apply Hnone. }
  unfold getExecutiveOrderFullText, await.
  now rewrite getExecutiveOrderByNumber_spy, Hlookup.
Qed.

(** X12. When the order is found, its document has a raw-text URL and the
    text is fetched with success, the full-text operation resolves to a
    record that carries the text, no error note, the number asked for
    and the document number, title and links of the fetched document; it
    has sent exactly three requests: the search, the document and the
    text at the raw-text URL, in this order. *)
Theorem X12_getExecutiveOrderFullText_complete (h : Host W) (eoNumber : Z)
    (w w1 w2 w3 : W) (eo fullDoc : ExecutiveOrder) (url fullText : string)
    (response : Response string) :
  getExecutiveOrderByNumber h eoNumber None w = (Ok (Some eo), w1) ->
  getDocument h (document_number eo) (Some getExecutiveOrderFullText_fields) w1
  = (Ok fullDoc, w2) ->
  raw_text_url fullDoc = Some url ->
  url <> "" ->
  fetch_text h url w2 = (Ok response, w3) ->
  ok response = true ->
  body response = Ok fullText ->
  getExecutiveOrderFullText (spy_host h) eoNumber (w, [])
  = (Ok (Some (FullText.mk eoNumber (Some (document_number fullDoc)) (title fullDoc)
                 (signing_date fullDoc) (president fullDoc) (abstract fullDoc)
                 (Some fullText) None (html_url fullDoc) (pdf_url fullDoc))),
     (w3, [GetSearch (search_url (getExecutiveOrderByNumber_params eoNumber None));
           GetDocument (document_url (document_number eo)
                          (Some getExecutiveOrderFullText_fields));
           GetText url])).
Proof.
  intros Hfind Hdoc Hraw Hurl Htext Hok Hbody.
  assert (Htruthy : truthy_str (raw_text_url fullDoc) = Some url)
    by (rewrite Hraw; destruct url; [contradiction | reflexivity]).
  unfold getExecutiveOrderFullText, await.
  rewrite getExecutiveOrderByNumber_spy, Hfind. cbn [fst snd].
  rewrite getDocument_spy, Hdoc. cbn [fst snd]. rewrite Htruthy.
  rewrite fetchDocumentText_spy.
  unfold fetchDocumentText, await. rewrite Htext, Hok. cbn [negb].
  unfold settle. rewrite Hbody. reflexivity.
Qed.

(** X13. A text response that is not OK makes the full-text operation
    reject with the message that names the status code: unlike a missing
    raw-text URL, a failed text fetch gives no partial record. *)
Theorem X13_getExecutiveOrderFullText_text_failure (h : Host W) (eoNumber : Z)
    (w w1 w2 w3 : W) (eo fullDoc : ExecutiveOrder) (url : string)
    (response : Response string) :
  getExecutiveOrderByNumber h eoNumber None w = (Ok (Some eo), w1) ->
  getDocument h (document_number eo) (Some getExecutiveOrderFullText_fields) w1
  = (Ok fullDoc, w2) ->
  raw_text_url fullDoc = Some url ->
  url <> "" ->
  fetch_text h url w2 = (Ok response, w3) ->
  ok response = false ->
  getExecutiveOrderFullText h eoNumber w
  = (Throw ("Failed to fetch document text: " ++ Str.of_Z (status response)), w3).
Proof.
  intros Hfind Hdoc Hraw Hurl Htext Hok.
  assert (Htruthy : truthy_str (raw_text_url fullDoc) = Some url)
    by (rewrite Hraw; destruct url; [contradiction | reflexivity]).
  unfold getExecutiveOrderFullText, await.
  rewrite Hfind, Hdoc, Htruthy.
  unfold fetchDocumentText, await. now rewrite Htext, Hok.
Qed.

End LookupFacts.

Lemma X9_getExecutiveOrderByNumber_first_match_witness :
  getExecutiveOrderByNumber
    (canned_host
       (found_orders [sample_order 10; sample_order 22; order_with_text 22;
                      sample_order 31])
       service_unavailable service_unavailable) 22 None tt
  = (Ok (Some (sample_order 22)), tt).
Proof.
  apply (proj2 (X9_getExecutiveOrderByNumber_first_match
                  (canned_host
                     (found_orders [sample_order 10; sample_order 22;
                                    order_with_text 22; sample_order 31])
                     service_unavailable service_unavailable)
                  22 None tt tt
                  (mkSearchResult 4 (Some 1)
                     (Some [sample_order 10; sample_order 22; order_with_text 22;
                            sample_order 31]))
                  eq_refl)).
  exists [sample_order 10], [order_with_text 22; sample_order 31].
  repeat split. repeat constructor. discriminate.
Defined.

Lemma X10_lookup_upstream_failure_witness :
  getExecutiveOrderByNumber
    (canned_host service_unavailable service_unavailable service_unavailable) 22 None tt
  = (Throw "Federal Register API error: 503 Service Unavailable", tt).
Proof.
  exact (proj1 (X10_lookup_upstream_failure
                  (canned_host service_unavailable service_unavailable
                     service_unavailable)
                  22 None tt tt tt service_unavailable service_unavailable
                  eq_refl eq_refl eq_refl eq_refl)).
Defined.

Lemma X11_getExecutiveOrderFullText_not_found_witness :
  getExecutiveOrderFullText
    (spy_host (canned_host (found_orders [sample_order 10; sample_order 31])
                 service_unavailable service_unavailable)) 22 (tt, [])
  = (Ok None,
     (tt, [GetSearch (search_url (getExecutiveOrderByNumber_params 22 None))])).
Proof.
  apply (X11_getExecutiveOrderFullText_not_found
           (canned_host (found_orders [sample_order 10; sample_order 31])
              service_unavailable service_unavailable)
           22 tt tt
           (mkSearchResult 2 (Some 1) (Some [sample_order 10; sample_order 31]))
           eq_refl).
  intros r Hin. simpl in Hin. destruct Hin as [<-|[<-|[]]]; discriminate.
Defined.

Lemma X12_getExecutiveOrderFullText_complete_witness :
  fst (getExecutiveOrderFullText
         (spy_host (canned_host (found_orders [sample_order 22])
                      (mkResponse true 200 "OK" (Ok (order_with_text 22)))
                      (mkResponse true 200 "OK" (Ok "EXECUTIVE ORDER 22"))))
         22 (tt, []))
  = Ok (Some (FullText.mk 22 (Some "2024-22") "Sample order" "2024-01-01"
                (mkPresidentInfo "Joseph R. Biden Jr." "joe-biden") None
                (Some "EXECUTIVE ORDER 22") None
                "https://www.federalregister.gov/d/sample" None)).
Proof.
  exact (f_equal fst
           (X12_getExecutiveOrderFullText_complete
              (canned_host (found_orders [sample_order 22])
                 (mkResponse true 200 "OK" (Ok (order_with_text 22)))
                 (mkResponse true 200 "OK" (Ok "EXECUTIVE ORDER 22")))
              22 tt tt tt tt (sample_order 22) (order_with_text 22)
              "https://www.federalregister.gov/documents/full_text/text/sample.txt"
              "EXECUTIVE ORDER 22"
              (mkResponse true 200 "OK" (Ok "EXECUTIVE ORDER 22"))
              eq_refl eq_refl eq_refl
              (fun E => match E in _ = s return
                              match s with EmptyString => False | _ => True end
                        with eq_refl => I end)
              eq_refl eq_refl eq_refl)).
Defined.

Lemma X13_getExecutiveOrderFullText_text_failure_witness :
  getExecutiveOrderFullText
    (canned_host (found_orders [sample_order 22])
       (mkResponse true 200 "OK" (Ok (order_with_text 22)))
       (mkResponse false 404 "Not Found" (Ok "<html>not found</html>")))
    22 tt
  = (Throw "Failed to fetch document text: 404", tt).
Proof.
  refine (X13_getExecutiveOrderFullText_text_failure
            (canned_host (found_orders [sample_order 22])
               (mkResponse true 200 "OK" (Ok (order_with_text 22)))
               (mkResponse false 404 "Not Found" (Ok "<html>not found</html>")))
            22 tt tt tt tt (sample_order 22) (order_with_text 22)
            "https://www.federalregister.gov/documents/full_text/text/sample.txt"
            (mkResponse false 404 "Not Found" (Ok "<html>not found</html>"))
            eq_refl eq_refl eq_refl _ eq_refl eq_refl).
  discriminate.
Defined.

(** ** Orders of a president and recent orders, continued *)

Section ByPresidentEdges.
Context {W : Type}.

(** X14. [getExecutiveOrdersByPresident] stops after one search when the
    first page is empty or absent (the result is empty) or does not
    report more pages than one (the result is that page); it rejects when
    a search rejects, and when the second search rejects the results of
    the first page are not returned. *)
Theorem X14_getExecutiveOrdersByPresident_edges (h : Host W) (president : string)
    (fields : option (list string)) (w : W) :
  let request p :=
    GetSearch (search_url (searchExecutiveOrders_params
                             (by_president_options president fields p))) in
  (forall first w1 fuel,
      searchExecutiveOrders h (by_president_options president fields 1) w
      = (Ok first, w1) ->
      results first = None \/ results first = Some [] ->
      getExecutiveOrdersByPresident (S fuel) (spy_host h) president fields (w, [])
      = Some (Ok [], (w1, [request 1])))
  /\ (forall first w1 r rs fuel,
         searchExecutiveOrders h (by_president_options president fields 1) w
         = (Ok first, w1) ->
         results first = Some (r :: rs) ->
         (forall tp, total_pages first = Some tp -> tp <= 1) ->
         getExecutiveOrdersByPresident (S fuel) (spy_host h) president fields (w, [])
         = Some (Ok (r :: rs), (w1, [request 1])))
  /\ (forall msg w1 fuel,
         searchExecutiveOrders h (by_president_options president fields 1) w
         = (Throw msg, w1) ->
         getExecutiveOrdersByPresident (S fuel) (spy_host h) president fields (w, [])
         = Some (Throw msg, (w1, [request 1])))
  /\ (forall first w1 r rs tp msg w2 fuel,
         searchExecutiveOrders h (by_president_options president fields 1) w
         = (Ok first, w1) ->
         results first = Some (r :: rs) ->
         total_pages first = Some tp -> 1 < tp ->
         searchExecutiveOrders h (by_president_options president fields 2) w1
         = (Throw msg, w2) ->
         getExecutiveOrdersByPresident (2 + fuel) (spy_host h) president fields (w, [])
         = Some (Throw msg, (w2, [request 1; request 2]))).
Proof.
  intros request. unfold getExecutiveOrdersByPresident. repeat split.
  - intros first w1 fuel H1 Hempty.
    rewrite getExecutiveOrdersByPresident_loop_step, searchExecutiveOrders_spy, H1.
    cbn [fst snd]. destruct Hempty as [-> | ->]; reflexivity.
  - intros first w1 r rs fuel H1 R1 Htp.
    rewrite getExecutiveOrdersByPresident_loop_step, searchExecutiveOrders_spy, H1.
    cbn [fst snd]. rewrite R1.
    assert (Hlast : match total_pages first with
                    | Some tp => (1 <? tp) && (1 <? 2)
                    | None => false
                    end = false).
    { destruct (total_pages first) as [tp|]; [|reflexivity].
      specialize (Htp tp eq_refl).
      replace (1 <? tp) with false by (symmetry; apply Z.ltb_ge; lia).
      reflexivity. }
    rewrite Hlast. reflexivity.
  - intros msg w1 fuel H1.
    rewrite getExecutiveOrdersByPresident_loop_step, searchExecutiveOrders_spy, H1.
    reflexivity.
  - intros first w1 r rs tp msg w2 fuel H1 R1 T1 Htp H2.
    change (2 + fuel)%nat with (S (S fuel)).
    rewrite getExecutiveOrdersByPresident_loop_step, searchExecutiveOrders_spy, H1.
    cbn [fst snd]. rewrite R1, T1.
    replace (1 <? tp) with true by (symmetry; apply Z.ltb_lt; lia).
    change (true && (1 <? 2)) with true. cbv iota. change (1 + 1) with 2.
    rewrite getExecutiveOrdersByPresident_loop_step, searchExecutiveOrders_spy, H2.
    reflexivity.
Qed.

End ByPresidentEdges.

Lemma X14_getExecutiveOrdersByPresident_edges_witness :
  fst (match getExecutiveOrdersByPresident 2
               (spy_host (flaky_host [sample_order 1; sample_order 2] 3))
               "joe-biden" None (0%nat, [])
       with
       | Some run => run
       | None => (Ok [], (0%nat, []))
       end)
  = Throw "Federal Register API error: 503 Service Unavailable".
Proof.
  pose proof (proj2 (proj2 (proj2 (X14_getExecutiveOrdersByPresident_edges
                (flaky_host [sample_order 1; sample_order 2] 3) "joe-biden" None 0%nat)))
                (mkSearchResult 2 (Some 3) (Some [sample_order 1; sample_order 2]))
                1%nat (sample_order 1) [sample_order 2] 3
                "Federal Register API error: 503 Service Unavailable" 2%nat 0%nat
                eq_refl eq_refl eq_refl eq_refl eq_refl) as H.
  cbv zeta in H. change (2 + 0)%nat with 2%nat in H. rewrite H. reflexivity.
Defined.

Lemma iso_date_nonempty (y m d : Z) : JSDate.iso_date y m d <> "".
Proof.
  unfold JSDate.iso_date. intros H. apply (f_equal String.length) in H.
  rewrite !append_length in H. simpl in H. lia.
Qed.

Section RecentFacts.
Context {W : Type}.

(** X15. On a host whose time zone keeps one offset from UTC, the search
    of the recent orders is the executive-order search whose only
    optional filter is [signing_date] with the lower bound [gte] set to
    the UTC date 30 days before the UTC date of the call, written
    [YYYY-MM-DD]; it has no upper bound and is one request. *)
Theorem X15_getRecentExecutiveOrders_fixed_zone (h : Host W)
    (fields : option (list string)) (w : W) (minutes : Z) :
  zone h = JSDate.fixed_zone minutes ->
  Z.abs (clock h w - 30 * JSDate.msPerDay) <= 8640000000000000 ->
  let floor := JSDate.iso_date_of_day (JSDate.Day (clock h w) - 30) in
  let options := EOOptions.mk None None None (Some floor) None fields None None in
  getRecentExecutiveOrders h fields w = searchExecutiveOrders h options w
  /\ executive_order_conditions options
     = [("type", VStr "PRESDOCU");
        ("presidential_document_type", VStr "executive_order");
        ("correction", VNum 0);
        ("signing_date", VObj [("gte", VStr floor)])]
  /\ snd (snd (getRecentExecutiveOrders (spy_host h) fields (w, [])))
     = [GetSearch (search_url (searchExecutiveOrders_params options))].
Proof.
  intros Hzone Hrange floor options.
  assert (Hdate : getRecentExecutiveOrders_dateStr (zone h) (clock h w) = Ok floor)
    by (rewrite Hzone; now apply DateFacts.dateStr_fixed_zone).
  assert (Hfloor : truthy_str (Some floor) = Some floor).
  { unfold floor, JSDate.iso_date_of_day.
    destruct (JSDate.civil_of_day (JSDate.Day (clock h w) - 30)) as [[y m] d].
    pose proof (iso_date_nonempty y m d) as Hne.
    destruct (JSDate.iso_date y m d); [contradiction | reflexivity]. }
  repeat split.
  - unfold getRecentExecutiveOrders, await, settle. now rewrite Hdate.
  - unfold executive_order_conditions, options.
    cbn [EOOptions.president EOOptions.year EOOptions.term EOOptions.signingDateGte
         EOOptions.signingDateLte].
    rewrite Hfloor. reflexivity.
  - unfold getRecentExecutiveOrders, await, settle.
    cbn [spy_host zone clock fst]. rewrite Hdate.
    fold options.
    change (searchExecutiveOrders (spy_host h) options (w, []))
      with (searchExecutiveOrders (spy_host h) options (w, [])).
    rewrite searchExecutiveOrders_spy. reflexivity.
Qed.

End RecentFacts.

Lemma X15_getRecentExecutiveOrders_fixed_zone_witness :
  executive_order_conditions
    (EOOptions.mk None None None (Some "2026-10-21") None None None None)
  = [("type", VStr "PRESDOCU");
     ("presidential_document_type", VStr "executive_order");
     ("correction", VNum 0);
     ("signing_date", VObj [("gte", VStr "2026-10-21")])]
  /\ snd (snd (getRecentExecutiveOrders
                 (spy_host (sample_host [] 1 instant_2026_11_20_0030
                              (JSDate.fixed_zone (-300)))) None (tt, [])))
     = [GetSearch
          (search_url
             (searchExecutiveOrders_params
                (EOOptions.mk None None None (Some "2026-10-21") None None None None)))].
Proof.
  refine (proj2 (X15_getRecentExecutiveOrders_fixed_zone
                   (sample_host [] 1 instant_2026_11_20_0030 (JSDate.fixed_zone (-300)))
                   None tt (-300) eq_refl _)).
  vm_compute. discriminate.
Defined.

(** ** The searches on the wire *)

Lemma truthy_num_default (n : option Z) (d : Z) :
  d <> 0 ->
  truthy_num (Some (or_default (truthy_num n) d)) = Some (or_default (truthy_num n) d).
Proof.
  intros Hd. destruct n as [z|]; simpl.
  - destruct (z =? 0) eqn:E; simpl.
    + destruct (d =? 0) eqn:E'; [apply Z.eqb_eq in E'; contradiction | reflexivity].
    + now rewrite E.
  - destruct (d =? 0) eqn:E'; [apply Z.eqb_eq in E'; contradiction | reflexivity].
Qed.

Lemma num_pair_default (key : string) (n : option Z) (d : Z) :
  d <> 0 ->
  num_pair key (Some (or_default (truthy_num n) d))
  = [pair_of key (Str.of_Z (or_default (truthy_num n) d))].
Proof. intros Hd. unfold num_pair. now rewrite truthy_num_default. Qed.

Lemma condition_pairs_str (key : string) (s : option string) :
  condition_pairs match truthy_str s with
                  | Some v => [(key, VStr v)]
                  | None => []
                  end
  = str_pair ("conditions[" ++ key ++ "]") s.
Proof. unfold str_pair. destruct (truthy_str s); reflexivity. Qed.

Lemma condition_pairs_year (y : option Z) :
  condition_pairs match truthy_num y with
                  | Some z => [("publication_date", VObj [("year", VNum z)])]
                  | None => []
                  end
  = num_pair "conditions[publication_date][year]" y.
Proof. unfold num_pair. destruct (truthy_num y); reflexivity. Qed.

Lemma condition_pairs_range (key : string) (gte lte : option string) :
  condition_pairs
    match truthy_str gte, truthy_str lte with
    | None, None => []
    | g, l =>
        [(key,
          VObj (match g with Some d => [("gte", VStr d)] | None => [] end
                ++ match l with Some d => [("lte", VStr d)] | None => [] end))]
    end
  = (str_pair ("conditions[" ++ key ++ "][gte]") gte
     ++ str_pair ("conditions[" ++ key ++ "][lte]") lte)%list.
Proof.
  unfold str_pair. destruct (truthy_str gte), (truthy_str lte); reflexivity.
Qed.

(** X16. The query string of every executive-order search: the three
    fixed filters come first and cannot be replaced, then the president,
    the publication year, the search term and the signing-date bounds,
    each only when given and not empty (a year of zero counts as not
    given), then the selected or default fields, then [per_page] (100
    when absent or zero), [page] (1 when absent or zero) and the fixed
    sort order. *)
Theorem X16_searchExecutiveOrders_query (options : EOOptions.t) :
  query_pairs (buildQueryString (searchExecutiveOrders_params options))
  = ([pair_of "conditions[type]" "PRESDOCU";
      pair_of "conditions[presidential_document_type]" "executive_order";
      pair_of "conditions[correction]" "0"]
     ++ str_pair "conditions[president]" (EOOptions.president options)
     ++ num_pair "conditions[publication_date][year]" (EOOptions.year options)
     ++ str_pair "conditions[term]" (EOOptions.term options)
     ++ str_pair "conditions[signing_date][gte]" (EOOptions.signingDateGte options)
     ++ str_pair "conditions[signing_date][lte]" (EOOptions.signingDateLte options)
     ++ map (pair_of "fields[]")
          (or_default (EOOptions.fields options) searchExecutiveOrders_defaultFields)
     ++ [pair_of "per_page"
           (Str.of_Z (or_default (truthy_num (EOOptions.per_page options)) 100));
         pair_of "page"
           (Str.of_Z (or_default (truthy_num (EOOptions.page options)) 1));
         pair_of "order" "executive_order_number"])%list.
Proof.
  rewrite query_pairs_parts, query_parts_split, other_pairs_layout.
  unfold searchExecutiveOrders_params.
  cbn [conditions fields per_page page order format].
  rewrite !num_pair_default by discriminate.
  unfold executive_order_conditions.
  rewrite !condition_pairs_app, !condition_pairs_str, condition_pairs_year,
    (condition_pairs_range "signing_date").
  unfold field_pairs. cbn [or_default].
  rewrite <- !app_assoc. reflexivity.
Qed.

(** X17. Memoranda and proclamation searches go out like executive-order
    searches, with their own document type among the three fixed
    filters, without signing-date bounds and without a sort order:
    president, year and term when given and not empty, the selected or
    default fields, [per_page] (default 100) and [page] (default 1). *)
Theorem X17_presidential_searches_query (options : PDOptions.t) :
  query_pairs (buildQueryString (searchPresidentialMemoranda_params options))
  = presidential_query "memorandum" searchPresidentialMemoranda_defaultFields options
  /\ query_pairs (buildQueryString (searchProclamations_params options))
     = presidential_query "proclamation" searchProclamations_defaultFields options.
Proof.
  split;
    rewrite query_pairs_parts, query_parts_split, other_pairs_layout;
    [unfold searchPresidentialMemoranda_params | unfold searchProclamations_params];
    cbn [conditions fields per_page page order format];
    rewrite !num_pair_default by discriminate;
    rewrite !condition_pairs_app, !condition_pairs_str, condition_pairs_year;
    unfold field_pairs, presidential_query; cbn [or_default];
    rewrite <- !app_assoc; reflexivity.
Qed.

(** X18. The query string of the [search_documents] tool: term, type,
    presidential document type and president when given and not empty,
    the agency as the single pair [conditions[agencies]=slug], then the
    publication date, where a publication year that is not zero takes
    the place of both date bounds, then [per_page] and [page] when given
    and not zero; the tool never sends a field selection or a sort
    order. *)
Theorem X18_search_documents_tool_query (args : Tool.SearchArgs) :
  query_pairs (buildQueryString (Tool.search_documents_params args))
  = (str_pair "conditions[term]" (Tool.term args)
     ++ str_pair "conditions[type]" (Tool.type args)
     ++ str_pair "conditions[presidential_document_type]"
          (Tool.presidential_document_type args)
     ++ str_pair "conditions[president]" (Tool.president args)
     ++ str_pair "conditions[agencies]" (Tool.agency args)
     ++ match truthy_num (Tool.publication_year args) with
        | Some y => [pair_of "conditions[publication_date][year]" (Str.of_Z y)]
        | None =>
            str_pair "conditions[publication_date][gte]" (Tool.publication_date_gte args)
            ++ str_pair "conditions[publication_date][lte]"
                 (Tool.publication_date_lte args)
        end
     ++ num_pair "per_page" (Tool.per_page args)
     ++ num_pair "page" (Tool.page args))%list.
Proof.
  rewrite query_pairs_parts, query_parts_split, other_pairs_layout.
  unfold Tool.search_documents_params.
  cbn [conditions fields per_page page order format].
  unfold Tool.search_documents_conditions.
  rewrite !condition_pairs_app, !condition_pairs_str.
  unfold field_pairs, str_pair at 6 7. cbn [or_default truthy_str map].
  destruct (truthy_num (Tool.publication_year args)) as [y|].
  - rewrite !app_nil_r. cbn [app]. rewrite <- !app_assoc. reflexivity.
  - rewrite (condition_pairs_range "publication_date").
    rewrite !app_nil_r. cbn [app]. rewrite <- !app_assoc. reflexivity.
Qed.

(** ** The tools *)

Section ToolFacts.
Context {W : Type}.
Variable stringify_order : ExecutiveOrder -> string.
Variable stringify_full : FullText.t -> string.

(** X19. When the search succeeds and surfaces no record with the
    number, the tools [get_executive_order] and
    [get_executive_order_full_text] resolve with one text item that says
    the order was not found; when the order is found,
    [get_executive_order] resolves with one text item, the serialized
    record; when the search response is not OK, both tools reject with
    the status message instead. *)
Theorem X19_order_tools_outcomes (h : Host W) (eo_number : Z) (w : W) :
  (forall found w1,
      searchDocuments h (getExecutiveOrderByNumber_params eo_number None) w
      = (Ok found, w1) ->
      (forall r, In r (or_default (results found) []) ->
                 executive_order_number r <> eo_number) ->
      Tool.get_executive_order stringify_order h eo_number w
      = (Ok (Tool.mkResult
               [Tool.mkText ("Executive order " ++ Str.of_Z eo_number ++ " not found.")]),
         w1)
      /\ Tool.get_executive_order_full_text stringify_full h eo_number w
         = (Ok (Tool.mkResult
                  [Tool.mkText ("Executive order " ++ Str.of_Z eo_number
                                ++ " not found.")]),
            w1))
  /\ (forall found w1 r,
         searchDocuments h (getExecutiveOrderByNumber_params eo_number None) w
         = (Ok found, w1) ->
         In r (or_default (results found) []) ->
         executive_order_number r = eo_number ->
         (forall r', In r' (or_default (results found) []) ->
                     executive_order_number r' = eo_number -> r' = r) ->
         Tool.get_executive_order stringify_order h eo_number w
         = (Ok (Tool.mkResult [Tool.mkText (stringify_order r)]), w1))
  /\ (forall response w1,
         fetch_search h (search_url (getExecutiveOrderByNumber_params eo_number None)) w
         = (Ok response, w1) ->
         ok response = false ->
         Tool.get_executive_order stringify_order h eo_number w
         = (Throw ("Federal Register API error: " ++ Str.of_Z (status response)
                   ++ " " ++ statusText response), w1)
         /\ Tool.get_executive_order_full_text stringify_full h eo_number w
            = (Throw ("Federal Register API error: " ++ Str.of_Z (status response)
                      ++ " " ++ statusText response), w1)).
Proof.
  assert (Hrun : forall found w1,
             searchDocuments h (getExecutiveOrderByNumber_params eo_number None) w
             = (Ok found, w1) ->
             getExecutiveOrderByNumber h eo_number None w
             = (Ok (find (fun r => executive_order_number r =? eo_number)
                      (or_default (results found) [])), w1)).
  { intros found w1 Hsearch.
    unfold getExecutiveOrderByNumber, await. rewrite Hsearch. unfold resolve.
    destruct (results found); reflexivity. }
  repeat split.
  - unfold Tool.get_executive_order, await. rewrite (Hrun _ _ H).
    rewrite find_absent; [reflexivity|].
    intros y Hy. apply Z.eqb_neq. now apply H0.
  - unfold Tool.get_executive_order_full_text, getExecutiveOrderFullText, await.
    rewrite (Hrun _ _ H).
    rewrite find_absent; [reflexivity|].
    intros y Hy. apply Z.eqb_neq. now apply H0.
  - intros found w1 r Hsearch Hin Hnum Huniq.
    unfold Tool.get_executive_order, await. rewrite (Hrun _ _ Hsearch).
    rewrite (find_unique _ _ r); [reflexivity | exact Hin | now apply Z.eqb_eq |].
    intros y Hy Hynum. apply Huniq; [exact Hy | now apply Z.eqb_eq].
  - unfold Tool.get_executive_order, getExecutiveOrderByNumber, await, searchDocuments.
    now rewrite (makeRequest_not_ok _ _ _ _ _ _ H H0).
  - unfold Tool.get_executive_order_full_text, getExecutiveOrderFullText,
      getExecutiveOrderByNumber, await, searchDocuments.
    now rewrite (makeRequest_not_ok _ _ _ _ _ _ H H0).
Qed.

End ToolFacts.

Lemma X19_order_tools_outcomes_witness :
  Tool.get_executive_order (fun r => title r)
    (canned_host (found_orders [sample_order 10; sample_order 31])
       service_unavailable service_unavailable) 22 tt
  = (Ok (Tool.mkResult [Tool.mkText "Executive order 22 not found."]), tt)
  /\ Tool.get_executive_order (fun r => title r)
       (canned_host service_unavailable service_unavailable service_unavailable) 22 tt
     = (Throw "Federal Register API error: 503 Service Unavailable", tt).
Proof.
  split.
  - refine (proj1 (proj1 (X19_order_tools_outcomes (fun r => title r)
                     (fun f => FullText.title f)
                     (canned_host (found_orders [sample_order 10; sample_order 31])
                        service_unavailable service_unavailable) 22 tt)
                     (mkSearchResult 2 (Some 1) (Some [sample_order 10; sample_order 31]))
                     tt eq_refl _)).
    intros r Hin. simpl in Hin. destruct Hin as [<-|[<-|[]]]; discriminate.
  - exact (proj1 (proj2 (proj2 (X19_order_tools_outcomes (fun r => title r)
                     (fun f => FullText.title f)
                     (canned_host service_unavailable service_unavailable
                        service_unavailable) 22 tt))
                     service_unavailable tt eq_refl eq_refl)).
Defined.

(** ** The command line *)

Section CliFacts.
Variable parseInt : string -> option Z.

Lemma indexOf_from_absent (x : string) (l : list string) (i : Z) :
  ~ In x l -> Cli.indexOf_from x l i = -1.
Proof.
  revert i. induction l as [|y l IH]; intros i Hnot; [reflexivity|].
  simpl. destruct (String.eqb_spec y x) as [->|_].
  - exfalso. apply Hnot. now left.
  - apply IH. intros Hin. apply Hnot. now right.
Qed.

Lemma indexOf_from_first (x : string) (pre post : list string) (i : Z) :
  ~ In x pre ->
  Cli.indexOf_from x (pre ++ x :: post) i = i + Z.of_nat (List.length pre).
Proof.
  revert i. induction pre as [|y pre IH]; intros i Hnot.
  - simpl. rewrite String.eqb_refl. lia.
  - simpl app. simpl Cli.indexOf_from.
    destruct (String.eqb_spec y x) as [->|_].
    + exfalso. apply Hnot. now left.
    + rewrite IH by (intros Hin; apply Hnot; now right).
      cbn [List.length]. lia.
Qed.

Lemma at_index_after (pre rest : list string) (x : string) :
  Cli.at_index (pre ++ x :: rest) (Z.of_nat (List.length pre) + 1) = hd_error rest.
Proof.
  unfold Cli.at_index.
  replace (Z.of_nat (List.length pre) + 1 <? 0) with false
    by (symmetry; apply Z.ltb_ge; lia).
  replace (Z.to_nat (Z.of_nat (List.length pre) + 1)) with (List.length pre + 1)%nat
    by lia.
  rewrite nth_error_app2 by lia.
  replace (List.length pre + 1 - List.length pre)%nat with 1%nat by lia.
  destruct rest; reflexivity.
Qed.

(** X20. The port of the HTTP mode: the argument that follows the first
    [--port] is parsed when there is one and it is not empty, whatever
    the environment says and whatever comes later on the command line;
    without [--port], or when the first [--port] is the last argument or
    is followed by an empty argument, a non-empty [MCP_PORT] is parsed,
    and the port is 3000 otherwise. *)
Theorem X20_http_port_precedence (args : list string) (MCP_PORT : option string) :
  (forall pre v post,
      args = (pre ++ "--port" :: v :: post)%list ->
      ~ In "--port" pre ->
      v <> "" ->
      Cli.HTTP_PORT parseInt args MCP_PORT = parseInt v)
  /\ (~ In "--port" args
      \/ (exists pre,
             ~ In "--port" pre
             /\ (args = (pre ++ ["--port"])%list
                 \/ exists post, args = (pre ++ "--port" :: "" :: post)%list)) ->
      Cli.HTTP_PORT parseInt args MCP_PORT
      = match truthy_str MCP_PORT with
        | Some v => parseInt v
        | None => Some 3000
        end).
Proof.
  split.
  - intros pre v post -> Hnot Hv. unfold Cli.HTTP_PORT, Cli.indexOf.
    rewrite indexOf_from_first by exact Hnot.
    replace (0 + Z.of_nat (List.length pre) =? -1) with false
      by (symmetry; apply Z.eqb_neq; lia).
    cbn [negb]. rewrite Z.add_0_l, at_index_after. cbn [hd_error].
    destruct v; [contradiction | reflexivity].
  - intros [Hnot | (pre & Hnot & [-> | [post ->]])]; unfold Cli.HTTP_PORT, Cli.indexOf.
    + now rewrite indexOf_from_absent.
    + rewrite indexOf_from_first by exact Hnot.
      replace (0 + Z.of_nat (List.length pre) =? -1) with false
        by (symmetry; apply Z.eqb_neq; lia).
      cbn [negb]. now rewrite Z.add_0_l, at_index_after.
    + rewrite indexOf_from_first by exact Hnot.
      replace (0 + Z.of_nat (List.length pre) =? -1) with false
        by (symmetry; apply Z.eqb_neq; lia).
      cbn [negb]. now rewrite Z.add_0_l, at_index_after.
Qed.

End CliFacts.

Lemma X20_http_port_precedence_witness :
  Cli.HTTP_PORT (fun s => if String.eqb s "8080" then Some 8080 else None)
    ["--http"; "--port"; "8080"; "--port"; "9"] (Some "4000")
  = Some 8080
  /\ Cli.HTTP_PORT (fun s => if String.eqb s "4000" then Some 4000 else None)
       ["--http"; "--port"] (Some "4000")
     = Some 4000.
Proof.
  split.
  - refine (proj1 (X20_http_port_precedence
                     (fun s => if String.eqb s "8080" then Some 8080 else None)
                     ["--http"; "--port"; "8080"; "--port"; "9"] (Some "4000"))
                  ["--http"] "8080" ["--port"; "9"] eq_refl _ _).
    + simpl. intuition discriminate.
    + discriminate.
  - refine (proj2 (X20_http_port_precedence
                     (fun s => if String.eqb s "4000" then Some 4000 else None)
                     ["--http"; "--port"] (Some "4000")) _).
    right. exists ["--http"]. split; [simpl; intuition discriminate | now left].
Defined.

(** ** Documents by number *)

Lemma request_url_fields (endpoint : string) (f : string) (fs : list string) :
  request_url endpoint (mkQueryParams None (Some (f :: fs)) None None None None)
  = BASE_URL ++ endpoint ++ "?"
    ++ String.concat "&" (map (pair_of "fields[]") (f :: fs)).
Proof.
  assert (Hparts : query_parts (mkQueryParams None (Some (f :: fs)) None None None None)
                   = map (pair_of "fields[]") (f :: fs)).
  { rewrite query_parts_split, other_pairs_layout. simpl conditions.
    unfold field_pairs, num_pair, str_pair. simpl. now rewrite app_nil_r. }
  unfold request_url, buildQueryString. rewrite Hparts.
  destruct (String.concat "&" (map (pair_of "fields[]") (f :: fs))) eqn:E;
    [|reflexivity].
  exfalso. revert E. apply concat_amp_nonempty, pair_of_nonempty.
Qed.

(** X21. [getDocuments] sends one request, to the path made of the
    document numbers joined by commas, unescaped; without a field
    selection, or with an empty one, the URL has no query string, and
    otherwise its query is one [fields[]=f] pair per field. For a single
    number this is the URL [getDocument] fetches. *)
Theorem X21_documents_urls {W : Type}
    (fetch : string -> Promise W (Response DocumentList.t))
    (documentNumbers : list string) (fields : option (list string)) (w : W) :
  snd (snd (getDocuments (logged GetDocument fetch) documentNumbers fields (w, [])))
  = [GetDocument
       (BASE_URL ++ "/documents/" ++ String.concat "," documentNumbers ++ ".json"
        ++ match fields with
           | Some (f :: fs) =>
               "?" ++ String.concat "&" (map (pair_of "fields[]") (f :: fs))
           | _ => ""
           end)]
  /\ (forall n, documentNumbers = [n] ->
                document_url n fields
                = BASE_URL ++ "/documents/" ++ String.concat "," documentNumbers
                  ++ ".json"
                  ++ match fields with
                     | Some (f :: fs) =>
                         "?" ++ String.concat "&" (map (pair_of "fields[]") (f :: fs))
                     | _ => ""
                     end).
Proof.
  assert (Hurl : forall numbers,
             request_url ("/documents/" ++ numbers ++ ".json")
               match fields with
               | Some ((_ :: _) as fs) => mkQueryParams None (Some fs) None None None None
               | _ => empty_params
               end
             = BASE_URL ++ "/documents/" ++ numbers ++ ".json"
               ++ match fields with
                  | Some (f :: fs) =>
                      "?" ++ String.concat "&" (map (pair_of "fields[]") (f :: fs))
                  | _ => ""
                  end).
  { intros numbers. destruct fields as [[|f fs]|].
    - unfold request_url. simpl. now rewrite ?append_nil_r.
    - rewrite request_url_fields. f_equal. now rewrite !append_assoc.
    - unfold request_url. simpl. now rewrite ?append_nil_r. }
  split.
  - unfold getDocuments. rewrite makeRequest_logged. cbn [snd app]. now rewrite Hurl.
  - intros n ->. unfold document_url. now rewrite Hurl.
Qed.

(** ** What a tool returns *)

Section ToolShape.
Context {W : Type}.
Variable stringify_search : SearchResult ExecutiveOrder -> string.
Variable stringify_order : ExecutiveOrder -> string.
Variable stringify_full : FullText.t -> string.

Lemma tool_single {A} (p : Promise W A) (k : A -> Tool.Result) (w w' : W)
    (r : Tool.Result) :
  (forall a, List.length (Tool.content (k a)) = 1%nat) ->
  await p (fun a => resolve (k a)) w = (Ok r, w') ->
  List.length (Tool.content r) = 1%nat.
Proof.
  intros Hk. unfold await, resolve.
  destruct (p w) as [[a|msg] w1]; intros H; [|discriminate].
  injection H as <- _. apply Hk.
Qed.

(** X22. A tool that resolves returns exactly one content item, a text:
    the serialized result, the not-found sentence, or for
    [get_document_text] the fetched text itself. *)
Theorem X22_tools_one_text_item (h : Host W) (w w' : W) (r : Tool.Result) :
  (forall args,
      Tool.search_executive_orders stringify_search h args w = (Ok r, w') ->
      List.length (Tool.content r) = 1%nat)
  /\ (forall n,
         Tool.get_executive_order stringify_order h n w = (Ok r, w') ->
         List.length (Tool.content r) = 1%nat)
  /\ (forall n,
         Tool.get_executive_order_full_text stringify_full h n w = (Ok r, w') ->
         List.length (Tool.content r) = 1%nat)
  /\ (Tool.get_recent_executive_orders stringify_search h w = (Ok r, w') ->
      List.length (Tool.content r) = 1%nat)
  /\ (forall n fs,
         Tool.get_document stringify_order h n fs w = (Ok r, w') ->
         List.length (Tool.content r) = 1%nat)
  /\ (forall url,
         Tool.get_document_text h url w = (Ok r, w') ->
         r = Tool.mkResult [Tool.mkText (match fetchDocumentText h url w with
                                         | (Ok text, _) => text
                                         | (Throw _, _) => ""
                                         end)])
  /\ (forall args,
         Tool.search_documents stringify_search h args w = (Ok r, w') ->
         List.length (Tool.content r) = 1%nat).
Proof.
  repeat split.
  - intros args.
    exact (tool_single
             (searchExecutiveOrders h
                (EOOptions.mk (Tool.o_president args) (Tool.o_year args)
                   (Tool.o_term args) (Tool.o_signing_date_gte args)
                   (Tool.o_signing_date_lte args) None (Tool.o_per_page args)
                   (Tool.o_page args)))
             (fun a => Tool.jsonResult stringify_search a) w w' r (fun _ => eq_refl)).
  - intros n H. unfold Tool.get_executive_order, await in H.
    destruct (getExecutiveOrderByNumber h n None w) as [[[order|]|msg] w1];
      [| |discriminate]; injection H as <- _; reflexivity.
  - intros n H. unfold Tool.get_executive_order_full_text, await in H.
    destruct (getExecutiveOrderFullText h n w) as [[[full|]|msg] w1];
      [| |discriminate]; injection H as <- _; reflexivity.
  - exact (tool_single (getRecentExecutiveOrders h None)
             (fun a => Tool.jsonResult stringify_search a) w w' r (fun _ => eq_refl)).
  - intros n fs.
    exact (tool_single (getDocument h n fs)
             (fun a => Tool.jsonResult stringify_order a) w w' r (fun _ => eq_refl)).
  - intros url H. unfold Tool.get_document_text, await, resolve in H.
    destruct (fetchDocumentText h url w) as [[text|msg] w1]; [|discriminate].
    now injection H as <- _.
  - intros args.
    exact (tool_single (searchDocuments h (Tool.search_documents_params args))
             (fun a => Tool.jsonResult stringify_search a) w w' r (fun _ => eq_refl)).
Qed.

End ToolShape.

Lemma X22_tools_one_text_item_witness :
  List.length
    (Tool.content
       (Tool.mkResult [Tool.mkText "Executive order 22 not found."])) = 1%nat.
Proof.
  exact (proj1 (proj2 (X22_tools_one_text_item (fun _ => "") (fun r => title r)
                         (fun f => FullText.title f)
                         (canned_host (found_orders [sample_order 10; sample_order 31])
                            service_unavailable service_unavailable)
                         tt tt
                         (Tool.mkResult [Tool.mkText "Executive order 22 not found."])))
           22 eq_refl).
Defined.
